(** * af-webpack [getConfig]: a shallow embedding and its verified properties

    The development follows [packages/af-webpack/src/getConfig.js].  The
    function builds a webpack configuration object from an options record,
    the process environment and a handful of probes of the host (module
    resolution, file existence, reading the project manifest and the
    project-local lint configuration).  Everything the function reads from
    the outside is made explicit:

    - [Env.t] is [process.env];
    - [Host.t] bundles the host probes and the helper modules of the
      package that are imported by the file but defined elsewhere;
    - exceptions are values of [result], threaded with a small monad.

    The properties are stated on [config], the object [getConfig] builds
    and hands to [applyWebpackConfig]; that last call is the project's own
    hook and may return anything, or throw. *)

From Stdlib Require Import Ascii.
From stdpp Require Import gmap strings list fin_maps pretty.

#[local] Set Warnings "-register-all".

(** ** JavaScript values *)

Module JS.

(** The values that flow through the configuration untouched (user supplied
    option payloads, parsed JSON files). Objects are finite maps from
    property names to values. *)
Inductive jsval : Type :=
  | JUndefined
  | JNull
  | JBool (b : bool)
  | JNum (n : Z)
  | JStr (s : string)
  | JArr (l : list jsval)
  | JObj (o : gmap string jsval).

(** ToBoolean. *)
Definition truthy (v : jsval) : bool :=
  match v with
  | JUndefined | JNull => false
  | JBool b => b
  | JNum n => negb (n =? 0)%Z
  | JStr s => negb (String.eqb s "")
  | JArr _ | JObj _ => true
  end.

(** [a || b]. *)
Definition or (a b : jsval) : jsval := if truthy a then a else b.

(** [process.env.X] and optional string options: [None] is [undefined]. *)
Definition of_string (o : option string) : jsval :=
  match o with Some s => JStr s | None => JUndefined end.

Definition truthy_str (o : option string) : bool := truthy (of_string o).

(** Own enumerable properties, as copied by an object spread [{...v}]:
    the properties of an object, the indexed elements of an array or of a
    string, nothing for the other primitives. *)
Definition indexed (l : list jsval) : gmap string jsval :=
  list_to_map (imap (fun i v => (pretty i, v)) l).

Definition chars (s : string) : list jsval :=
  (fun c => JStr (String c "")) <$> String.list_ascii_of_string s.

Definition own_props (v : jsval) : gmap string jsval :=
  match v with
  | JObj o => o
  | JArr l => indexed l
  | JStr s => indexed (chars s)
  | _ => ∅
  end.

(** [{...a, ...b}]: the properties of [b] win. *)
Definition spread (a b : gmap string jsval) : gmap string jsval := b ∪ a.

(** [{...a, k: v}]. *)
Definition set (k : string) (v : jsval) (a : gmap string jsval) :
  gmap string jsval := <[k := v]> a.

End JS.

Import JS.

(** ** Exceptions *)

Inductive exn : Type :=
  | AssertionError (message : string)
  | CannotFindModule (request : string)
  | TypeError
  | Error (message : string).

Inductive result (A : Type) : Type :=
  | Ok (a : A)
  | Throw (e : exn).
Arguments Ok {A} a.
Arguments Throw {A} e.

Definition bind {A B : Type} (r : result A) (f : A → result B) : result B :=
  match r with
  | Ok a => f a
  | Throw e => Throw e
  end.

Notation "'let*' x := e 'in' k" := (bind e (fun x => k))
  (at level 10, x name, e at level 100, k at level 200,
   format "'[v' 'let*'  x  :=  e  'in' '/' k ']'").

(** [try { body } catch (e) { handler }] where the handler ignores [e]. *)
Definition try_catch {A : Type} (body : result A) (handler : A) : A :=
  match body with
  | Ok a => a
  | Throw _ => handler
  end.

Definition returns {A : Type} (r : result A) : Prop := ∃ a, r = Ok a.

(** Reading a property [v.k].  Reading from [undefined] or [null] throws;
    the only names the source reads ([dependencies], [devDependencies],
    [eslint], [extends]) are not built-in properties of strings, numbers,
    booleans or arrays, so those yield [undefined]. *)
Definition get_prop (v : jsval) (k : string) : result jsval :=
  match v with
  | JUndefined | JNull => Throw TypeError
  | JObj o => Ok (default JUndefined (o !! k))
  | _ => Ok JUndefined
  end.

(** ** Node's POSIX [path] module *)

Module Path.

Definition slash : ascii := "/"%char.

Fixpoint split (s : string) : list string :=
  match s with
  | EmptyString => [""]
  | String c s' =>
      if Ascii.eqb c slash then "" :: split s'
      else match split s' with
           | seg :: rest => String c seg :: rest
           | [] => [String c ""]
           end
  end.

Fixpoint join_segments (l : list string) : string :=
  match l with
  | [] => ""
  | [x] => x
  | x :: rest => x +:+ "/" +:+ join_segments rest
  end.

(** One step of [normalizeStringPosix]; the stack holds the segments kept so
    far, last one first. *)
Definition push_segment (allowAboveRoot : bool) (stack : list string)
    (seg : string) : list string :=
  if String.eqb seg "" || String.eqb seg "." then stack
  else if String.eqb seg ".." then
    match stack with
    | top :: rest => if String.eqb top ".." then ".." :: stack else rest
    | [] => if allowAboveRoot then [".."] else []
    end
  else seg :: stack.

Definition normalizeString (p : string) (allowAboveRoot : bool) : string :=
  join_segments (rev (fold_left (push_segment allowAboveRoot) (split p) [])).

Definition isAbsolute (p : string) : bool :=
  match p with
  | String c _ => Ascii.eqb c slash
  | EmptyString => false
  end.

(** The right-to-left scan of [path.resolve]: [rpaths] are the arguments,
    last one first; the process working directory is consulted only when
    no argument is absolute. *)
Fixpoint resolve_scan (process_cwd : string) (rpaths : list string)
    (acc : string) : string * bool :=
  match rpaths with
  | [] =>
      if String.eqb process_cwd "" then (acc, false)
      else (process_cwd +:+ "/" +:+ acc, isAbsolute process_cwd)
  | p :: rest =>
      if String.eqb p "" then resolve_scan process_cwd rest acc
      else if isAbsolute p then (p +:+ "/" +:+ acc, true)
      else resolve_scan process_cwd rest (p +:+ "/" +:+ acc)
  end.

Definition resolve (process_cwd : string) (paths : list string) : string :=
  let '(resolvedPath, resolvedAbsolute) :=
    resolve_scan process_cwd (rev paths) "" in
  let resolvedPath := normalizeString resolvedPath (negb resolvedAbsolute) in
  if resolvedAbsolute then "/" +:+ resolvedPath
  else if String.eqb resolvedPath "" then "." else resolvedPath.

Definition ends_with_slash (p : string) : bool :=
  match rev (String.list_ascii_of_string p) with
  | c :: _ => Ascii.eqb c slash
  | [] => false
  end.

Definition normalize (p : string) : string :=
  if String.eqb p "" then "."
  else
    let absolute := isAbsolute p in
    let trailingSeparator := ends_with_slash p in
    let q := normalizeString p (negb absolute) in
    let q := if String.eqb q "" && negb absolute then "." else q in
    let q := if negb (String.eqb q "") && trailingSeparator
             then q +:+ "/" else q in
    if absolute then "/" +:+ q else q.

Definition join (paths : list string) : string :=
  match List.filter (fun p => negb (String.eqb p "")) paths with
  | [] => "."
  | l => normalize (join_segments l)
  end.

Fixpoint drop_while {A : Type} (f : A → bool) (l : list A) : list A :=
  match l with
  | x :: l' => if f x then drop_while f l' else l
  | [] => []
  end.

Definition dirname (p : string) : string :=
  match String.list_ascii_of_string p with
  | [] => "."
  | c0 :: body =>
      let hasRoot := Ascii.eqb c0 slash in
      let r1 := drop_while (fun c => Ascii.eqb c slash) (rev body) in
      let r2 := drop_while (fun c => negb (Ascii.eqb c slash)) r1 in
      match r2 with
      | [] => if hasRoot then "/" else "."
      | _ :: r3 =>
          if hasRoot && bool_decide (r3 = []) then "//"
          else String.string_of_list_ascii (c0 :: rev r3)
      end
  end.

End Path.

(** [String.prototype.includes], enough for the literal patterns the source
    tests with [RegExp.prototype.test]. *)
Fixpoint includes (needle hay : string) : bool :=
  if String.prefix needle hay then true
  else match hay with
       | EmptyString => false
       | String _ hay' => includes needle hay'
       end.

(** [s.replace(/\\/g, '/')]. *)
Fixpoint backslashes_to_slashes (s : string) : string :=
  match s with
  | EmptyString => EmptyString
  | String c s' =>
      String (if Ascii.eqb c "\"%char then "/"%char else c)
             (backslashes_to_slashes s')
  end.

(** ** The process environment *)

Module Env.
Record t : Type := {
  NODE_ENV : option string;
  NO_COMPRESS : option string;
  DISABLE_BABELRC : option string;
  DISABLE_TSLINT : option string;
  DISABLE_ESLINT : option string;
  SOCKET_SERVER : option string;
  ANALYZE : option string;
  ANALYZE_PORT : option string;
  TS_TYPECHECK : option string;
  PUBLIC_PATH : option string;
}.
End Env.

(** ** The options record *)

Module Opts.
Record t : Type := {
  cwd : option string;
  theme : jsval;
  browserslist : jsval;
  extraPostCSSPlugins : option (list jsval);
  disableCSSModules : jsval;
  disableCSSSourceMap : jsval;
  sass : jsval;
  commons : option (list jsval);
  outputPath : option string;
  copy : jsval;
  hash : jsval;
  babel : jsval;
  devtool : jsval;
  entry : jsval;
  publicPath : jsval;
  extraResolveModules : option (list string);
  extraResolveExtensions : option (list string);
  alias : jsval;
  extraBabelIncludes : option (list string);
  manifest : jsval;
  define : jsval;
  ignoreMomentLocale : jsval;
  externals : jsval;
}.
End Opts.

(** ** Transformation rules *)

Inductive Pattern : Type :=
  | Regex (source : string)
  | Dir (path : string).

#[global] Instance Pattern_eq_dec : EqDecision Pattern.
Proof. solve_decision. Defined.

Inductive PostcssPlugin : Type :=
  | postcss_flexbugs_fixes
  | autoprefixer (browsers : jsval) (flexbox : string)
  | extraPostCSSPlugin (plugin : jsval).

Inductive Formatter : Type := eslintFormatter.

Module EslintOptions.
Record t : Type := {
  formatter : Formatter;
  baseConfig : jsval;
  ignore : bool;
  eslintPath : string;
  useEslintrc : bool;
}.
End EslintOptions.

Inductive LoaderOptions : Type :=
  | NoOptions
  | Options (o : jsval)
  | PostcssOptions (ident : string) (plugins : list PostcssPlugin)
  | EslintLoaderOptions (o : EslintOptions.t).

(** An element of a [use] array: a bare loader path, or a loader path with
    its options. *)
Inductive UseEntry : Type :=
  | Loader (loader : string)
  | LoaderWith (loader : string) (options : LoaderOptions).

(** The value of a rule's [use]: the array itself, or the result of
    [ExtractTextPlugin.extract({ use })]. *)
Inductive Use : Type :=
  | UseChain (chain : list UseEntry)
  | ExtractTextPlugin_extract (use : list UseEntry).

(** A rule of [module.rules].  An absent key is [None] (or [NoOptions]);
    [exclude] holds the patterns of the key, one when the source gives a
    single pattern, none when the key is absent. *)
Module Rule.
Record t : Type := {
  test : option Pattern;
  include : option Pattern;
  exclude : list Pattern;
  enforce : option string;
  use : option Use;
  loader : option string;
  options : LoaderOptions;
}.
End Rule.

(** ** Plugins *)

Inductive Plugin : Type :=
  | HotModuleReplacementPlugin
  | WatchMissingNodeModulesPlugin (nodeModulesPath : string)
  | SystemBellWebpackPlugin
  | SourceMapDevToolPlugin (columns : bool)
      (moduleFilenameTemplate : string → string)
  | OccurrenceOrderPlugin
  | ModuleConcatenationPlugin
  | ExtractTextPlugin (filename : string) (allChunks : bool)
  | ManifestPlugin (o : gmap string jsval)
  | UglifyJsPlugin (o : gmap string jsval)
  | DefinePlugin (definitions : gmap string jsval)
  | BundleAnalyzerPlugin (analyzerMode : string) (analyzerPort : jsval)
      (openAnalyzer : bool)
  | CaseSensitivePathsPlugin
  | LoaderOptionsPlugin (context : string)
  | ForkTsCheckerWebpackPlugin
  | IgnorePlugin (resourceRegExp contextRegExp : string)
  | CommonsChunkPlugin (common : jsval)
  | CopyWebpackPlugin (patterns : jsval).

(** The name of the constructor a plugin is built with. *)
Definition constructor_name (p : Plugin) : string :=
  match p with
  | HotModuleReplacementPlugin => "HotModuleReplacementPlugin"
  | WatchMissingNodeModulesPlugin _ => "WatchMissingNodeModulesPlugin"
  | SystemBellWebpackPlugin => "SystemBellWebpackPlugin"
  | SourceMapDevToolPlugin _ _ => "SourceMapDevToolPlugin"
  | OccurrenceOrderPlugin => "OccurrenceOrderPlugin"
  | ModuleConcatenationPlugin => "ModuleConcatenationPlugin"
  | ExtractTextPlugin _ _ => "ExtractTextPlugin"
  | ManifestPlugin _ => "ManifestPlugin"
  | UglifyJsPlugin _ => "UglifyJsPlugin"
  | DefinePlugin _ => "DefinePlugin"
  | BundleAnalyzerPlugin _ _ _ => "BundleAnalyzerPlugin"
  | CaseSensitivePathsPlugin => "CaseSensitivePathsPlugin"
  | LoaderOptionsPlugin _ => "LoaderOptionsPlugin"
  | ForkTsCheckerWebpackPlugin => "ForkTsCheckerWebpackPlugin"
  | IgnorePlugin _ _ => "IgnorePlugin"
  | CommonsChunkPlugin _ => "CommonsChunkPlugin"
  | CopyWebpackPlugin _ => "CopyWebpackPlugin"
  end.

(** ** The configuration object *)

Module Output.
Record t : Type := {
  path : string;
  pathinfo : bool;
  filename : string;
  publicPath : jsval;
  chunkFilename : string;
}.
End Output.

Module Resolve.
Record t : Type := {
  modules : list string;
  extensions : list string;
  alias : gmap string jsval;
}.
End Resolve.

Module Config.
Record t : Type := {
  bail : bool;
  devtool : jsval;
  entry : jsval;
  output : Output.t;
  resolve : Resolve.t;
  rules : list Rule.t;   (* [module.rules] *)
  plugins : list Plugin;
  externals : jsval;
  node : gmap string jsval;
  performance : gmap string jsval;
}.

(** [config.output.publicPath = v]. *)
Definition set_publicPath (v : jsval) (c : t) : t :=
  {| bail := bail c; devtool := devtool c; entry := entry c;
     output := {| Output.path := Output.path (output c);
                  Output.pathinfo := Output.pathinfo (output c);
                  Output.filename := Output.filename (output c);
                  Output.publicPath := v;
                  Output.chunkFilename := Output.chunkFilename (output c) |};
     resolve := resolve c; rules := rules c; plugins := plugins c;
     externals := externals c; node := node c;
     performance := performance c |}.
End Config.

(** ** The host

    What [getConfig] asks of its surroundings: Node's module resolution and
    file system, the [resolve] package, the constructors of the plugins,
    and the modules of af-webpack that the file imports ([normalizeTheme],
    [stringifyObject], [readRc], [applyWebpackConfig] and the default
    configurations), which are taken as given.  A call that throws returns
    [None].  A value of [Plugin] records the arguments of a constructor
    call [new P(args)]; [constructs p] tells whether that call returns, as
    it does not when the constructor rejects its arguments. *)

Module Host.
Record t : Type := {
  require_resolve : string → option string;
  require : string → option jsval;
  resolveSync : string → string → option string;
  existsSync : string → bool;
  readRc : string → option jsval;
  process_cwd : string;
  dirname__ : string;   (* [__dirname] *)
  JSON_stringify : jsval → string;
  normalizeTheme : jsval → option jsval;
  stringifyObject : jsval → gmap string jsval;
  constructs : Plugin → bool;
  applyWebpackConfig : Config.t → option Config.t;
  uglifyJSConfig : jsval;
  babelConfig : jsval;
  defaultBrowsers : jsval;
}.
End Host.

(** ** Helpers of the package *)

(** Modelled from the spec: [stripLastSlash] of [./utils], which the file
    imports and which is not among the sources.  The spec has the
    public-path override end "with a trailing separator normalized to
    exactly one" once the source has appended one separator to what the
    helper returns, so the helper removes the separators its argument ends
    with. *)
Definition stripLastSlash (s : string) : string :=
  String.string_of_list_ascii
    (rev (Path.drop_while (fun c => Ascii.eqb c Path.slash)
            (rev (String.list_ascii_of_string s)))).

(** ** [getConfig] *)

(** The argument of the inner [getCSSLoader(opts = {})]; an absent flag is
    [false], an absent [sassOptions] is [undefined]. *)
Module CSSLoaderOpts.
Record t : Type := {
  cssModules : bool;
  less : bool;
  sass : bool;
  sassOptions : jsval;
}.
Definition empty : t :=
  {| cssModules := false; less := false; sass := false;
     sassOptions := JUndefined |}.
End CSSLoaderOpts.

(** A rule given by [test], [include], [exclude] and [use] only. *)
Definition use_rule (test : string) (include : option Pattern)
    (exclude : list Pattern) (use : list UseEntry) : Rule.t :=
  {| Rule.test := Some (Regex test);
     Rule.include := include;
     Rule.exclude := exclude;
     Rule.enforce := None;
     Rule.use := Some (UseChain use);
     Rule.loader := None;
     Rule.options := NoOptions |}.

(** [rule.use = ExtractTextPlugin.extract({ use: rule.use.slice(1) })]. *)
Definition extract_rule (rule : Rule.t) : Rule.t :=
  {| Rule.test := Rule.test rule;
     Rule.include := Rule.include rule;
     Rule.exclude := Rule.exclude rule;
     Rule.enforce := Rule.enforce rule;
     Rule.use :=
       match Rule.use rule with
       | Some (UseChain chain) => Some (ExtractTextPlugin_extract (drop 1 chain))
       | other => other
       end;
     Rule.loader := Rule.loader rule;
     Rule.options := Rule.options rule |}.

Definition node_modules : Pattern := Regex "node_modules".

Section getConfig.

Variable opts : Opts.t.
Variable env : Env.t.
Variable host : Host.t.

Definition require_resolve (request : string) : result string :=
  match Host.require_resolve host request with
  | Some p => Ok p
  | None => Throw (CannotFindModule request)
  end.

Definition require (p : string) : result jsval :=
  match Host.require host p with
  | Some v => Ok v
  | None => Throw (CannotFindModule p)
  end.

Definition resolveSync (id basedir : string) : result string :=
  match Host.resolveSync host id basedir with
  | Some p => Ok p
  | None => Throw (CannotFindModule id)
  end.

Definition readRc (p : string) : result jsval :=
  match Host.readRc host p with
  | Some v => Ok v
  | None => Throw (Error p)
  end.

Definition normalizeTheme (theme : jsval) : result jsval :=
  match Host.normalizeTheme host theme with
  | Some v => Ok v
  | None => Throw (Error "normalizeTheme")
  end.

(** [new P(args)]: the plugin, or the exception of its constructor. *)
Definition construct (p : Plugin) : result Plugin :=
  if Host.constructs host p then Ok p
  else Throw (Error (constructor_name p)).

(** The constructor calls of a list, from left to right. *)
Fixpoint construct_all (calls : list Plugin) : result (list Plugin) :=
  match calls with
  | [] => Ok []
  | p :: calls' =>
      let* p := construct p in
      let* built := construct_all calls' in
      Ok (p :: built)
  end.

(** [path.resolve(...paths)] in the running process. *)
Definition resolve (paths : list string) : string :=
  Path.resolve (Host.process_cwd host) paths.

(** [opts.cwd], a string once the assertion has passed. *)
Definition cwd : string := default "" (Opts.cwd opts).

Definition isDev : bool :=
  bool_decide (Env.NODE_ENV env = Some "development").

(** The constant [theme], once the call [normalizeTheme(opts.theme)] that
    [config] makes first has returned. *)
Definition theme : jsval :=
  default JUndefined (Host.normalizeTheme host (Opts.theme opts)).

Definition postcssOptions : LoaderOptions :=
  PostcssOptions "postcss"
    ([postcss_flexbugs_fixes;
      autoprefixer (JS.or (Opts.browserslist opts) (Host.defaultBrowsers host))
                   "no-2009"]
     ++ (extraPostCSSPlugin <$> default [] (Opts.extraPostCSSPlugins opts))).

Definition cssModulesConfig : gmap string jsval :=
  if truthy (Opts.disableCSSModules opts) then ∅
  else {[ "modules" := JBool true;
          "localIdentName" := JStr "[local]___[hash:base64:5]" ]}.

Definition lessOptions : gmap string jsval := {[ "modifyVars" := theme ]}.

Definition cssOptions : gmap string jsval :=
  spread {[ "importLoaders" := JNum 1 ]}
    (if isDev then ∅
     else {[ "minimize" := JBool (negb (truthy_str (Env.NO_COMPRESS env)));
             "sourceMap" :=
               JBool (negb (truthy (Opts.disableCSSSourceMap opts))) ]}).

Definition getCSSLoader (o : CSSLoaderOpts.t) : result (list UseEntry) :=
  let hasSassLoader := try_catch (let* _ := require_resolve "sass-loader" in Ok true) false in
  let* style := require_resolve "style-loader" in
  let* css := require_resolve "css-loader" in
  let* postcss := require_resolve "postcss-loader" in
  let* lessStep :=
    (if CSSLoaderOpts.less o then
       let* less := require_resolve "less-loader" in
       Ok [LoaderWith less (Options (JObj lessOptions))]
     else Ok []) in
  let* sassStep :=
    (if CSSLoaderOpts.sass o && hasSassLoader then
       let* sass := require_resolve "sass-loader" in
       Ok [LoaderWith sass (Options (CSSLoaderOpts.sassOptions o))]
     else Ok []) in
  Ok ([Loader style;
       LoaderWith css
         (Options (JObj (spread cssOptions
            (if CSSLoaderOpts.cssModules o then cssModulesConfig else ∅))));
       LoaderWith postcss postcssOptions]
      ++ lessStep ++ sassStep).

(** The [cssRules] array literal, before the production rewrite. *)
Definition cssRules_literal : result (list Rule.t) :=
  let* css := getCSSLoader
    {| CSSLoaderOpts.cssModules := true; CSSLoaderOpts.less := false;
       CSSLoaderOpts.sass := false; CSSLoaderOpts.sassOptions := JUndefined |} in
  let* css_nm := getCSSLoader CSSLoaderOpts.empty in
  let* less := getCSSLoader
    {| CSSLoaderOpts.cssModules := true; CSSLoaderOpts.less := true;
       CSSLoaderOpts.sass := false; CSSLoaderOpts.sassOptions := JUndefined |} in
  let* less_nm := getCSSLoader
    {| CSSLoaderOpts.cssModules := false; CSSLoaderOpts.less := true;
       CSSLoaderOpts.sass := false; CSSLoaderOpts.sassOptions := JUndefined |} in
  let* sass := getCSSLoader
    {| CSSLoaderOpts.cssModules := true; CSSLoaderOpts.less := false;
       CSSLoaderOpts.sass := true;
       CSSLoaderOpts.sassOptions := Opts.sass opts |} in
  let* sass_nm := getCSSLoader
    {| CSSLoaderOpts.cssModules := false; CSSLoaderOpts.less := false;
       CSSLoaderOpts.sass := true;
       CSSLoaderOpts.sassOptions := Opts.sass opts |} in
  Ok [use_rule "\.css$" None [node_modules] css;
      use_rule "\.css$" (Some node_modules) [] css_nm;
      use_rule "\.less$" None [node_modules] less;
      use_rule "\.less$" (Some node_modules) [] less_nm;
      use_rule "\.(sass|scss)$" None [node_modules] sass;
      use_rule "\.(sass|scss)$" (Some node_modules) [] sass_nm].

(** [cssRules] as spread into [module.rules]: outside development every
    rule has been rewritten in place. *)
Definition cssRules : result (list Rule.t) :=
  let* rules := cssRules_literal in
  Ok (if negb isDev then extract_rule <$> rules else rules).

Definition commonsPlugins : result (list Plugin) :=
  construct_all (CommonsChunkPlugin <$> default [] (Opts.commons opts)).

Definition outputPath : string :=
  if truthy_str (Opts.outputPath opts) then default "" (Opts.outputPath opts)
  else resolve [cwd; "dist"].

Definition copyPlugins : result (list Plugin) :=
  let* copyPlugins :=
    (if truthy (Opts.copy opts)
     then construct_all [CopyWebpackPlugin (Opts.copy opts)]
     else Ok []) in
  if Host.existsSync host (resolve [cwd; "public"]) then
    let* public :=
      construct
        (CopyWebpackPlugin
           (JArr [JObj {[ "from" := JStr (resolve [cwd; "public"]);
                          "to" := JStr (resolve [cwd; outputPath]) ]}])) in
    Ok (copyPlugins ++ [public])
  else Ok copyPlugins.

Definition jsHash : string :=
  if negb isDev && truthy (Opts.hash opts) then ".[chunkhash:8]" else "".

Definition cssHash : string :=
  if negb isDev && truthy (Opts.hash opts) then ".[contenthash:8]" else "".

Definition babelUse : result (list UseEntry) :=
  let* babel := require_resolve "babel-loader" in
  Ok [LoaderWith (Path.join [Host.dirname__ host; "debugLoader.js"]) NoOptions;
      LoaderWith babel
        (Options (JObj
           (JS.set "babelrc"
              (JBool (if truthy_str (Env.DISABLE_BABELRC env) then false
                      else true))
              (JS.set "cacheDirectory" (JBool false)
                 (own_props
                    (JS.or (Opts.babel opts) (Host.babelConfig host)))))))].

(** The [eslintOptions] object literal. *)
Definition eslintOptions_literal : result EslintOptions.t :=
  let* umi := require_resolve "eslint-config-umi" in
  let* eslint := require_resolve "eslint" in
  Ok {| EslintOptions.formatter := eslintFormatter;
        EslintOptions.baseConfig := JObj {[ "extends" := JArr [JStr umi] ]};
        EslintOptions.ignore := false;
        EslintOptions.eslintPath := eslint;
        EslintOptions.useEslintrc := false |}.

Definition set_eslintPath (p : string) (o : EslintOptions.t) :
    EslintOptions.t :=
  {| EslintOptions.formatter := EslintOptions.formatter o;
     EslintOptions.baseConfig := EslintOptions.baseConfig o;
     EslintOptions.ignore := EslintOptions.ignore o;
     EslintOptions.eslintPath := p;
     EslintOptions.useEslintrc := EslintOptions.useEslintrc o |}.

(** The first [try] block: the manifest is read and, when the test on its
    dependency tables passes, the project's own eslint is resolved from
    [opts.cwd].  Any exception leaves [eslintOptions] as it was. *)
Definition use_user_eslint (o : EslintOptions.t) : EslintOptions.t :=
  try_catch
    (let* pkg := require (resolve ["package.json"]) in
     let* dependencies := get_prop pkg "dependencies" in
     let* devDependencies := get_prop pkg "devDependencies" in
     let* eslint := get_prop dependencies "eslint" in
     if truthy eslint || truthy devDependencies then
       let* eslintPath := resolveSync "eslint" cwd in
       Ok (set_eslintPath eslintPath o)
     else Ok o)
    o.

(** The second block: the project's [.eslintrc]. *)
Definition use_user_eslintrc (o : EslintOptions.t) : EslintOptions.t :=
  if Host.existsSync host (resolve [".eslintrc"]) then
    try_catch
      (let* userRc := readRc (resolve [".eslintrc"]) in
       let* extends := get_prop userRc "extends" in
       if truthy extends then
         Ok {| EslintOptions.formatter := EslintOptions.formatter o;
               EslintOptions.baseConfig := JBool false;
               EslintOptions.ignore := true;
               EslintOptions.eslintPath := EslintOptions.eslintPath o;
               EslintOptions.useEslintrc := true |}
       else
         Ok {| EslintOptions.formatter := EslintOptions.formatter o;
               EslintOptions.baseConfig :=
                 JObj (spread (own_props (EslintOptions.baseConfig o))
                              (own_props userRc));
               EslintOptions.ignore := EslintOptions.ignore o;
               EslintOptions.eslintPath := EslintOptions.eslintPath o;
               EslintOptions.useEslintrc := EslintOptions.useEslintrc o |})
      o
  else o.

(** [eslintOptions] as it stands when the configuration object is built. *)
Definition eslintOptions : result EslintOptions.t :=
  let* o := eslintOptions_literal in
  Ok (use_user_eslintrc (use_user_eslint o)).

(** [moduleFilenameTemplate] of the development source-map plugin. *)
Definition moduleFilenameTemplate (absoluteResourcePath : string) : string :=
  if includes "/koi-pkgs/packages" absoluteResourcePath
     || includes "packages/koi-core" absoluteResourcePath
     || includes "webpack/bootstrap" absoluteResourcePath
     || includes "/node_modules/" absoluteResourcePath
  then "internal:///" +:+ absoluteResourcePath
  else backslashes_to_slashes (resolve [absoluteResourcePath]).

(** The constructor calls of the [plugins] literal, in the order in which
    the literal makes them. *)
Definition plugin_calls (cssHash : string) : list Plugin :=
  (if isDev then
     [HotModuleReplacementPlugin;
      WatchMissingNodeModulesPlugin (Path.join [cwd; "node_modules"]);
      SystemBellWebpackPlugin]
     ++ (if truthy (Opts.devtool opts) then []
         else [SourceMapDevToolPlugin false moduleFilenameTemplate])
   else
     [OccurrenceOrderPlugin;
      ModuleConcatenationPlugin;
      ExtractTextPlugin ("[name]" +:+ cssHash +:+ ".css") true]
     ++ (if truthy (Opts.manifest opts) then
           [ManifestPlugin
              (spread {[ "fileName" := JStr "manifest.json" ]}
                      (own_props (Opts.manifest opts)))]
         else []))
  ++ (if isDev || truthy_str (Env.NO_COMPRESS env) then []
      else [UglifyJsPlugin
              (spread (own_props (Host.uglifyJSConfig host))
                 (if truthy (Opts.devtool opts)
                  then {[ "sourceMap" := JBool true ]} else ∅))])
  ++ [DefinePlugin
        (spread
           (spread
              {[ "process.env.NODE_ENV" :=
                   JStr (Host.JSON_stringify host
                           (JStr (if isDev then "development"
                                  else "production"))) ]}
              (if truthy_str (Env.SOCKET_SERVER env) then
                 {[ "process.env.SOCKET_SERVER" :=
                      JStr (Host.JSON_stringify host
                              (of_string (Env.SOCKET_SERVER env))) ]}
               else ∅))
           (Host.stringifyObject host (JS.or (Opts.define opts) (JObj ∅))))]
  ++ (if truthy_str (Env.ANALYZE env) then
        [BundleAnalyzerPlugin "server"
           (JS.or (of_string (Env.ANALYZE_PORT env)) (JNum 8888)) true]
      else [])
  ++ [CaseSensitivePathsPlugin;
      LoaderOptionsPlugin (Host.dirname__ host)]
  ++ (if truthy_str (Env.TS_TYPECHECK env) then [ForkTsCheckerWebpackPlugin]
      else [])
  ++ (if truthy (Opts.ignoreMomentLocale opts)
      then [IgnorePlugin "^\.\/locale$" "moment$"] else []).

(** The [plugins] literal: its own plugins, then the two arrays built
    before it. *)
Definition plugins (cssHash : string) (commonsPlugins copyPlugins : list Plugin)
    : result (list Plugin) :=
  let* built := construct_all (plugin_calls cssHash) in
  Ok (built ++ commonsPlugins ++ copyPlugins).

(** The pre-pass rules, each present unless its environment flag is set. *)
Definition tslintRule : result (list Rule.t) :=
  if truthy_str (Env.DISABLE_TSLINT env) then Ok []
  else
    let* tslint := require_resolve "tslint-loader" in
    Ok [{| Rule.test := Some (Regex "\.tsx?$");
           Rule.include := Some (Dir cwd);
           Rule.exclude := [node_modules];
           Rule.enforce := Some "pre";
           Rule.use :=
             Some (UseChain
               [LoaderWith tslint
                  (Options (JObj {[ "emitErrors" := JBool true ]}))]);
           Rule.loader := None;
           Rule.options := NoOptions |}].

Definition eslintRule (eslintOptions : EslintOptions.t) :
    result (list Rule.t) :=
  if truthy_str (Env.DISABLE_ESLINT env) then Ok []
  else
    let* eslint := require_resolve "eslint-loader" in
    Ok [{| Rule.test := Some (Regex "\.(js|jsx)$");
           Rule.include := Some (Dir cwd);
           Rule.exclude := [node_modules];
           Rule.enforce := Some "pre";
           Rule.use :=
             Some (UseChain
               [LoaderWith eslint (EslintLoaderOptions eslintOptions)]);
           Rule.loader := None;
           Rule.options := NoOptions |}].

(** The rules that follow the pre-pass rules in [module.rules]. *)
Definition mainRules (cssRules : list Rule.t) (babelUse : list UseEntry) :
    result (list Rule.t) :=
  let* url := require_resolve "url-loader" in
  let* ats := require_resolve "awesome-typescript-loader" in
  let* file := require_resolve "file-loader" in
  Ok ([{| Rule.test := None;
          Rule.include := None;
          Rule.exclude :=
            [Regex "\.html$"; Regex "\.json$"; Regex "\.(js|jsx|ts|tsx)$";
             Regex "\.(css|less|scss|sass)$"];
          Rule.enforce := None;
          Rule.use := None;
          Rule.loader := Some url;
          Rule.options :=
            Options (JObj {[ "limit" := JNum 10000;
                             "name" := JStr "static/[name].[hash:8].[ext]" ]})
       |};
       use_rule "\.(js|jsx)$" None [node_modules] babelUse;
       use_rule "\.(ts|tsx)$" None [node_modules]
         (babelUse
          ++ [LoaderWith ats
                (Options (JObj {[ "transpileOnly" := JBool true ]}))])]
      ++ ((fun include =>
             use_rule "\.(js|jsx)$" (Some (Dir (Path.join [cwd; include])))
               [] babelUse)
          <$> default [] (Opts.extraBabelIncludes opts))
      ++ [{| Rule.test := Some (Regex "\.html$");
             Rule.include := None;
             Rule.exclude := [];
             Rule.enforce := None;
             Rule.use := None;
             Rule.loader := Some file;
             Rule.options := Options (JObj {[ "name" := JStr "[name].[ext]" ]})
          |}]
      ++ cssRules).

(** The [config] object literal. *)
Definition config_literal (cssRules : list Rule.t)
    (commonsPlugins copyPlugins : list Plugin) (babelUse : list UseEntry)
    (eslintOptions : EslintOptions.t) : result Config.t :=
  let* babelRuntime := require_resolve "@babel/runtime/package" in
  let* tslint := tslintRule in
  let* eslint := eslintRule eslintOptions in
  let* main := mainRules cssRules babelUse in
  let* plugins := plugins cssHash commonsPlugins copyPlugins in
  Ok {| Config.bail := negb isDev;
        Config.devtool := JS.or (Opts.devtool opts) JUndefined;
        Config.entry := JS.or (Opts.entry opts) JNull;
        Config.output :=
          {| Output.path := outputPath;
             Output.pathinfo := isDev;
             Output.filename := "[name]" +:+ jsHash +:+ ".js";
             Output.publicPath := JS.or (Opts.publicPath opts) JUndefined;
             Output.chunkFilename := "[name]" +:+ jsHash +:+ ".async.js" |};
        Config.resolve :=
          {| Resolve.modules :=
               [resolve [Host.dirname__ host; "../node_modules"];
                "node_modules"]
               ++ default [] (Opts.extraResolveModules opts);
             Resolve.extensions :=
               default [] (Opts.extraResolveExtensions opts)
               ++ [".web.js"; ".web.jsx"; ".web.ts"; ".web.tsx"; ".js";
                   ".json"; ".jsx"; ".ts"; ".tsx"];
             Resolve.alias :=
               spread {[ "@babel/runtime" := JStr (Path.dirname babelRuntime) ]}
                      (own_props (Opts.alias opts)) |};
        Config.rules := tslint ++ eslint ++ main;
        Config.plugins := plugins;
        Config.externals := Opts.externals opts;
        Config.node :=
          {[ "dgram" := JStr "empty"; "fs" := JStr "empty";
             "net" := JStr "empty"; "tls" := JStr "empty";
             "child_process" := JStr "empty" ]};
        Config.performance :=
          if isDev then {[ "hints" := JBool false ]} else ∅ |}.

(** [config] as handed to [applyWebpackConfig]: the literal, with the
    public path overwritten when [PUBLIC_PATH] is set. *)
Definition config : result Config.t :=
  if negb (truthy_str (Opts.cwd opts)) then
    Throw (AssertionError "opts.cwd must be specified")
  else
    let* _ := normalizeTheme (Opts.theme opts) in
    let* cssRules := cssRules in
    let* commonsPlugins := commonsPlugins in
    let* copyPlugins := copyPlugins in
    let* babelUse := babelUse in
    let* eslintOptions := eslintOptions in
    let* config :=
      config_literal cssRules commonsPlugins copyPlugins babelUse
        eslintOptions in
    Ok (if truthy_str (Env.PUBLIC_PATH env) then
          Config.set_publicPath
            (JStr (stripLastSlash (default "" (Env.PUBLIC_PATH env))
                   +:+ "/"))
            config
        else config).

Definition applyWebpackConfig (config : Config.t) : result Config.t :=
  match Host.applyWebpackConfig host config with
  | Some c => Ok c
  | None => Throw (Error "applyWebpackConfig")
  end.

Definition getConfig : result Config.t :=
  let* config := config in
  applyWebpackConfig config.

End getConfig.

(** ** Sample inputs *)

Module Sample.

Definition double_quote : string := String (ascii_of_nat 34) EmptyString.

Definition make_opts (cwd outputPath : option string)
    (publicPath hash : jsval) : Opts.t :=
  {| Opts.cwd := cwd;
     Opts.theme := JUndefined;
     Opts.browserslist := JUndefined;
     Opts.extraPostCSSPlugins := None;
     Opts.disableCSSModules := JUndefined;
     Opts.disableCSSSourceMap := JUndefined;
     Opts.sass := JUndefined;
     Opts.commons := None;
     Opts.outputPath := outputPath;
     Opts.copy := JUndefined;
     Opts.hash := hash;
     Opts.babel := JUndefined;
     Opts.devtool := JUndefined;
     Opts.entry := JUndefined;
     Opts.publicPath := publicPath;
     Opts.extraResolveModules := None;
     Opts.extraResolveExtensions := None;
     Opts.alias := JUndefined;
     Opts.extraBabelIncludes := Some ["lib"];
     Opts.manifest := JUndefined;
     Opts.define := JUndefined;
     Opts.ignoreMomentLocale := JUndefined;
     Opts.externals := JUndefined |}.

Definition opts : Opts.t := make_opts (Some "/app") None JUndefined (JBool true).

(** [opts] with a theme, code-splitting entries and a copy option. *)
Definition opts_with (theme : jsval) (commons : option (list jsval))
    (copy : jsval) : Opts.t :=
  {| Opts.cwd := Some "/app";
     Opts.theme := theme;
     Opts.browserslist := JUndefined;
     Opts.extraPostCSSPlugins := None;
     Opts.disableCSSModules := JUndefined;
     Opts.disableCSSSourceMap := JUndefined;
     Opts.sass := JUndefined;
     Opts.commons := commons;
     Opts.outputPath := None;
     Opts.copy := copy;
     Opts.hash := JBool true;
     Opts.babel := JUndefined;
     Opts.devtool := JUndefined;
     Opts.entry := JUndefined;
     Opts.publicPath := JUndefined;
     Opts.extraResolveModules := None;
     Opts.extraResolveExtensions := None;
     Opts.alias := JUndefined;
     Opts.extraBabelIncludes := Some ["lib"];
     Opts.manifest := JUndefined;
     Opts.define := JUndefined;
     Opts.ignoreMomentLocale := JUndefined;
     Opts.externals := JUndefined |}.

(** Both an explicit public path and the environment override. *)
Definition opts_publicPath : Opts.t :=
  make_opts (Some "/app") None (JStr "/static/") (JBool true).

Definition env (NODE_ENV DISABLE_TSLINT DISABLE_ESLINT PUBLIC_PATH :
    option string) : Env.t :=
  {| Env.NODE_ENV := NODE_ENV;
     Env.NO_COMPRESS := None;
     Env.DISABLE_BABELRC := None;
     Env.DISABLE_TSLINT := DISABLE_TSLINT;
     Env.DISABLE_ESLINT := DISABLE_ESLINT;
     Env.SOCKET_SERVER := None;
     Env.ANALYZE := None;
     Env.ANALYZE_PORT := None;
     Env.TS_TYPECHECK := None;
     Env.PUBLIC_PATH := PUBLIC_PATH |}.

Definition development : Env.t := env (Some "development") None None None.
Definition production_PUBLIC_PATH : Env.t :=
  env (Some "production") None None (Some "/cdn/").
Definition production : Env.t := env (Some "production") None None None.

(** A host in which af-webpack is installed under [/af], every module
    resolves except those listed in [missing], the process runs in
    [process_cwd], and the project lives in [project]: its manifest and its
    [.eslintrc] are [manifest] and [rc] ([rc = Some None] is a file that
    exists and does not parse). *)
Definition host_at (missing : list string) (process_cwd project : string)
    (manifest : option jsval) (rc : option (option jsval)) : Host.t :=
  {| Host.require_resolve := fun request =>
       if bool_decide (request ∈ missing) then None
       else Some ("/af/node_modules/" +:+ request);
     Host.require := fun p =>
       if String.eqb p (Path.join [project; "package.json"])
       then manifest else None;
     Host.resolveSync := fun id basedir =>
       Some (Path.join [basedir; "node_modules"; id]);
     Host.existsSync := fun p =>
       String.eqb p (Path.join [project; ".eslintrc"])
       && bool_decide (is_Some rc);
     Host.readRc := fun p =>
       if String.eqb p (Path.join [project; ".eslintrc"])
       then default None rc else None;
     Host.process_cwd := process_cwd;
     Host.dirname__ := "/af/lib";
     Host.JSON_stringify := fun v =>
       match v with
       | JStr s => double_quote +:+ s +:+ double_quote
       | _ => "null"
       end;
     Host.normalizeTheme := fun v =>
       match v with
       | JStr _ => None   (* a theme file, and there is none *)
       | _ => Some (JS.or v (JObj ∅))
       end;
     Host.stringifyObject := own_props;
     Host.constructs := fun p =>
       match p with
       | CopyWebpackPlugin (JArr _) => true
       | CopyWebpackPlugin _ => false
       | CommonsChunkPlugin (JObj _) => true
       | CommonsChunkPlugin _ => false
       | _ => true
       end;
     Host.applyWebpackConfig := Some;
     Host.uglifyJSConfig := JObj ∅;
     Host.babelConfig := JObj ∅;
     Host.defaultBrowsers := JArr [JStr ">1%"] |}.

(** The process runs in the project directory. *)
Definition host (missing : list string) (process_cwd : string)
    (manifest : option jsval) (rc : option (option jsval)) : Host.t :=
  host_at missing process_cwd process_cwd manifest rc.

Definition plain_host : Host.t := host [] "/app" None None.

(** A manifest that lists eslint nowhere. *)
Definition manifest_without_eslint : jsval :=
  JObj {[ "name" := JStr "app";
          "dependencies" := JObj {[ "react" := JStr "^16.0.0" ]};
          "devDependencies" := JObj {[ "webpack" := JStr "^3.0.0" ]} ]}.

(** A manifest that lists eslint as a development dependency and has no
    [dependencies] table. *)
Definition manifest_dev_eslint_only : jsval :=
  JObj {[ "name" := JStr "app";
          "devDependencies" := JObj {[ "eslint" := JStr "^4.0.0" ]} ]}.

(** A manifest that lists eslint as a dependency. *)
Definition manifest_with_eslint : jsval :=
  JObj {[ "name" := JStr "app";
          "dependencies" := JObj {[ "eslint" := JStr "^4.0.0" ]};
          "devDependencies" := JObj ∅ ]}.

(** An explicit, relative output directory. *)
Definition opts_outputPath : Opts.t :=
  make_opts (Some "/app") (Some "build") JUndefined (JBool true).

(** Three [.eslintrc] files: with a base configuration, without any, and
    with an [extends] key that holds the empty string. *)
Definition rc_extends : jsval :=
  JObj {[ "extends" := JStr "airbnb";
          "rules" := JObj {[ "semi" := JNum 2 ]} ]}.

Definition rc_rules_only : jsval :=
  JObj {[ "rules" := JObj {[ "semi" := JNum 2 ]} ]}.

Definition rc_empty_extends : jsval :=
  JObj {[ "extends" := JStr "";
          "rules" := JObj {[ "semi" := JNum 2 ]} ]}.

(** The project in [/app] lists eslint in its manifest and has an
    [.eslintrc] with a base configuration; the build is started from
    [/srv], or from the project directory. *)
Definition host_started_elsewhere : Host.t :=
  host_at [] "/srv" "/app" (Some manifest_with_eslint)
    (Some (Some rc_extends)).

Definition host_started_in_project : Host.t :=
  host_at [] "/app" "/app" (Some manifest_with_eslint)
    (Some (Some rc_extends)).

End Sample.

(** * Vocabulary of the properties *)

(** The constructor calls behind [commonsPlugins] and [copyPlugins], and
    the [plugins] array of a configuration that was built: the arguments of
    every constructor call, in the order of the array. *)
Definition commons_calls (opts : Opts.t) : list Plugin :=
  CommonsChunkPlugin <$> default [] (Opts.commons opts).

Definition copy_calls (opts : Opts.t) (host : Host.t) : list Plugin :=
  (if truthy (Opts.copy opts) then [CopyWebpackPlugin (Opts.copy opts)]
   else [])
  ++ (if Host.existsSync host (resolve host [cwd opts; "public"]) then
        [CopyWebpackPlugin
           (JArr [JObj {[ "from" := JStr (resolve host [cwd opts; "public"]);
                          "to" := JStr (resolve host
                                          [cwd opts; outputPath opts host]) ]}])]
      else []).

Definition plugins_built (opts : Opts.t) (env : Env.t) (host : Host.t)
    (cssHash : string) : list Plugin :=
  plugin_calls opts env host cssHash ++ commons_calls opts
  ++ copy_calls opts host.

(** The calls that are not probes of the module system and that [config]
    needs to return: the theme normalizes, and every plugin constructor
    accepts its arguments. *)
Definition cooperative (opts : Opts.t) (env : Env.t) (host : Host.t) : Prop :=
  is_Some (Host.normalizeTheme host (Opts.theme opts))
  ∧ Forall (fun p => Host.constructs host p = true)
      (plugins_built opts env host (cssHash opts env)).

(** [n] path separators in a row. *)
Definition separators (n : nat) : string :=
  String.string_of_list_ascii (replicate n Path.slash).

(** What a returned [config] is made of. *)
Record synthesis (opts : Opts.t) (env : Env.t) (host : Host.t)
    (c : Config.t) (css : list Rule.t) (babel : list UseEntry)
    (eo : EslintOptions.t) (pre_ts pre_es main : list Rule.t) : Prop := {
  syn_cwd : truthy_str (Opts.cwd opts) = true;
  syn_cssRules : cssRules opts env host = Ok css;
  syn_babelUse : babelUse opts env host = Ok babel;
  syn_eslintOptions : eslintOptions opts host = Ok eo;
  syn_tslintRule : tslintRule opts env host = Ok pre_ts;
  syn_eslintRule : eslintRule opts env host eo = Ok pre_es;
  syn_main : mainRules opts host css babel = Ok main;
  syn_rules : Config.rules c = pre_ts ++ pre_es ++ main;
  syn_cooperative : cooperative opts env host;
  syn_plugins :
    Config.plugins c = plugins_built opts env host (cssHash opts env);
  syn_path : Output.path (Config.output c) = outputPath opts host;
  syn_filename :
    Output.filename (Config.output c) = "[name]" +:+ jsHash opts env +:+ ".js";
  syn_chunkFilename :
    Output.chunkFilename (Config.output c)
    = "[name]" +:+ jsHash opts env +:+ ".async.js";
  syn_publicPath :
    Output.publicPath (Config.output c)
    = if truthy_str (Env.PUBLIC_PATH env) then
        JStr (stripLastSlash (default "" (Env.PUBLIC_PATH env)) +:+ "/")
      else JS.or (Opts.publicPath opts) JUndefined;
}.

(** The preprocessor steps of a chain that was built: they are a function
    of the [less] and [sass] flags and of the host, never of [cssModules]. *)
Definition preprocessor_steps (opts : Opts.t) (host : Host.t)
    (o : CSSLoaderOpts.t) : list UseEntry :=
  (if CSSLoaderOpts.less o then
     match Host.require_resolve host "less-loader" with
     | Some less => [LoaderWith less (Options (JObj (lessOptions opts host)))]
     | None => []
     end
   else [])
  ++ (if CSSLoaderOpts.sass o then
        match Host.require_resolve host "sass-loader" with
        | Some sass => [LoaderWith sass (Options (CSSLoaderOpts.sassOptions o))]
        | None => []
        end
      else []).

(** The options of the css-loader step. *)
Definition css_loader_options (opts : Opts.t) (env : Env.t)
    (o : CSSLoaderOpts.t) : LoaderOptions :=
  Options (JObj (spread (cssOptions opts env)
     (if CSSLoaderOpts.cssModules o then cssModulesConfig opts else ∅))).

(** The chain [getCSSLoader] returns once the three loaders of every chain
    have been resolved. *)
Definition style_chain (opts : Opts.t) (env : Env.t) (host : Host.t)
    (style css postcss : string) (o : CSSLoaderOpts.t) :
    list UseEntry :=
  Loader style
  :: LoaderWith css (css_loader_options opts env o)
  :: LoaderWith postcss (postcssOptions opts host)
  :: preprocessor_steps opts host o.

(** The argument of a [getCSSLoader] call. *)
Definition loader_opts (cssModules less sass : bool) (sassOptions : jsval) :
    CSSLoaderOpts.t :=
  {| CSSLoaderOpts.cssModules := cssModules; CSSLoaderOpts.less := less;
     CSSLoaderOpts.sass := sass; CSSLoaderOpts.sassOptions := sassOptions |}.

(** The six style rules as the array literal lists them. *)
Definition six_rules (opts : Opts.t)
    (chain : CSSLoaderOpts.t → list UseEntry) : list Rule.t :=
  [use_rule "\.css$" None [node_modules]
     (chain (loader_opts true false false JUndefined));
   use_rule "\.css$" (Some node_modules) []
     (chain (loader_opts false false false JUndefined));
   use_rule "\.less$" None [node_modules]
     (chain (loader_opts true true false JUndefined));
   use_rule "\.less$" (Some node_modules) []
     (chain (loader_opts false true false JUndefined));
   use_rule "\.(sass|scss)$" None [node_modules]
     (chain (loader_opts true false true (Opts.sass opts)));
   use_rule "\.(sass|scss)$" (Some node_modules) []
     (chain (loader_opts false false true (Opts.sass opts)))].

(** The rules of [module.rules] after the pre-pass rules and before the
    style rules: the static-asset fallback, the script and typed-script
    transforms, one transform per extra directory, and the markup rule. *)
Definition static_asset_rule (url : string) : Rule.t :=
  {| Rule.test := None;
     Rule.include := None;
     Rule.exclude :=
       [Regex "\.html$"; Regex "\.json$"; Regex "\.(js|jsx|ts|tsx)$";
        Regex "\.(css|less|scss|sass)$"];
     Rule.enforce := None;
     Rule.use := None;
     Rule.loader := Some url;
     Rule.options :=
       Options (JObj {[ "limit" := JNum 10000;
                        "name" := JStr "static/[name].[hash:8].[ext]" ]}) |}.

Definition html_rule (file : string) : Rule.t :=
  {| Rule.test := Some (Regex "\.html$");
     Rule.include := None;
     Rule.exclude := [];
     Rule.enforce := None;
     Rule.use := None;
     Rule.loader := Some file;
     Rule.options := Options (JObj {[ "name" := JStr "[name].[ext]" ]}) |}.

Definition transform_rules (opts : Opts.t) (url ats file : string)
    (babel : list UseEntry) : list Rule.t :=
  static_asset_rule url
  :: use_rule "\.(js|jsx)$" None [node_modules] babel
  :: use_rule "\.(ts|tsx)$" None [node_modules]
       (babel ++ [LoaderWith ats
                    (Options (JObj {[ "transpileOnly" := JBool true ]}))])
  :: ((fun include =>
         use_rule "\.(js|jsx)$" (Some (Dir (Path.join [cwd opts; include])))
           [] babel)
      <$> default [] (Opts.extraBabelIncludes opts))
  ++ [html_rule file].

(** The two pre-pass rules. *)
Definition tslint_prepass (cwd tslint : string) : Rule.t :=
  {| Rule.test := Some (Regex "\.tsx?$");
     Rule.include := Some (Dir cwd);
     Rule.exclude := [node_modules];
     Rule.enforce := Some "pre";
     Rule.use :=
       Some (UseChain
         [LoaderWith tslint (Options (JObj {[ "emitErrors" := JBool true ]}))]);
     Rule.loader := None;
     Rule.options := NoOptions |}.

Definition eslint_prepass (cwd eslint : string) (eo : EslintOptions.t) :
    Rule.t :=
  {| Rule.test := Some (Regex "\.(js|jsx)$");
     Rule.include := Some (Dir cwd);
     Rule.exclude := [node_modules];
     Rule.enforce := Some "pre";
     Rule.use := Some (UseChain [LoaderWith eslint (EslintLoaderOptions eo)]);
     Rule.loader := None;
     Rule.options := NoOptions |}.

(** [rewritten r r']: [r'] is [r] with the first element of its chain
    removed and the remaining elements, in order, handed to the extraction
    wrapper. *)
Definition rewritten (r r' : Rule.t) : Prop :=
  ∃ injector rest,
    Rule.use r = Some (UseChain (injector :: rest))
    ∧ Rule.use r' = Some (ExtractTextPlugin_extract rest)
    ∧ Rule.test r' = Rule.test r
    ∧ Rule.include r' = Rule.include r
    ∧ Rule.exclude r' = Rule.exclude r.

(** The chain of [r] is an array whose first element is the bare loader
    path [style]. *)
Definition starts_with_loader (style : string) (r : Rule.t) : Prop :=
  ∃ rest, Rule.use r = Some (UseChain (Loader style :: rest)).

(** The pre-pass tier is marked by [enforce: 'pre']. *)
Definition is_prepass (r : Rule.t) : bool :=
  bool_decide (Rule.enforce r = Some "pre").

Definition has_test (source : string) (r : Rule.t) : bool :=
  bool_decide (Rule.test r = Some (Regex source)).

(** The script-lint and the type-lint pre-pass rules. *)
Definition is_script_lint (r : Rule.t) : bool :=
  is_prepass r && has_test "\.(js|jsx)$" r.

Definition is_type_lint (r : Rule.t) : bool :=
  is_prepass r && has_test "\.tsx?$" r.

(** The rules outside the pre-pass tier. *)
Definition not_prepass (r : Rule.t) : bool := negb (is_prepass r).

(** The [name] template in a rule's options. *)
Definition asset_name (r : Rule.t) : option string :=
  match Rule.options r with
  | Options (JObj o) =>
      match o !! "name" with
      | Some (JStr name) => Some name
      | _ => None
      end
  | _ => None
  end.

(** Two environments that agree on everything but the two lint flags. *)
Record same_but_lint_flags (env env' : Env.t) : Prop := {
  same_NODE_ENV : Env.NODE_ENV env' = Env.NODE_ENV env;
  same_NO_COMPRESS : Env.NO_COMPRESS env' = Env.NO_COMPRESS env;
  same_DISABLE_BABELRC : Env.DISABLE_BABELRC env' = Env.DISABLE_BABELRC env;
  same_SOCKET_SERVER : Env.SOCKET_SERVER env' = Env.SOCKET_SERVER env;
  same_ANALYZE : Env.ANALYZE env' = Env.ANALYZE env;
  same_ANALYZE_PORT : Env.ANALYZE_PORT env' = Env.ANALYZE_PORT env;
  same_TS_TYPECHECK : Env.TS_TYPECHECK env' = Env.TS_TYPECHECK env;
  same_PUBLIC_PATH : Env.PUBLIC_PATH env' = Env.PUBLIC_PATH env;
}.

(** [scoping_pair opts env source p d]: [p] and [d] are the project-scoped
    and the dependency-scoped rule for the files matching [source]; their
    chains are the same list of steps, under the same wrapper, except for
    the options of one step, the css-loader, which carry
    [cssModulesConfig] in [p] and do not in [d]. *)
Definition scoping_pair (opts : Opts.t) (env : Env.t) (host : Host.t)
    (source : string) (p d : Rule.t) : Prop :=
  Rule.test p = Some (Regex source)
  ∧ Rule.test d = Some (Regex source)
  ∧ Rule.include p = None ∧ Rule.exclude p = [node_modules]
  ∧ Rule.include d = Some node_modules ∧ Rule.exclude d = []
  ∧ ∃ wrap before css after,
      (wrap = UseChain ∨ wrap = ExtractTextPlugin_extract)
      ∧ Host.require_resolve host "css-loader" = Some css
      ∧ Rule.use p
        = Some (wrap (before
                      ++ LoaderWith css
                           (Options (JObj (spread (cssOptions opts env)
                                                  (cssModulesConfig opts))))
                      :: after))
      ∧ Rule.use d
        = Some (wrap (before
                      ++ LoaderWith css (Options (JObj (cssOptions opts env)))
                      :: after)).

(** The modules af-webpack resolves without a probe. *)
Definition bundled : list string :=
  ["style-loader"; "css-loader"; "postcss-loader"; "less-loader";
   "babel-loader"; "eslint-config-umi"; "eslint"; "@babel/runtime/package";
   "tslint-loader"; "eslint-loader"; "url-loader";
   "awesome-typescript-loader"; "file-loader"].

(** A host on which all of them resolve. *)
Definition provisioned (host : Host.t) : Prop :=
  Forall (fun request => is_Some (Host.require_resolve host request)) bundled.

(** [v.k], with [undefined] for what cannot be read. *)
Definition prop_or_undefined (v : jsval) (k : string) : jsval :=
  match get_prop v k with
  | Ok x => x
  | Throw _ => JUndefined
  end.

(** A manifest declares eslint when it lists it in [dependencies] or in
    [devDependencies]. *)
Definition declares_eslint (pkg : jsval) : bool :=
  truthy (prop_or_undefined (prop_or_undefined pkg "dependencies") "eslint")
  || truthy
       (prop_or_undefined (prop_or_undefined pkg "devDependencies") "eslint").

(** The modules [getConfig] resolves without a probe, in the order in which
    it resolves them: those of the style chains, and those it resolves
    once [commonsPlugins] and [copyPlugins] are built; the two lint loaders
    are resolved only when their pre-pass rule is built. *)
Definition style_modules : list string :=
  ["style-loader"; "css-loader"; "postcss-loader"; "less-loader"].

Definition later_modules (env : Env.t) : list string :=
  ["babel-loader"; "eslint-config-umi"; "eslint"; "@babel/runtime/package"]
  ++ (if truthy_str (Env.DISABLE_TSLINT env) then [] else ["tslint-loader"])
  ++ (if truthy_str (Env.DISABLE_ESLINT env) then [] else ["eslint-loader"])
  ++ ["url-loader"; "awesome-typescript-loader"; "file-loader"].

Definition required (env : Env.t) : list string :=
  style_modules ++ later_modules env.

(** The constructor calls of [config], in the order in which it makes
    them, and the first call of a list that the host rejects. *)
Definition construction_order (opts : Opts.t) (env : Env.t) (host : Host.t)
    : list Plugin :=
  commons_calls opts ++ copy_calls opts host
  ++ plugin_calls opts env host (cssHash opts env).

Fixpoint first_rejected (host : Host.t) (calls : list Plugin)
    : option Plugin :=
  match calls with
  | [] => None
  | p :: calls' =>
      if Host.constructs host p then first_rejected host calls' else Some p
  end.

(** The first module of a list that the host cannot resolve. *)
Fixpoint first_missing (host : Host.t) (l : list string) : option string :=
  match l with
  | [] => None
  | request :: l' =>
      match Host.require_resolve host request with
      | None => Some request
      | Some _ => first_missing host l'
      end
  end.

(** The plugins that only the development branch and only the production
    branch of the plugin list can build. *)
Definition development_only (p : Plugin) : bool :=
  match p with
  | HotModuleReplacementPlugin | WatchMissingNodeModulesPlugin _
  | SystemBellWebpackPlugin | SourceMapDevToolPlugin _ _ => true
  | _ => false
  end.

Definition production_only (p : Plugin) : bool :=
  match p with
  | OccurrenceOrderPlugin | ModuleConcatenationPlugin | ExtractTextPlugin _ _
  | ManifestPlugin _ | UglifyJsPlugin _ => true
  | _ => false
  end.

Definition is_uglify (p : Plugin) : bool :=
  match p with UglifyJsPlugin _ => true | _ => false end.

Definition is_define (p : Plugin) : bool :=
  match p with DefinePlugin _ => true | _ => false end.

Definition is_source_map (p : Plugin) : bool :=
  match p with SourceMapDevToolPlugin _ _ => true | _ => false end.

Definition is_commons (p : Plugin) : bool :=
  match p with CommonsChunkPlugin _ => true | _ => false end.

Definition is_copy (p : Plugin) : bool :=
  match p with CopyWebpackPlugin _ => true | _ => false end.

(** The options the babel-loader step starts from: [opts.babel || babelConfig]. *)
Definition babel_base (opts : Opts.t) (host : Host.t) : gmap string jsval :=
  own_props (JS.or (Opts.babel opts) (Host.babelConfig host)).

(** The definitions the user asks for: [stringifyObject(opts.define || {})]. *)
Definition user_definitions (opts : Opts.t) (host : Host.t) :
    gmap string jsval :=
  Host.stringifyObject host (JS.or (Opts.define opts) (JObj ∅)).

(** The paths the development source-map template hides behind the
    [internal] scheme. *)
Definition is_internal_path (p : string) : bool :=
  includes "/koi-pkgs/packages" p
  || includes "packages/koi-core" p
  || includes "webpack/bootstrap" p
  || includes "/node_modules/" p.

(** The built-in plugins: neither a code-splitting nor a copy plugin. *)
Definition built_in (p : Plugin) : bool := negb (is_commons p || is_copy p).

(** Two option records that agree on everything but the options that only
    the production build reads: [hash], [manifest] and
    [disableCSSSourceMap]. *)
Record same_but_production_options (opts opts' : Opts.t) : Prop := {
  spo_cwd : Opts.cwd opts' = Opts.cwd opts;
  spo_theme : Opts.theme opts' = Opts.theme opts;
  spo_browserslist : Opts.browserslist opts' = Opts.browserslist opts;
  spo_extraPostCSSPlugins :
    Opts.extraPostCSSPlugins opts' = Opts.extraPostCSSPlugins opts;
  spo_disableCSSModules :
    Opts.disableCSSModules opts' = Opts.disableCSSModules opts;
  spo_sass : Opts.sass opts' = Opts.sass opts;
  spo_commons : Opts.commons opts' = Opts.commons opts;
  spo_outputPath : Opts.outputPath opts' = Opts.outputPath opts;
  spo_copy : Opts.copy opts' = Opts.copy opts;
  spo_babel : Opts.babel opts' = Opts.babel opts;
  spo_devtool : Opts.devtool opts' = Opts.devtool opts;
  spo_entry : Opts.entry opts' = Opts.entry opts;
  spo_publicPath : Opts.publicPath opts' = Opts.publicPath opts;
  spo_extraResolveModules :
    Opts.extraResolveModules opts' = Opts.extraResolveModules opts;
  spo_extraResolveExtensions :
    Opts.extraResolveExtensions opts' = Opts.extraResolveExtensions opts;
  spo_alias : Opts.alias opts' = Opts.alias opts;
  spo_extraBabelIncludes :
    Opts.extraBabelIncludes opts' = Opts.extraBabelIncludes opts;
  spo_define : Opts.define opts' = Opts.define opts;
  spo_ignoreMomentLocale :
    Opts.ignoreMomentLocale opts' = Opts.ignoreMomentLocale opts;
  spo_externals : Opts.externals opts' = Opts.externals opts;
}.

(** Two environments that agree on everything but [NO_COMPRESS]. *)
Record same_but_NO_COMPRESS (env env' : Env.t) : Prop := {
  snc_NODE_ENV : Env.NODE_ENV env' = Env.NODE_ENV env;
  snc_DISABLE_BABELRC : Env.DISABLE_BABELRC env' = Env.DISABLE_BABELRC env;
  snc_DISABLE_TSLINT : Env.DISABLE_TSLINT env' = Env.DISABLE_TSLINT env;
  snc_DISABLE_ESLINT : Env.DISABLE_ESLINT env' = Env.DISABLE_ESLINT env;
  snc_SOCKET_SERVER : Env.SOCKET_SERVER env' = Env.SOCKET_SERVER env;
  snc_ANALYZE : Env.ANALYZE env' = Env.ANALYZE env;
  snc_ANALYZE_PORT : Env.ANALYZE_PORT env' = Env.ANALYZE_PORT env;
  snc_TS_TYPECHECK : Env.TS_TYPECHECK env' = Env.TS_TYPECHECK env;
  snc_PUBLIC_PATH : Env.PUBLIC_PATH env' = Env.PUBLIC_PATH env;
}.

(** Two environments that agree on everything but [PUBLIC_PATH]. *)
Record same_but_PUBLIC_PATH (env env' : Env.t) : Prop := {
  spp_NODE_ENV : Env.NODE_ENV env' = Env.NODE_ENV env;
  spp_NO_COMPRESS : Env.NO_COMPRESS env' = Env.NO_COMPRESS env;
  spp_DISABLE_BABELRC : Env.DISABLE_BABELRC env' = Env.DISABLE_BABELRC env;
  spp_DISABLE_TSLINT : Env.DISABLE_TSLINT env' = Env.DISABLE_TSLINT env;
  spp_DISABLE_ESLINT : Env.DISABLE_ESLINT env' = Env.DISABLE_ESLINT env;
  spp_SOCKET_SERVER : Env.SOCKET_SERVER env' = Env.SOCKET_SERVER env;
  spp_ANALYZE : Env.ANALYZE env' = Env.ANALYZE env;
  spp_ANALYZE_PORT : Env.ANALYZE_PORT env' = Env.ANALYZE_PORT env;
  spp_TS_TYPECHECK : Env.TS_TYPECHECK env' = Env.TS_TYPECHECK env;
}.

(** The steps of a style chain, under either wrapper. *)
Definition chain_of (r : Rule.t) : list UseEntry :=
  match Rule.use r with
  | Some (UseChain chain) => chain
  | Some (ExtractTextPlugin_extract chain) => chain
  | None => []
  end.

(** * Properties *)

(** ** Inversion of the exception monad *)

Lemma bind_Ok_inv {A B : Type} (r : result A) (f : A → result B) (b : B) :
  bind r f = Ok b → ∃ a, r = Ok a ∧ f a = Ok b.
Proof. destruct r as [a|e]; simpl; intros H; [eauto | discriminate]. Qed.

Ltac inv_bind H :=
  let a := fresh "x" in
  let E := fresh "E" in
  apply bind_Ok_inv in H; destruct H as (a & E & H); cbv beta in H.

Lemma require_resolve_Ok host request p :
  Host.require_resolve host request = Some p →
  require_resolve host request = Ok p.
Proof. unfold require_resolve. intros ->. reflexivity. Qed.

Lemma require_resolve_Throw host request :
  Host.require_resolve host request = None →
  require_resolve host request = Throw (CannotFindModule request).
Proof. unfold require_resolve. intros ->. reflexivity. Qed.

(** ** Constructor calls *)

Section constructors.

Variable opts : Opts.t.
Variable env : Env.t.
Variable host : Host.t.

Lemma normalizeTheme_Ok_inv t v :
  normalizeTheme host t = Ok v → Host.normalizeTheme host t = Some v.
Proof.
  unfold normalizeTheme.
  destruct (Host.normalizeTheme host t); intros H; [|discriminate].
  injection H as ->. reflexivity.
Qed.

(** [theme] is the value that call returns. *)
Lemma theme_normalized v :
  normalizeTheme host (Opts.theme opts) = Ok v → theme opts host = v.
Proof.
  intros H. apply normalizeTheme_Ok_inv in H. unfold theme. rewrite H.
  reflexivity.
Qed.

Lemma normalizeTheme_Ok_intro t :
  is_Some (Host.normalizeTheme host t) → ∃ v, normalizeTheme host t = Ok v.
Proof. unfold normalizeTheme. intros [v ->]. eauto. Qed.

Lemma construct_Ok_inv p q :
  construct host p = Ok q → q = p ∧ Host.constructs host p = true.
Proof.
  unfold construct. destruct (Host.constructs host p); intros H;
    [|discriminate].
  injection H as <-. auto.
Qed.

Lemma construct_Ok_intro p :
  Host.constructs host p = true → construct host p = Ok p.
Proof. unfold construct. intros ->. reflexivity. Qed.

Lemma construct_all_Ok_inv calls built :
  construct_all host calls = Ok built →
  built = calls ∧ Forall (fun p => Host.constructs host p = true) calls.
Proof.
  revert built. induction calls as [|p calls IH]; intros built H.
  - injection H as <-. split; [reflexivity | constructor].
  - cbn [construct_all] in H. inv_bind H. inv_bind H.
    injection H as <-.
    apply construct_Ok_inv in E as [-> Hp].
    apply IH in E0 as [-> Hcalls].
    split; [reflexivity | constructor; assumption].
Qed.

Lemma construct_all_Ok_intro calls :
  Forall (fun p => Host.constructs host p = true) calls →
  construct_all host calls = Ok calls.
Proof.
  induction 1 as [|p calls Hp _ IH]; [reflexivity|].
  cbn [construct_all]. rewrite (construct_Ok_intro _ Hp), IH. reflexivity.
Qed.

Lemma commonsPlugins_Ok_inv built :
  commonsPlugins opts host = Ok built →
  built = commons_calls opts
  ∧ Forall (fun p => Host.constructs host p = true) (commons_calls opts).
Proof. apply construct_all_Ok_inv. Qed.

Lemma copyPlugins_Ok_inv built :
  copyPlugins opts host = Ok built →
  built = copy_calls opts host
  ∧ Forall (fun p => Host.constructs host p = true) (copy_calls opts host).
Proof.
  unfold copyPlugins, copy_calls. intros H. inv_bind H.
  assert (x = (if truthy (Opts.copy opts)
               then [CopyWebpackPlugin (Opts.copy opts)] else [])
          ∧ Forall (fun p => Host.constructs host p = true) x) as [-> Hx].
  { destruct (truthy (Opts.copy opts)).
    - apply construct_all_Ok_inv in E as [-> HF]. auto.
    - injection E as <-. split; [reflexivity | constructor]. }
  destruct (Host.existsSync host _).
  - inv_bind H. injection H as <-.
    apply construct_Ok_inv in E0 as [-> Hp].
    split; [reflexivity|].
    apply Forall_app. split; [assumption | repeat constructor; assumption].
  - injection H as <-. rewrite app_nil_r. auto.
Qed.

Lemma plugins_Ok_inv hash commons copy built :
  plugins opts env host hash commons copy = Ok built →
  built = plugin_calls opts env host hash ++ commons ++ copy
  ∧ Forall (fun p => Host.constructs host p = true)
      (plugin_calls opts env host hash).
Proof.
  unfold plugins. intros H. inv_bind H. injection H as <-.
  apply construct_all_Ok_inv in E as [-> HF]. auto.
Qed.

Lemma plugins_built_Forall (P : Plugin → Prop) hash :
  Forall P (plugins_built opts env host hash)
  ↔ Forall P (plugin_calls opts env host hash)
    ∧ Forall P (commons_calls opts) ∧ Forall P (copy_calls opts host).
Proof. unfold plugins_built. rewrite !Forall_app. reflexivity. Qed.

Lemma commonsPlugins_Ok_intro :
  Forall (fun p => Host.constructs host p = true) (commons_calls opts) →
  commonsPlugins opts host = Ok (commons_calls opts).
Proof. apply construct_all_Ok_intro. Qed.

Lemma copyPlugins_Ok_intro :
  Forall (fun p => Host.constructs host p = true) (copy_calls opts host) →
  copyPlugins opts host = Ok (copy_calls opts host).
Proof.
  unfold copyPlugins, copy_calls. intros H.
  apply Forall_app in H as [H1 H2].
  destruct (truthy (Opts.copy opts)).
  - rewrite (construct_all_Ok_intro _ H1). cbn [bind].
    destruct (Host.existsSync host _).
    + apply Forall_cons in H2 as [H2 _].
      rewrite (construct_Ok_intro _ H2). reflexivity.
    + rewrite app_nil_r. reflexivity.
  - cbn [bind].
    destruct (Host.existsSync host _).
    + apply Forall_cons in H2 as [H2 _].
      rewrite (construct_Ok_intro _ H2). reflexivity.
    + reflexivity.
Qed.

Lemma plugins_Ok_intro hash commons copy :
  Forall (fun p => Host.constructs host p = true)
    (plugin_calls opts env host hash) →
  plugins opts env host hash commons copy
  = Ok (plugin_calls opts env host hash ++ commons ++ copy).
Proof.
  unfold plugins. intros H. rewrite (construct_all_Ok_intro _ H). reflexivity.
Qed.

End constructors.

(** ** The shape of a successful synthesis *)

Section shape.

Variable opts : Opts.t.
Variable env : Env.t.
Variable host : Host.t.

Lemma config_synthesis c :
  config opts env host = Ok c →
  ∃ css babel eo pre_ts pre_es main,
    synthesis opts env host c css babel eo pre_ts pre_es main.
Proof.
  unfold config. intros H.
  destruct (truthy_str (Opts.cwd opts)) eqn:Hcwd; [|discriminate].
  cbn [negb] in H.
  inv_bind H. apply normalizeTheme_Ok_inv in E. rename x into theme.
  inv_bind H. rename x into css, E0 into Hcss.
  inv_bind H. apply commonsPlugins_Ok_inv in E0 as [-> Hcommons].
  inv_bind H. apply copyPlugins_Ok_inv in E0 as [-> Hcopy].
  inv_bind H. rename x into babel, E0 into Hbabel.
  inv_bind H. rename x into eo, E0 into Heo.
  inv_bind H. rename x into lit, E0 into Hlit.
  unfold config_literal in Hlit.
  inv_bind Hlit. rename x into runtime, E0 into Hruntime.
  inv_bind Hlit. rename x into pre_ts, E0 into Hts.
  inv_bind Hlit. rename x into pre_es, E0 into Hes.
  inv_bind Hlit. rename x into main, E0 into Hmain.
  inv_bind Hlit. apply plugins_Ok_inv in E0 as [-> Hcalls].
  injection Hlit as <-. injection H as <-.
  exists css, babel, eo, pre_ts, pre_es, main.
  constructor; auto;
    try (destruct (truthy_str (Env.PUBLIC_PATH env)); reflexivity).
  split; [eauto|]. apply plugins_built_Forall. auto.
Qed.

End shape.
(** ** Style chains *)

Section chains.

Variable opts : Opts.t.
Variable env : Env.t.
Variable host : Host.t.

Lemma getCSSLoader_Ok_inv o chain :
  getCSSLoader opts env host o = Ok chain →
  ∃ style css postcss,
    Host.require_resolve host "style-loader" = Some style
    ∧ Host.require_resolve host "css-loader" = Some css
    ∧ Host.require_resolve host "postcss-loader" = Some postcss
    ∧ chain = Loader style
              :: LoaderWith css (css_loader_options opts env o)
              :: LoaderWith postcss (postcssOptions opts host)
              :: preprocessor_steps opts host o.
Proof.
  unfold getCSSLoader, preprocessor_steps, css_loader_options, require_resolve.
  intros H.
  destruct (Host.require_resolve host "style-loader") as [style|];
    [|discriminate].
  destruct (Host.require_resolve host "css-loader") as [css|];
    [|discriminate].
  destruct (Host.require_resolve host "postcss-loader") as [postcss|];
    [|discriminate].
  exists style, css, postcss. repeat split.
  cbn [bind] in H.
  destruct (CSSLoaderOpts.less o), (CSSLoaderOpts.sass o);
    destruct (Host.require_resolve host "less-loader") as [less|];
    destruct (Host.require_resolve host "sass-loader") as [sass|];
    cbn [bind try_catch andb] in H; try discriminate;
    injection H as <-; reflexivity.
Qed.

Lemma getCSSLoader_Ok_intro o style css postcss :
  Host.require_resolve host "style-loader" = Some style →
  Host.require_resolve host "css-loader" = Some css →
  Host.require_resolve host "postcss-loader" = Some postcss →
  (CSSLoaderOpts.less o = true →
   is_Some (Host.require_resolve host "less-loader")) →
  getCSSLoader opts env host o
  = Ok (Loader style
        :: LoaderWith css (css_loader_options opts env o)
        :: LoaderWith postcss (postcssOptions opts host)
        :: preprocessor_steps opts host o).
Proof.
  unfold getCSSLoader, preprocessor_steps, css_loader_options, require_resolve.
  intros -> -> -> Hless.
  destruct (CSSLoaderOpts.less o).
  - destruct (Hless eq_refl) as [less ->].
    destruct (CSSLoaderOpts.sass o);
      destruct (Host.require_resolve host "sass-loader"); reflexivity.
  - destruct (CSSLoaderOpts.sass o);
      destruct (Host.require_resolve host "sass-loader"); reflexivity.
Qed.

Lemma cssRules_literal_Ok_inv rules :
  cssRules_literal opts env host = Ok rules →
  ∃ style css postcss,
    Host.require_resolve host "style-loader" = Some style
    ∧ Host.require_resolve host "css-loader" = Some css
    ∧ Host.require_resolve host "postcss-loader" = Some postcss
    ∧ is_Some (Host.require_resolve host "less-loader")
    ∧ rules = six_rules opts (style_chain opts env host style css postcss).
Proof.
  unfold cssRules_literal. intros H.
  inv_bind H. inv_bind H. inv_bind H. inv_bind H. inv_bind H. inv_bind H.
  injection H as <-.
  apply getCSSLoader_Ok_inv in E as (style & css & postcss & Hs & Hc & Hp & ->).
  assert (Hless : is_Some (Host.require_resolve host "less-loader")).
  { unfold getCSSLoader, require_resolve in E1.
    rewrite Hs, Hc, Hp in E1. cbn [bind CSSLoaderOpts.less] in E1.
    destruct (Host.require_resolve host "less-loader"); [eauto|discriminate]. }
  exists style, css, postcss. repeat split; try assumption.
  assert (Hget : ∀ o chain, getCSSLoader opts env host o = Ok chain →
                 chain = style_chain opts env host style css postcss o).
  { intros o chain Ho.
    apply getCSSLoader_Ok_inv in Ho as (s' & c' & p' & Hs' & Hc' & Hp' & ->).
    rewrite Hs in Hs'. rewrite Hc in Hc'. rewrite Hp in Hp'.
    injection Hs' as <-. injection Hc' as <-. injection Hp' as <-.
    reflexivity. }
  apply Hget in E0, E1, E2, E3, E4. subst. reflexivity.
Qed.

Lemma cssRules_literal_Ok_intro style css postcss less :
  Host.require_resolve host "style-loader" = Some style →
  Host.require_resolve host "css-loader" = Some css →
  Host.require_resolve host "postcss-loader" = Some postcss →
  Host.require_resolve host "less-loader" = Some less →
  cssRules_literal opts env host = Ok (six_rules opts (style_chain opts env host style css postcss)).
Proof.
  intros Hs Hc Hp Hl. unfold cssRules_literal.
  assert (Hget : ∀ o, getCSSLoader opts env host o
                      = Ok (style_chain opts env host style css postcss o)).
  { intros o. apply getCSSLoader_Ok_intro; try assumption.
    intros _. rewrite Hl. eauto. }
  rewrite !Hget. reflexivity.
Qed.

Lemma cssRules_Ok_inv rules :
  cssRules opts env host = Ok rules →
  ∃ literal,
    cssRules_literal opts env host = Ok literal
    ∧ rules = if isDev env then literal else extract_rule <$> literal.
Proof.
  unfold cssRules. intros H. inv_bind H. injection H as <-.
  exists x. split; [assumption|]. destruct (isDev env); reflexivity.
Qed.

End chains.

(** ** The rules between the pre-pass rules and the style rules *)

Lemma mainRules_Ok_inv opts host css babel main :
  mainRules opts host css babel = Ok main →
  ∃ url ats file,
    Host.require_resolve host "url-loader" = Some url
    ∧ Host.require_resolve host "awesome-typescript-loader" = Some ats
    ∧ Host.require_resolve host "file-loader" = Some file
    ∧ main = transform_rules opts url ats file babel ++ css.
Proof.
  unfold mainRules, require_resolve. intros H.
  destruct (Host.require_resolve host "url-loader") as [url|];
    [|discriminate].
  destruct (Host.require_resolve host "awesome-typescript-loader") as [ats|];
    [|discriminate].
  destruct (Host.require_resolve host "file-loader") as [file|];
    [|discriminate].
  cbn [bind] in H. injection H as <-.
  exists url, ats, file. repeat split.
  unfold transform_rules. cbn [app]. rewrite <- app_assoc. reflexivity.
Qed.

(** ** The production rewrite of the style rules *)

Lemma six_rules_start_with style css postcss opts env host :
  Forall (starts_with_loader style)
    (six_rules opts (style_chain opts env host style css postcss)).
Proof. repeat constructor; eexists; reflexivity. Qed.

Lemma extract_rule_rewritten style r :
  starts_with_loader style r → rewritten r (extract_rule r).
Proof.
  intros [rest Hr]. exists (Loader style), rest.
  unfold extract_rule. rewrite Hr. cbn. auto.
Qed.

(** C1. Whenever a configuration is returned, its rule list ends with the
    six style rules.  As constructed, each of them has the resolved
    style-loader as first chain element.  Outside development mode (in
    particular in production) each of the six is rewritten: the first
    element is dropped and the remaining elements, in their order, are
    handed to the extraction wrapper.  In development mode the six rules
    are left as constructed. *)
Theorem production_rewrites_all_style_rules opts env host c :
  config opts env host = Ok c →
  ∃ style literal others,
    Host.require_resolve host "style-loader" = Some style
    ∧ cssRules_literal opts env host = Ok literal
    ∧ length literal = 6
    ∧ Forall (starts_with_loader style) literal
    ∧ (isDev env = false →
       ∃ rules, Config.rules c = others ++ rules
                ∧ Forall2 rewritten literal rules)
    ∧ (isDev env = true → Config.rules c = others ++ literal).
Proof.
  intros H.
  apply config_synthesis in H as (css & babel & eo & ts & es & main & S).
  destruct (cssRules_Ok_inv _ _ _ _ (syn_cssRules _ _ _ _ _ _ _ _ _ _ S))
    as (literal & Hlit & Hcss).
  destruct (cssRules_literal_Ok_inv _ _ _ _ Hlit)
    as (style & cssl & postcss & Hs & _ & _ & _ & Hsix).
  destruct (mainRules_Ok_inv _ _ _ _ _ (syn_main _ _ _ _ _ _ _ _ _ _ S))
    as (url & ats & file & _ & _ & _ & Hmain).
  assert (Hstart : Forall (starts_with_loader style) literal)
    by (subst literal; apply six_rules_start_with).
  exists style, literal, (ts ++ es ++ transform_rules opts url ats file babel).
  split; [assumption|]. split; [assumption|].
  split; [subst literal; reflexivity|]. split; [assumption|].
  rewrite (syn_rules _ _ _ _ _ _ _ _ _ _ S), Hmain, Hcss.
  split; intros Hdev; rewrite Hdev.
  - exists (extract_rule <$> literal). split.
    + rewrite <- !app_assoc. reflexivity.
    + clear -Hstart. induction Hstart as [|r l Hr _ IH]; constructor;
        eauto using extract_rule_rewritten.
  - rewrite <- !app_assoc. reflexivity.
Qed.

Lemma production_rewrites_all_style_rules_witness :
  ∃ c, config Sample.opts Sample.production Sample.plain_host = Ok c
       ∧ ∃ style literal others,
           Host.require_resolve Sample.plain_host "style-loader" = Some style
           ∧ cssRules_literal Sample.opts Sample.production Sample.plain_host
             = Ok literal
           ∧ length literal = 6
           ∧ Forall (starts_with_loader style) literal
           ∧ (isDev Sample.production = false →
              ∃ rules, Config.rules c = others ++ rules
                       ∧ Forall2 rewritten literal rules)
           ∧ (isDev Sample.production = true →
              Config.rules c = others ++ literal).
Proof.
  eexists. split.
  - reflexivity.
  - apply production_rewrites_all_style_rules. reflexivity.
Defined.

(** ** The pre-pass rules *)

Lemma tslintRule_Ok_inv opts env host rules :
  tslintRule opts env host = Ok rules →
  (truthy_str (Env.DISABLE_TSLINT env) = true ∧ rules = [])
  ∨ (truthy_str (Env.DISABLE_TSLINT env) = false
     ∧ ∃ tslint, Host.require_resolve host "tslint-loader" = Some tslint
                 ∧ rules = [tslint_prepass (cwd opts) tslint]).
Proof.
  unfold tslintRule, require_resolve. intros H.
  destruct (truthy_str (Env.DISABLE_TSLINT env)).
  - left. injection H as <-. auto.
  - right. split; [reflexivity|].
    destruct (Host.require_resolve host "tslint-loader") as [p|];
      [|discriminate].
    injection H as <-. eauto.
Qed.

Lemma eslintRule_Ok_inv opts env host eo rules :
  eslintRule opts env host eo = Ok rules →
  (truthy_str (Env.DISABLE_ESLINT env) = true ∧ rules = [])
  ∨ (truthy_str (Env.DISABLE_ESLINT env) = false
     ∧ ∃ eslint, Host.require_resolve host "eslint-loader" = Some eslint
                 ∧ rules = [eslint_prepass (cwd opts) eslint eo]).
Proof.
  unfold eslintRule, require_resolve. intros H.
  destruct (truthy_str (Env.DISABLE_ESLINT env)).
  - left. injection H as <-. auto.
  - right. split; [reflexivity|].
    destruct (Host.require_resolve host "eslint-loader") as [p|];
      [|discriminate].
    injection H as <-. eauto.
Qed.

(** ** Tests and tiers of the rules *)

Lemma six_rules_plain opts chain :
  Forall (fun r => Rule.enforce r = None ∧ is_Some (Rule.test r))
    (six_rules opts chain).
Proof. repeat constructor; eexists; reflexivity. Qed.

Lemma cssRules_plain opts env host css :
  cssRules opts env host = Ok css →
  Forall (fun r => Rule.enforce r = None ∧ is_Some (Rule.test r)) css.
Proof.
  intros H. apply cssRules_Ok_inv in H as (literal & Hlit & ->).
  apply cssRules_literal_Ok_inv in Hlit as (s & c & p & _ & _ & _ & _ & ->).
  destruct (isDev env); [apply six_rules_plain|].
  apply Forall_fmap. eapply Forall_impl; [apply six_rules_plain|].
  intros r [? ?]. split; assumption.
Qed.

Lemma transform_rules_plain opts url ats file babel :
  Forall (fun r => Rule.enforce r = None)
    (transform_rules opts url ats file babel).
Proof.
  unfold transform_rules. repeat (constructor; [reflexivity|]).
  apply Forall_app. split; [|repeat constructor].
  apply Forall_fmap, Forall_true. reflexivity.
Qed.

Lemma transform_rules_tests opts url ats file babel r :
  r ∈ transform_rules opts url ats file babel →
  Rule.test r = None → r = static_asset_rule url.
Proof.
  unfold transform_rules. intros Hin Htest.
  rewrite !elem_of_cons, elem_of_app, list_elem_of_fmap in Hin.
  destruct Hin as [->|[->|[->|[(i & -> & _)|Hin]]]];
    try reflexivity; try discriminate.
  apply list_elem_of_singleton in Hin as ->. discriminate.
Qed.

Lemma config_rules opts env host c :
  config opts env host = Ok c →
  ∃ eo pre_ts pre_es url ats file babel css,
    eslintOptions opts host = Ok eo
    ∧ tslintRule opts env host = Ok pre_ts
    ∧ eslintRule opts env host eo = Ok pre_es
    ∧ babelUse opts env host = Ok babel
    ∧ cssRules opts env host = Ok css
    ∧ Host.require_resolve host "url-loader" = Some url
    ∧ Config.rules c
      = pre_ts ++ pre_es ++ transform_rules opts url ats file babel ++ css.
Proof.
  intros H.
  apply config_synthesis in H as (css & babel & eo & ts & es & main & S).
  destruct (mainRules_Ok_inv _ _ _ _ _ (syn_main _ _ _ _ _ _ _ _ _ _ S))
    as (url & ats & file & Hurl & _ & _ & Hmain).
  exists eo, ts, es, url, ats, file, babel, css.
  destruct S. subst main. auto 10.
Qed.

(** ** The static-asset fallback rule *)

Lemma jsHash_empty_iff opts env :
  jsHash opts env = "" ↔ isDev env = true ∨ truthy (Opts.hash opts) = false.
Proof.
  unfold jsHash. destruct (isDev env), (truthy (Opts.hash opts)); cbn;
    intuition discriminate.
Qed.

Lemma cssHash_empty_iff opts env :
  cssHash opts env = "" ↔ isDev env = true ∨ truthy (Opts.hash opts) = false.
Proof.
  unfold cssHash. destruct (isDev env), (truthy (Opts.hash opts)); cbn;
    intuition discriminate.
Qed.

(** C10. Whenever a configuration is returned, its rule list holds the
    static-asset fallback rule (the one rule without a [test]), resolved to
    url-loader, and the file name template of that rule is
    [static/[name].[hash:8].[ext]] whatever the options and the
    environment are: it always carries the 8-character hash segment.  The
    script and stylesheet suffixes, in contrast, are empty exactly in
    development mode or when hashing was not requested. *)
Theorem static_asset_name_always_hashed opts env host c :
  config opts env host = Ok c →
  (∃ r url,
     r ∈ Config.rules c
     ∧ Rule.test r = None
     ∧ Host.require_resolve host "url-loader" = Some url
     ∧ Rule.loader r = Some url
     ∧ ∀ r', r' ∈ Config.rules c → Rule.test r' = None → r' = r)
  ∧ (∀ r, r ∈ Config.rules c → Rule.test r = None →
       asset_name r = Some "static/[name].[hash:8].[ext]")
  ∧ includes ".[hash:8]." "static/[name].[hash:8].[ext]" = true
  ∧ (jsHash opts env = ""
     ↔ isDev env = true ∨ truthy (Opts.hash opts) = false)
  ∧ (cssHash opts env = ""
     ↔ isDev env = true ∨ truthy (Opts.hash opts) = false).
Proof.
  intros H.
  destruct (config_rules _ _ _ _ H)
    as (eo & ts & es & url & ats & file & babel & css
        & _ & Hts & Hes & _ & Hcss & Hurl & Hrules).
  assert (Honly : ∀ r, r ∈ Config.rules c → Rule.test r = None →
                       r = static_asset_rule url).
  { intros r Hin Htest. rewrite Hrules, !elem_of_app in Hin.
    destruct Hin as [Hin|[Hin|[Hin|Hin]]].
    - apply tslintRule_Ok_inv in Hts as [[_ ->]|(_ & p & _ & ->)].
      + inversion Hin.
      + apply list_elem_of_singleton in Hin as ->. discriminate.
    - apply eslintRule_Ok_inv in Hes as [[_ ->]|(_ & p & _ & ->)].
      + inversion Hin.
      + apply list_elem_of_singleton in Hin as ->. discriminate.
    - eauto using transform_rules_tests.
    - apply cssRules_plain in Hcss. rewrite Forall_forall in Hcss.
      destruct (Hcss r Hin) as [_ [t Ht]]. congruence. }
  split; [|split; [|split; [reflexivity|]]].
  - exists (static_asset_rule url), url. repeat split; auto.
    rewrite Hrules, !elem_of_app. right. right. left.
    unfold transform_rules. apply list_elem_of_here.
  - intros r Hin Htest. rewrite (Honly r Hin Htest). reflexivity.
  - split; [apply jsHash_empty_iff | apply cssHash_empty_iff].
Qed.

Lemma static_asset_name_always_hashed_witness :
  ∃ c, config Sample.opts Sample.development Sample.plain_host = Ok c
       ∧ ∀ r, r ∈ Config.rules c → Rule.test r = None →
              asset_name r = Some "static/[name].[hash:8].[ext]".
Proof.
  eexists. split.
  - reflexivity.
  - apply (static_asset_name_always_hashed
             Sample.opts Sample.development Sample.plain_host).
    reflexivity.
Defined.

(** ** Hash suffixes *)

Lemma ExtractTextPlugin_in_plugins opts env host hash :
  isDev env = false →
  ExtractTextPlugin ("[name]" +:+ hash +:+ ".css") true
  ∈ plugins_built opts env host hash.
Proof.
  intros Hdev. unfold plugins_built, plugin_calls. rewrite Hdev.
  rewrite !elem_of_app. left. left. left.
  apply list_elem_of_further, list_elem_of_further, list_elem_of_here.
Qed.

(** C6. In development mode the script suffix and the stylesheet suffix
    are empty for every options record, hashing requested or not, and a
    returned configuration names scripts [[name].js] and chunks
    [[name].async.js].  Outside development mode with hashing requested,
    the script and chunk file name templates contain [[chunkhash:8]], and
    the stylesheet extraction plugin is present with a file name template
    that contains the different placeholder [[contenthash:8]]. *)
Theorem hash_suffixes_follow_mode opts env host :
  (isDev env = true → jsHash opts env = "" ∧ cssHash opts env = "")
  ∧ ∀ c, config opts env host = Ok c →
      (isDev env = true →
       Output.filename (Config.output c) = "[name].js"
       ∧ Output.chunkFilename (Config.output c) = "[name].async.js")
      ∧ (isDev env = false → truthy (Opts.hash opts) = true →
         includes "[chunkhash:8]" (Output.filename (Config.output c)) = true
         ∧ includes "[chunkhash:8]" (Output.chunkFilename (Config.output c))
           = true
         ∧ ∃ filename,
             ExtractTextPlugin filename true ∈ Config.plugins c
             ∧ includes "[contenthash:8]" filename = true
             ∧ includes "[chunkhash:8]" filename = false
             ∧ includes "[contenthash:8]" (Output.filename (Config.output c))
               = false).
Proof.
  split.
  - intros Hdev. unfold jsHash, cssHash. rewrite Hdev. auto.
  - intros c H.
    apply config_synthesis in H as (css & babel & eo & ts & es & main & S).
    destruct S. rewrite syn_filename0, syn_chunkFilename0, syn_plugins0.
    split.
    + intros Hdev. unfold jsHash. rewrite Hdev. auto.
    + intros Hdev Hhash. unfold jsHash, cssHash. rewrite Hdev, Hhash.
      cbn [negb andb]. split; [reflexivity|]. split; [reflexivity|].
      exists "[name].[contenthash:8].css". split; [|auto].
      apply (ExtractTextPlugin_in_plugins opts env host ".[contenthash:8]").
      assumption.
Qed.

Lemma hash_suffixes_follow_mode_witness :
  (jsHash Sample.opts Sample.development = ""
   ∧ cssHash Sample.opts Sample.development = "")
  ∧ ∃ c, config Sample.opts Sample.production Sample.plain_host = Ok c
         ∧ includes "[chunkhash:8]" (Output.filename (Config.output c)) = true
         ∧ includes "[chunkhash:8]" (Output.chunkFilename (Config.output c))
           = true
         ∧ ∃ filename,
             ExtractTextPlugin filename true ∈ Config.plugins c
             ∧ includes "[contenthash:8]" filename = true
             ∧ includes "[chunkhash:8]" filename = false
             ∧ includes "[contenthash:8]" (Output.filename (Config.output c))
               = false.
Proof.
  split.
  - apply (hash_suffixes_follow_mode
             Sample.opts Sample.development Sample.plain_host).
    reflexivity.
  - eexists. split; [reflexivity|].
    apply (hash_suffixes_follow_mode
             Sample.opts Sample.production Sample.plain_host);
      reflexivity.
Defined.

(** ** The public path *)

Lemma append_slash_ends_with_slash s : Path.ends_with_slash (s +:+ "/") = true.
Proof.
  unfold Path.ends_with_slash.
  assert (H : String.list_ascii_of_string (s +:+ "/")
              = String.list_ascii_of_string s ++ ["/"%char]).
  { induction s as [|a s IH]; [reflexivity|].
    change (a :: String.list_ascii_of_string (s +:+ "/")
            = a :: (String.list_ascii_of_string s ++ ["/"%char])).
    f_equal. exact IH. }
  rewrite H, rev_app_distr. reflexivity.
Qed.

(** C2 as stated fails: with an explicit public path [/static/] and the
    override [PUBLIC_PATH=/cdn/] both present, the configuration carries
    the override, not the option. *)
Lemma publicPath_option_first_counterexample :
  truthy (Opts.publicPath Sample.opts_publicPath) = true
  ∧ ∃ c, config Sample.opts_publicPath Sample.production_PUBLIC_PATH
                Sample.plain_host = Ok c
         ∧ Output.publicPath (Config.output c) = JStr "/cdn/"
         ∧ Output.publicPath (Config.output c)
           ≠ Opts.publicPath Sample.opts_publicPath.
Proof.
  split; [reflexivity|]. eexists. split; [reflexivity|].
  split; [reflexivity|]. discriminate.
Qed.

Lemma string_of_list_ascii_app (l k : list ascii) :
  String.string_of_list_ascii (l ++ k)
  = String.string_of_list_ascii l +:+ String.string_of_list_ascii k.
Proof. induction l as [|a l IH]; [reflexivity|]. cbn. rewrite IH. reflexivity. Qed.

Lemma drop_while_prefix {A : Type} (f : A → bool) (l : list A) :
  ∃ pre, l = pre ++ Path.drop_while f l ∧ Forall (fun x => f x = true) pre.
Proof.
  induction l as [|x l (pre & IH & Hpre)].
  - exists []. split; [reflexivity | constructor].
  - cbn [Path.drop_while]. destruct (f x) eqn:Hx.
    + exists (x :: pre). split; [cbn; f_equal; exact IH|].
      constructor; assumption.
    + exists []. split; [reflexivity | constructor].
Qed.

Lemma drop_while_head {A : Type} (f : A → bool) (l : list A) x rest :
  Path.drop_while f l = x :: rest → f x = false.
Proof.
  induction l as [|y l IH]; [discriminate|].
  cbn [Path.drop_while]. destruct (f y) eqn:Hy; [exact IH|].
  intros H. injection H as <- _. exact Hy.
Qed.

Lemma all_slashes (l : list ascii) :
  Forall (fun c => Ascii.eqb c Path.slash = true) l →
  l = replicate (length l) Path.slash.
Proof.
  induction 1 as [|c l Hc _ IH]; [reflexivity|].
  apply Ascii.eqb_eq in Hc. subst c. cbn. f_equal. exact IH.
Qed.

Lemma rev_replicate {A : Type} n (x : A) : rev (replicate n x) = replicate n x.
Proof.
  induction n as [|n IH]; [reflexivity|].
  cbn [replicate rev]. rewrite IH. clear IH.
  induction n as [|n IH]; [reflexivity|]. cbn. f_equal. exact IH.
Qed.

(** What [stripLastSlash] returns: its argument is the result followed by
    separators only, and the result ends with none. *)
Lemma stripLastSlash_stem p :
  ∃ n, p = stripLastSlash p +:+ separators n
       ∧ Path.ends_with_slash (stripLastSlash p) = false.
Proof.
  unfold stripLastSlash, separators, Path.ends_with_slash.
  set (f := fun c => Ascii.eqb c Path.slash).
  destruct (drop_while_prefix f (rev (String.list_ascii_of_string p)))
    as (pre & Hsplit & Hpre).
  exists (length pre). split.
  - rewrite <- string_of_list_ascii_app.
    rewrite <- (rev_replicate (length pre) Path.slash).
    rewrite <- (all_slashes pre Hpre), <- rev_app_distr, <- Hsplit.
    rewrite rev_involutive, String.string_of_list_ascii_of_string.
    reflexivity.
  - rewrite String.list_ascii_of_string_of_list_ascii, rev_involutive.
    destruct (Path.drop_while f (rev (String.list_ascii_of_string p)))
      as [|c rest] eqn:Hd; [reflexivity|].
    exact (drop_while_head f _ c rest Hd).
Qed.

(** C2, amended. The public path of the output section is, in this order of
    precedence: the environment override when [PUBLIC_PATH] is set to a
    non-empty string, with its trailing separators normalized to exactly
    one (the override is a stem that ends with no separator, followed by
    any number of separators, and the public path is the stem followed by
    one separator); otherwise the explicit option when it is truthy;
    otherwise [undefined]. *)
Theorem publicPath_override_first opts env host c :
  config opts env host = Ok c →
  (∀ p, Env.PUBLIC_PATH env = Some p → p ≠ "" →
     ∃ stem n,
       p = stem +:+ separators n
       ∧ Path.ends_with_slash stem = false
       ∧ Output.publicPath (Config.output c) = JStr (stem +:+ "/"))
  ∧ (truthy_str (Env.PUBLIC_PATH env) = false →
     truthy (Opts.publicPath opts) = true →
     Output.publicPath (Config.output c) = Opts.publicPath opts)
  ∧ (truthy_str (Env.PUBLIC_PATH env) = false →
     truthy (Opts.publicPath opts) = false →
     Output.publicPath (Config.output c) = JUndefined).
Proof.
  intros H.
  apply config_synthesis in H as (css & babel & eo & ts & es & main & S).
  rewrite (syn_publicPath _ _ _ _ _ _ _ _ _ _ S). clear S.
  split; [|split].
  - intros p Hp Hne. rewrite Hp. unfold truthy_str. cbn.
    apply String.eqb_neq in Hne. rewrite Hne. cbn.
    destruct (stripLastSlash_stem p) as (n & Hstem & Hend).
    exists (stripLastSlash p), n. auto.
  - intros -> Ht. unfold JS.or. rewrite Ht. reflexivity.
  - intros -> Ht. unfold JS.or. rewrite Ht. reflexivity.
Qed.

Lemma publicPath_override_first_witness :
  ∃ c, config Sample.opts_publicPath Sample.production_PUBLIC_PATH
              Sample.plain_host = Ok c
       ∧ ∃ stem n,
           "/cdn/" = stem +:+ separators n
           ∧ Path.ends_with_slash stem = false
           ∧ Output.publicPath (Config.output c) = JStr (stem +:+ "/").
Proof.
  eexists. split; [reflexivity|].
  refine (proj1 (publicPath_override_first
            Sample.opts_publicPath Sample.production_PUBLIC_PATH
            Sample.plain_host _ _) "/cdn/" _ _).
  - reflexivity.
  - reflexivity.
  - discriminate.
Defined.

(** ** Pre-pass rules and their flags *)

Lemma filter_none {A : Type} (f : A → bool) (l : list A) :
  Forall (fun x => f x = false) l → List.filter f l = [].
Proof.
  induction 1 as [|x l Hx _ IH]; [reflexivity|]. cbn. rewrite Hx. exact IH.
Qed.

Lemma filter_all {A : Type} (f : A → bool) (l : list A) :
  Forall (fun x => f x = true) l → List.filter f l = l.
Proof.
  induction 1 as [|x l Hx _ IH]; [reflexivity|]. cbn. rewrite Hx, IH.
  reflexivity.
Qed.

Lemma plain_not_prepass (l : list Rule.t) :
  Forall (fun r => Rule.enforce r = None) l →
  Forall (fun r => is_prepass r = false) l.
Proof.
  intros H. eapply Forall_impl; [exact H|].
  intros r Hr. unfold is_prepass. rewrite Hr. reflexivity.
Qed.

(** The three tiers read back from a rule list of the shape [getConfig]
    builds. *)
Lemma tiers_of_rules opts env host eo pre_ts pre_es rest :
  tslintRule opts env host = Ok pre_ts →
  eslintRule opts env host eo = Ok pre_es →
  Forall (fun r => Rule.enforce r = None) rest →
  List.filter is_type_lint (pre_ts ++ pre_es ++ rest) = pre_ts
  ∧ List.filter is_script_lint (pre_ts ++ pre_es ++ rest) = pre_es
  ∧ List.filter not_prepass (pre_ts ++ pre_es ++ rest) = rest.
Proof.
  intros Hts Hes Hrest. apply plain_not_prepass in Hrest.
  assert (Ht : List.filter is_type_lint rest = []).
  { apply filter_none. eapply Forall_impl; [exact Hrest|].
    intros r Hr. unfold is_type_lint. rewrite Hr. reflexivity. }
  assert (Hs : List.filter is_script_lint rest = []).
  { apply filter_none. eapply Forall_impl; [exact Hrest|].
    intros r Hr. unfold is_script_lint. rewrite Hr. reflexivity. }
  assert (Hn : List.filter not_prepass rest = rest).
  { apply filter_all. eapply Forall_impl; [exact Hrest|].
    intros r Hr. unfold not_prepass. rewrite Hr. reflexivity. }
  rewrite !List.filter_app, Ht, Hs, Hn.
  apply tslintRule_Ok_inv in Hts as [[_ ->]|(_ & p & _ & ->)];
    apply eslintRule_Ok_inv in Hes as [[_ ->]|(_ & q & _ & ->)];
    repeat split; reflexivity.
Qed.

Lemma config_tiers opts env host c :
  config opts env host = Ok c →
  ∃ eo pre_ts pre_es rest,
    eslintOptions opts host = Ok eo
    ∧ tslintRule opts env host = Ok pre_ts
    ∧ eslintRule opts env host eo = Ok pre_es
    ∧ (∃ url ats file babel css,
         babelUse opts env host = Ok babel
         ∧ cssRules opts env host = Ok css
         ∧ rest = transform_rules opts url ats file babel ++ css
         ∧ Host.require_resolve host "url-loader" = Some url
         ∧ Host.require_resolve host "awesome-typescript-loader" = Some ats
         ∧ Host.require_resolve host "file-loader" = Some file)
    ∧ List.filter is_type_lint (Config.rules c) = pre_ts
    ∧ List.filter is_script_lint (Config.rules c) = pre_es
    ∧ List.filter not_prepass (Config.rules c) = rest.
Proof.
  intros H.
  apply config_synthesis in H as (css & babel & eo & ts & es & main & S).
  destruct (mainRules_Ok_inv _ _ _ _ _ (syn_main _ _ _ _ _ _ _ _ _ _ S))
    as (url & ats & file & Hurl & Hats & Hfile & Hmain).
  destruct S.
  exists eo, ts, es, main. split; [assumption|].
  split; [assumption|]. split; [assumption|].
  split; [exists url, ats, file, babel, css; auto 10|].
  rewrite syn_rules0.
  apply (tiers_of_rules opts env host eo); try assumption.
  subst main. apply Forall_app. split.
  - apply transform_rules_plain.
  - eapply Forall_impl; [eapply cssRules_plain; eassumption|].
    intros r [Hr _]. exact Hr.
Qed.

Lemma isDev_same env env' :
  Env.NODE_ENV env' = Env.NODE_ENV env → isDev env' = isDev env.
Proof. unfold isDev. intros ->. reflexivity. Qed.

Lemma cssRules_same opts env env' host :
  same_but_lint_flags env env' →
  cssRules opts env' host = cssRules opts env host.
Proof.
  intros [Hn Hc _ _ _ _ _ _].
  unfold cssRules, cssRules_literal, getCSSLoader, cssOptions.
  rewrite (isDev_same _ _ Hn), Hc. reflexivity.
Qed.

Lemma babelUse_same opts env env' host :
  same_but_lint_flags env env' →
  babelUse opts env' host = babelUse opts env host.
Proof. intros [_ _ Hb _ _ _ _ _]. unfold babelUse. rewrite Hb. reflexivity. Qed.

Lemma eslintRule_same opts env env' host eo :
  truthy_str (Env.DISABLE_ESLINT env') = truthy_str (Env.DISABLE_ESLINT env) →
  eslintRule opts env' host eo = eslintRule opts env host eo.
Proof. unfold eslintRule. intros ->. reflexivity. Qed.

Lemma tslintRule_same opts env env' host :
  truthy_str (Env.DISABLE_TSLINT env') = truthy_str (Env.DISABLE_TSLINT env) →
  tslintRule opts env' host = tslintRule opts env host.
Proof. unfold tslintRule. intros ->. reflexivity. Qed.

(** C5. In a returned configuration:
    - with [DISABLE_ESLINT] set, no rule of the list is the script-lint
      pre-pass rule; without it there is exactly one;
    - with [DISABLE_TSLINT] set, no rule of the list is the type-lint
      pre-pass rule; without it there is exactly one; the flag does not
      bear on the script-lint rule;
    - a change of the two flags alone leaves every rule outside the
      pre-pass tier as it was, in the same order, and leaves each pre-pass
      rule as it was when its own flag is unchanged.
    A flag counts as set when the variable holds a non-empty string. *)
Theorem prepass_rules_follow_their_flags opts env host c :
  config opts env host = Ok c →
  (truthy_str (Env.DISABLE_ESLINT env) = true →
   List.filter is_script_lint (Config.rules c) = [])
  ∧ (truthy_str (Env.DISABLE_ESLINT env) = false →
     ∃ r, List.filter is_script_lint (Config.rules c) = [r])
  ∧ (truthy_str (Env.DISABLE_TSLINT env) = true →
     List.filter is_type_lint (Config.rules c) = [])
  ∧ (truthy_str (Env.DISABLE_TSLINT env) = false →
     ∃ r, List.filter is_type_lint (Config.rules c) = [r])
  ∧ (∀ env' c',
       same_but_lint_flags env env' →
       config opts env' host = Ok c' →
       List.filter not_prepass (Config.rules c')
       = List.filter not_prepass (Config.rules c)
       ∧ (truthy_str (Env.DISABLE_ESLINT env')
          = truthy_str (Env.DISABLE_ESLINT env) →
          List.filter is_script_lint (Config.rules c')
          = List.filter is_script_lint (Config.rules c))
       ∧ (truthy_str (Env.DISABLE_TSLINT env')
          = truthy_str (Env.DISABLE_TSLINT env) →
          List.filter is_type_lint (Config.rules c')
          = List.filter is_type_lint (Config.rules c))).
Proof.
  intros H.
  destruct (config_tiers _ _ _ _ H)
    as (eo & ts & es & rest & Heo & Hts & Hes & Hrest & -> & -> & ->).
  split; [|split; [|split; [|split]]].
  - intros Hset.
    apply eslintRule_Ok_inv in Hes as [[_ ->]|[Hno _]]; [reflexivity|].
    congruence.
  - intros Hunset.
    apply eslintRule_Ok_inv in Hes as [[Hyes _]|(_ & p & _ & ->)];
      [congruence | eauto].
  - intros Hset.
    apply tslintRule_Ok_inv in Hts as [[_ ->]|[Hno _]]; [reflexivity|].
    congruence.
  - intros Hunset.
    apply tslintRule_Ok_inv in Hts as [[Hyes _]|(_ & p & _ & ->)];
      [congruence | eauto].
  - intros env' c' Hsame H'.
    destruct (config_tiers _ _ _ _ H')
      as (eo' & ts' & es' & rest' & Heo' & Hts' & Hes' & Hrest' & -> & -> & ->).
    rewrite Heo in Heo'. injection Heo' as <-.
    destruct Hrest as (url & ats & file & babel & css
                       & Hb & Hc & -> & Hu & Ha & Hf).
    destruct Hrest' as (url' & ats' & file' & babel' & css'
                        & Hb' & Hc' & -> & Hu' & Ha' & Hf').
    rewrite (babelUse_same _ _ _ _ Hsame), Hb in Hb'. injection Hb' as <-.
    rewrite (cssRules_same _ _ _ _ Hsame), Hc in Hc'. injection Hc' as <-.
    rewrite Hu in Hu'. injection Hu' as <-.
    rewrite Ha in Ha'. injection Ha' as <-.
    rewrite Hf in Hf'. injection Hf' as <-.
    split; [reflexivity|]. split.
    + intros Hflag. rewrite (eslintRule_same _ _ _ _ _ Hflag), Hes in Hes'.
      injection Hes' as <-. reflexivity.
    + intros Hflag. rewrite (tslintRule_same _ _ _ _ Hflag), Hts in Hts'.
      injection Hts' as <-. reflexivity.
Qed.

Lemma prepass_rules_follow_their_flags_witness :
  (∃ c, config Sample.opts
          (Sample.env (Some "production") (Some "1") None None)
          Sample.plain_host = Ok c
        ∧ List.filter is_type_lint (Config.rules c) = []
        ∧ ∃ r, List.filter is_script_lint (Config.rules c) = [r])
  ∧ (∃ c, config Sample.opts
            (Sample.env (Some "production") None (Some "1") None)
            Sample.plain_host = Ok c
          ∧ List.filter is_script_lint (Config.rules c) = []
          ∧ ∃ r, List.filter is_type_lint (Config.rules c) = [r]).
Proof.
  split.
  - eexists. split; [reflexivity|].
    pose proof (prepass_rules_follow_their_flags Sample.opts
                  (Sample.env (Some "production") (Some "1") None None)
                  Sample.plain_host _ eq_refl) as (_ & Hs & Ht & _).
    split; [apply Ht | apply Hs]; reflexivity.
  - eexists. split; [reflexivity|].
    pose proof (prepass_rules_follow_their_flags Sample.opts
                  (Sample.env (Some "production") None (Some "1") None)
                  Sample.plain_host _ eq_refl) as (Hs & _ & _ & Ht & _).
    split; [apply Hs | apply Ht]; reflexivity.
Defined.

(** ** Project-scoped and dependency-scoped style rules *)

Lemma spread_empty_r (m : gmap string jsval) : spread m ∅ = m.
Proof. unfold spread. apply (left_id_L ∅ (∪)). Qed.

Lemma style_chain_pair opts env host style css postcss less sass sassOptions
    (dev : bool) source :
  Host.require_resolve host "css-loader" = Some css →
  let p := use_rule source None [node_modules]
             (style_chain opts env host style css postcss
                (loader_opts true less sass sassOptions)) in
  let d := use_rule source (Some node_modules) []
             (style_chain opts env host style css postcss
                (loader_opts false less sass sassOptions)) in
  scoping_pair opts env host source
    (if dev then p else extract_rule p) (if dev then d else extract_rule d).
Proof.
  intros Hcss p d.
  set (after := LoaderWith postcss (postcssOptions opts host)
                :: preprocessor_steps opts host
                     (loader_opts true less sass sassOptions)).
  unfold scoping_pair. destruct dev.
  - repeat (split; [reflexivity|]).
    exists UseChain, [Loader style], css, after.
    split; [auto|]. split; [assumption|]. split; [reflexivity|].
    subst p d after. unfold use_rule, style_chain, css_loader_options.
    cbn [Rule.use CSSLoaderOpts.cssModules loader_opts].
    rewrite spread_empty_r. reflexivity.
  - repeat (split; [reflexivity|]).
    exists ExtractTextPlugin_extract, [], css, after.
    split; [auto|]. split; [assumption|]. split; [reflexivity|].
    subst p d after.
    unfold extract_rule, use_rule, style_chain, css_loader_options.
    cbn [Rule.use CSSLoaderOpts.cssModules loader_opts drop app].
    rewrite spread_empty_r. reflexivity.
Qed.

(** C7. A returned configuration ends with three pairs of style rules, for
    [.css], [.less] and [.sass]/[.scss] files.  In each pair the
    project-scoped rule and the dependency-scoped rule have the same chain
    of steps under the same wrapper; the only difference is in the options
    of the css-loader step, which carry the module-scoping options in the
    project-scoped rule only.  So the post-processor step and the
    preprocessor step are present in both rules of a pair or in
    neither. *)
Theorem style_rule_pairs_differ_in_scoping_only opts env host c :
  config opts env host = Ok c →
  ∃ others p_css d_css p_less d_less p_sass d_sass,
    Config.rules c
    = others ++ [p_css; d_css; p_less; d_less; p_sass; d_sass]
    ∧ scoping_pair opts env host "\.css$" p_css d_css
    ∧ scoping_pair opts env host "\.less$" p_less d_less
    ∧ scoping_pair opts env host "\.(sass|scss)$" p_sass d_sass.
Proof.
  intros H.
  destruct (config_rules _ _ _ _ H)
    as (eo & ts & es & url & ats & file & babel & css
        & _ & _ & _ & _ & Hcss & _ & Hrules).
  apply cssRules_Ok_inv in Hcss as (literal & Hlit & ->).
  apply cssRules_literal_Ok_inv in Hlit
    as (style & cssl & postcss & _ & Hc & _ & _ & ->).
  pose proof (fun less sass so source =>
                style_chain_pair opts env host style cssl postcss
                  less sass so (isDev env) source Hc) as Hpair.
  cbv zeta in Hpair.
  eexists (ts ++ es ++ transform_rules opts url ats file babel),
    _, _, _, _, _, _.
  split; [|split; [apply (Hpair false false JUndefined)
                  |split; [apply (Hpair true false JUndefined)
                          |apply (Hpair false true (Opts.sass opts))]]].
  rewrite Hrules, <- !app_assoc. do 3 f_equal.
  destruct (isDev env); reflexivity.
Qed.

Lemma style_rule_pairs_differ_in_scoping_only_witness :
  ∃ c, config Sample.opts Sample.production Sample.plain_host = Ok c
       ∧ ∃ others p_css d_css p_less d_less p_sass d_sass,
           Config.rules c
           = others ++ [p_css; d_css; p_less; d_less; p_sass; d_sass]
           ∧ scoping_pair Sample.opts Sample.production Sample.plain_host
               "\.css$" p_css d_css
           ∧ scoping_pair Sample.opts Sample.production Sample.plain_host
               "\.less$" p_less d_less
           ∧ scoping_pair Sample.opts Sample.production Sample.plain_host
               "\.(sass|scss)$" p_sass d_sass.
Proof.
  eexists. split; [reflexivity|].
  apply style_rule_pairs_differ_in_scoping_only. reflexivity.
Defined.

(** ** Totality on a provisioned host *)

Lemma cssRules_returns opts env host :
  provisioned host → returns (cssRules opts env host).
Proof.
  intros Hp. unfold provisioned, bundled in Hp.
  repeat (apply Forall_cons in Hp as [[? ?] Hp]).
  unfold cssRules.
  erewrite cssRules_literal_Ok_intro by eassumption.
  eexists. reflexivity.
Qed.

Lemma config_returns opts env host :
  truthy_str (Opts.cwd opts) = true →
  provisioned host →
  cooperative opts env host →
  returns (config opts env host).
Proof.
  intros Hcwd Hp [Htheme Hplugins].
  destruct (cssRules_returns opts env host Hp) as [css Hcss].
  destruct (normalizeTheme_Ok_intro host _ Htheme) as [theme Hnorm].
  apply plugins_built_Forall in Hplugins as (Hcalls & Hcommons & Hcopy).
  unfold provisioned, bundled in Hp.
  repeat (apply Forall_cons in Hp as [[? ?] Hp]).
  unfold config. rewrite Hcwd, Hnorm, Hcss. cbn [negb bind].
  rewrite (commonsPlugins_Ok_intro _ _ Hcommons),
    (copyPlugins_Ok_intro _ _ Hcopy).
  cbn [bind].
  unfold babelUse, eslintOptions, eslintOptions_literal, config_literal,
    tslintRule, eslintRule, mainRules.
  rewrite (plugins_Ok_intro _ _ _ _ _ _ Hcalls).
  repeat (erewrite require_resolve_Ok by eassumption; cbn [bind]).
  destruct (truthy_str (Env.DISABLE_TSLINT env));
    destruct (truthy_str (Env.DISABLE_ESLINT env));
    repeat (erewrite require_resolve_Ok by eassumption; cbn [bind]);
    eexists; reflexivity.
Qed.

(** ** Preprocessor probes *)

(** The less step has no probe: without less-loader, synthesis throws. *)
Lemma less_loader_is_required opts env host :
  truthy_str (Opts.cwd opts) = true →
  is_Some (Host.normalizeTheme host (Opts.theme opts)) →
  is_Some (Host.require_resolve host "style-loader") →
  is_Some (Host.require_resolve host "css-loader") →
  is_Some (Host.require_resolve host "postcss-loader") →
  Host.require_resolve host "less-loader" = None →
  config opts env host = Throw (CannotFindModule "less-loader").
Proof.
  intros Hcwd Htheme [s Hs] [c Hc] [p Hp] Hless.
  destruct (normalizeTheme_Ok_intro host _ Htheme) as [theme Hnorm].
  unfold config, cssRules, cssRules_literal. rewrite Hcwd, Hnorm.
  cbn [negb bind].
  rewrite (getCSSLoader_Ok_intro opts env host _ s c p Hs Hc Hp)
    by discriminate.
  rewrite (getCSSLoader_Ok_intro opts env host _ s c p Hs Hc Hp)
    by discriminate.
  cbn [bind]. unfold getCSSLoader at 1.
  rewrite (require_resolve_Ok _ _ _ Hs), (require_resolve_Ok _ _ _ Hc),
    (require_resolve_Ok _ _ _ Hp), (require_resolve_Throw _ _ Hless).
  reflexivity.
Qed.

(** C8 as stated fails for the first preprocessor: on a host where all
    modules but less-loader resolve, synthesis throws. *)
Lemma preprocessor_probe_counterexample :
  Host.require_resolve (Sample.host ["less-loader"] "/app" None None)
    "less-loader" = None
  ∧ config Sample.opts Sample.development
      (Sample.host ["less-loader"] "/app" None None)
    = Throw (CannotFindModule "less-loader").
Proof. split; reflexivity. Qed.

(** C8, amended. On a host where the bundled modules resolve and
    sass-loader does not, and where the theme normalizes and the plugin
    constructors accept their arguments, synthesis returns a
    configuration; its two [.sass]/[.scss] rules are still there, and their
    chains are those of the two [.css] rules: the sass step is left
    out. *)
Theorem sass_step_omitted_when_unresolved opts env host :
  truthy_str (Opts.cwd opts) = true →
  provisioned host →
  cooperative opts env host →
  Host.require_resolve host "sass-loader" = None →
  ∃ c others p_css d_css p_less d_less p_sass d_sass,
    config opts env host = Ok c
    ∧ Config.rules c
      = others ++ [p_css; d_css; p_less; d_less; p_sass; d_sass]
    ∧ Rule.test p_css = Some (Regex "\.css$")
    ∧ Rule.test d_css = Some (Regex "\.css$")
    ∧ Rule.test p_sass = Some (Regex "\.(sass|scss)$")
    ∧ Rule.test d_sass = Some (Regex "\.(sass|scss)$")
    ∧ Rule.use p_sass = Rule.use p_css
    ∧ Rule.use d_sass = Rule.use d_css.
Proof.
  intros Hcwd Hp Hco Hsass.
  destruct (config_returns opts env host Hcwd Hp Hco) as [c H].
  destruct (config_rules _ _ _ _ H)
    as (eo & ts & es & url & ats & file & babel & css
        & _ & _ & _ & _ & Hcss & _ & Hrules).
  apply cssRules_Ok_inv in Hcss as (literal & Hlit & ->).
  apply cssRules_literal_Ok_inv in Hlit
    as (style & cssl & postcss & _ & _ & _ & _ & ->).
  assert (Hsteps : ∀ m so,
            style_chain opts env host style cssl postcss
              (loader_opts m false true so)
            = style_chain opts env host style cssl postcss
                (loader_opts m false false JUndefined)).
  { intros m so. unfold style_chain, preprocessor_steps, loader_opts.
    cbn [CSSLoaderOpts.less CSSLoaderOpts.sass]. rewrite Hsass.
    reflexivity. }
  unfold six_rules in Hrules. rewrite !Hsteps in Hrules.
  exists c. destruct (isDev env);
    eexists (ts ++ es ++ transform_rules opts url ats file babel),
      _, _, _, _, _, _;
    (split; [assumption|]); (split;
      [rewrite Hrules, <- !app_assoc; do 3 f_equal; reflexivity|]);
    repeat split; reflexivity.
Qed.

Lemma sass_step_omitted_when_unresolved_witness :
  ∃ c others p_css d_css p_less d_less p_sass d_sass,
    config Sample.opts Sample.production
      (Sample.host ["sass-loader"] "/app" None None) = Ok c
    ∧ Config.rules c
      = others ++ [p_css; d_css; p_less; d_less; p_sass; d_sass]
    ∧ Rule.test p_css = Some (Regex "\.css$")
    ∧ Rule.test d_css = Some (Regex "\.css$")
    ∧ Rule.test p_sass = Some (Regex "\.(sass|scss)$")
    ∧ Rule.test d_sass = Some (Regex "\.(sass|scss)$")
    ∧ Rule.use p_sass = Rule.use p_css
    ∧ Rule.use d_sass = Rule.use d_css.
Proof.
  apply sass_step_omitted_when_unresolved.
  - reflexivity.
  - unfold provisioned, bundled. repeat constructor; eexists; reflexivity.
  - split; [eexists; reflexivity | repeat constructor].
  - reflexivity.
Defined.

(** ** The lint engine *)

Lemma use_user_eslint_baseConfig opts host o :
  EslintOptions.baseConfig (use_user_eslint opts host o)
  = EslintOptions.baseConfig o
  ∧ EslintOptions.ignore (use_user_eslint opts host o) = EslintOptions.ignore o
  ∧ EslintOptions.useEslintrc (use_user_eslint opts host o)
    = EslintOptions.useEslintrc o.
Proof.
  unfold use_user_eslint, require, resolveSync.
  destruct (Host.require host _) as [pkg|]; [|auto].
  cbn [bind].
  destruct (get_prop pkg "dependencies") as [deps|]; [|auto].
  destruct (get_prop pkg "devDependencies") as [dev|]; [|auto].
  cbn [bind].
  destruct (get_prop deps "eslint") as [e|]; [|auto].
  cbn [bind].
  destruct (truthy e || truthy dev); [|auto].
  destruct (Host.resolveSync host _ _); auto.
Qed.

(** C3, the code at two manifests.  With a manifest that lists eslint
    nowhere but has a non-empty [devDependencies] table, the project's own
    eslint replaces the bundled one; with a manifest that lists eslint in
    [devDependencies] and has no [dependencies] table, the bundled one is
    kept. *)
Lemma user_eslint_does_not_follow_declaration :
  (declares_eslint Sample.manifest_without_eslint = false
   ∧ ∃ eo, eslintOptions Sample.opts
             (Sample.host [] "/app" (Some Sample.manifest_without_eslint) None)
           = Ok eo
           ∧ EslintOptions.eslintPath eo = "/app/node_modules/eslint")
  ∧ (declares_eslint Sample.manifest_dev_eslint_only = true
     ∧ ∃ eo, eslintOptions Sample.opts
               (Sample.host [] "/app" (Some Sample.manifest_dev_eslint_only)
                  None)
             = Ok eo
             ∧ EslintOptions.eslintPath eo = "/af/node_modules/eslint").
Proof.
  split; (split; [reflexivity|]); eexists; split; reflexivity.
Qed.

(** ** The project-local lint configuration *)

Lemma spread_lookup (a b : gmap string jsval) (k : string) :
  spread a b !! k = match b !! k with Some v => Some v | None => a !! k end.
Proof.
  unfold spread. rewrite lookup_union.
  destruct (b !! k), (a !! k); reflexivity.
Qed.

Lemma spread_superset (a b : gmap string jsval) :
  (∀ k, is_Some (a !! k) → b !! k = None) → a ⊆ spread a b ∧ b ⊆ spread a b.
Proof.
  intros Hfresh. unfold spread. split.
  - apply map_union_subseteq_r. apply map_disjoint_spec.
    intros k x y Hb Ha. rewrite (Hfresh k) in Hb by eauto. discriminate.
  - apply map_union_subseteq_l.
Qed.

(** Where [config] is built, [getConfig] ends as the hook does on it. *)
Lemma getConfig_reaches_hook opts env host :
  truthy_str (Opts.cwd opts) = true →
  provisioned host →
  cooperative opts env host →
  ∃ c, config opts env host = Ok c
       ∧ getConfig opts env host = applyWebpackConfig host c.
Proof.
  intros Hcwd Hp Hco.
  destruct (config_returns opts env host Hcwd Hp Hco) as [c Hc].
  exists c. split; [exact Hc|].
  unfold getConfig. rewrite Hc. reflexivity.
Qed.

(** C4 as stated fails: an [.eslintrc] that has an [extends] key holding
    the empty string is merged into the defaults; the default rule-set is
    not dropped and the two switches stay as they were. *)
Lemma eslintrc_extends_key_counterexample :
  own_props Sample.rc_empty_extends !! "extends" = Some (JStr "")
  ∧ ∃ eo, eslintOptions Sample.opts
            (Sample.host [] "/app" None (Some (Some Sample.rc_empty_extends)))
          = Ok eo
          ∧ EslintOptions.baseConfig eo ≠ JBool false
          ∧ EslintOptions.useEslintrc eo = false
          ∧ EslintOptions.ignore eo = false.
Proof.
  split; [reflexivity|]. eexists. split; [reflexivity|].
  split; [|split; reflexivity].
  intros H. vm_compute in H. discriminate H.
Qed.

(** C4, amended. Let [.eslintrc] exist where the source looks for it, and
    let [prior] be the lint options as they stand after the manifest
    step.
    - If the file parses and its [extends] value is truthy, the resolved
      options have [baseConfig: false], [useEslintrc: true] and
      [ignore: true].
    - If the file parses and its [extends] value is absent or falsy, the
      base rule-set becomes the shallow merge of the default rule-set with
      the keys of the file, the file winning; when the file has no
      [extends] key the merge contains the defaults and the file's keys
      unchanged.  The switches keep their values.
    - If reading the file throws, the options are [prior] and the failure
      goes no further: where the bundled modules resolve, the theme
      normalizes and the plugin constructors accept their arguments, the
      configuration is built and handed to the hook, whose outcome is that
      of [getConfig]. *)
Theorem eslintrc_resolution opts host literal umi :
  eslintOptions_literal host = Ok literal →
  Host.require_resolve host "eslint-config-umi" = Some umi →
  Host.existsSync host (resolve host [".eslintrc"]) = true →
  let prior := use_user_eslint opts host literal in
  let defaults : gmap string jsval := {[ "extends" := JArr [JStr umi] ]} in
  (∀ userRc extends,
     Host.readRc host (resolve host [".eslintrc"]) = Some userRc →
     get_prop userRc "extends" = Ok extends →
     truthy extends = true →
     ∃ eo, eslintOptions opts host = Ok eo
           ∧ EslintOptions.baseConfig eo = JBool false
           ∧ EslintOptions.useEslintrc eo = true
           ∧ EslintOptions.ignore eo = true
           ∧ EslintOptions.eslintPath eo = EslintOptions.eslintPath prior)
  ∧ (∀ userRc extends,
       Host.readRc host (resolve host [".eslintrc"]) = Some userRc →
       get_prop userRc "extends" = Ok extends →
       truthy extends = false →
       ∃ eo merged,
         eslintOptions opts host = Ok eo
         ∧ EslintOptions.baseConfig eo = JObj merged
         ∧ (∀ k, merged !! k
                 = match own_props userRc !! k with
                   | Some v => Some v
                   | None => defaults !! k
                   end)
         ∧ (own_props userRc !! "extends" = None →
            defaults ⊆ merged ∧ own_props userRc ⊆ merged)
         ∧ EslintOptions.useEslintrc eo = false
         ∧ EslintOptions.ignore eo = false
         ∧ EslintOptions.eslintPath eo = EslintOptions.eslintPath prior)
  ∧ (Host.readRc host (resolve host [".eslintrc"]) = None →
     eslintOptions opts host = Ok prior
     ∧ ∀ env, truthy_str (Opts.cwd opts) = true → provisioned host →
              cooperative opts env host →
              ∃ c, config opts env host = Ok c
                   ∧ getConfig opts env host = applyWebpackConfig host c).
Proof.
  intros Hlit Humi Hexists prior defaults.
  assert (Hliteral : EslintOptions.baseConfig literal = JObj defaults
                     ∧ EslintOptions.ignore literal = false
                     ∧ EslintOptions.useEslintrc literal = false).
  { unfold eslintOptions_literal in Hlit.
    rewrite (require_resolve_Ok _ _ _ Humi) in Hlit. cbn [bind] in Hlit.
    inv_bind Hlit. injection Hlit as <-. auto. }
  destruct Hliteral as (Hbase & Hignore & Huse).
  destruct (use_user_eslint_baseConfig opts host literal) as (Hb & Hi & Hu).
  fold prior in Hb, Hi, Hu. rewrite Hbase in Hb. rewrite Hignore in Hi.
  rewrite Huse in Hu.
  unfold eslintOptions. rewrite Hlit. cbn [bind]. fold prior.
  unfold use_user_eslintrc, readRc. rewrite Hexists.
  split; [|split].
  - intros userRc extends Hrc Hget Ht.
    rewrite Hrc. cbn [bind]. rewrite Hget. cbn [bind]. rewrite Ht.
    cbn [try_catch].
    eexists. split; [reflexivity|]. auto.
  - intros userRc extends Hrc Hget Ht.
    rewrite Hrc. cbn [bind]. rewrite Hget. cbn [bind]. rewrite Ht.
    cbn [try_catch].
    eexists. eexists. split; [reflexivity|].
    cbn [EslintOptions.baseConfig EslintOptions.useEslintrc
         EslintOptions.ignore EslintOptions.eslintPath].
    rewrite Hb. cbn [own_props].
    split; [reflexivity|]. split; [apply spread_lookup|].
    split; [|auto].
    intros Hno. apply spread_superset.
    intros k [v Hk]. subst defaults.
    apply lookup_singleton_Some in Hk as [<- _]. exact Hno.
  - intros ->. cbn [bind try_catch]. split; [reflexivity|].
    intros env. apply getConfig_reaches_hook.
Qed.

Lemma eslintrc_resolution_witness :
  (∃ eo, eslintOptions Sample.opts
           (Sample.host [] "/app" None (Some (Some Sample.rc_extends)))
         = Ok eo
         ∧ EslintOptions.baseConfig eo = JBool false
         ∧ EslintOptions.useEslintrc eo = true
         ∧ EslintOptions.ignore eo = true)
  ∧ (∃ eo merged,
       eslintOptions Sample.opts
         (Sample.host [] "/app" None (Some (Some Sample.rc_rules_only)))
       = Ok eo
       ∧ EslintOptions.baseConfig eo = JObj merged
       ∧ {[ "extends" := JArr [JStr "/af/node_modules/eslint-config-umi"] ]}
         ⊆ merged
       ∧ own_props Sample.rc_rules_only ⊆ merged)
  ∧ (∃ c, config Sample.opts Sample.production
            (Sample.host [] "/app" None (Some None)) = Ok c
          ∧ getConfig Sample.opts Sample.production
              (Sample.host [] "/app" None (Some None))
            = applyWebpackConfig (Sample.host [] "/app" None (Some None)) c).
Proof.
  split; [|split].
  - destruct (eslintrc_resolution Sample.opts
                (Sample.host [] "/app" None (Some (Some Sample.rc_extends)))
                _ _ eq_refl eq_refl eq_refl) as (H & _ & _).
    destruct (H Sample.rc_extends (JStr "airbnb") eq_refl eq_refl eq_refl)
      as (eo & Heo & Hb & Hu & Hi & _).
    exists eo. auto.
  - destruct (eslintrc_resolution Sample.opts
                (Sample.host [] "/app" None (Some (Some Sample.rc_rules_only)))
                _ _ eq_refl eq_refl eq_refl) as (_ & H & _).
    destruct (H Sample.rc_rules_only JUndefined eq_refl eq_refl eq_refl)
      as (eo & merged & Heo & Hb & _ & Hsup & _).
    exists eo, merged. destruct (Hsup eq_refl). auto.
  - destruct (eslintrc_resolution Sample.opts
                (Sample.host [] "/app" None (Some None))
                _ _ eq_refl eq_refl eq_refl) as (_ & _ & H).
    destruct (H eq_refl) as [_ Hret].
    apply Hret; [reflexivity| |].
    + unfold provisioned, bundled. repeat constructor; eexists; reflexivity.
    + split; [eexists; reflexivity | repeat constructor].
Defined.

(** ** Paths and the working directory *)

(** What is derived from [opts.cwd]: the default output directory and
    the directories of the extra transform rules. *)
Lemma default_paths_resolved_from_cwd opts env host c :
  config opts env host = Ok c →
  (truthy_str (Opts.outputPath opts) = false →
   Output.path (Config.output c)
   = Path.resolve (Host.process_cwd host) [cwd opts; "dist"])
  ∧ (∀ include, include ∈ default [] (Opts.extraBabelIncludes opts) →
       ∃ r, r ∈ Config.rules c
            ∧ Rule.include r = Some (Dir (Path.join [cwd opts; include]))).
Proof.
  intros H. split.
  - apply config_synthesis in H as (css & babel & eo & ts & es & main & S).
    intros Hno. rewrite (syn_path _ _ _ _ _ _ _ _ _ _ S).
    unfold outputPath. rewrite Hno. reflexivity.
  - destruct (config_rules _ _ _ _ H)
      as (eo & ts & es & url & ats & file & babel & css
          & _ & _ & _ & _ & _ & _ & Hrules).
    intros include Hin.
    exists (use_rule "\.(js|jsx)$"
              (Some (Dir (Path.join [cwd opts; include]))) [] babel).
    split; [|reflexivity].
    rewrite Hrules, !elem_of_app. right. right. left.
    unfold transform_rules. do 3 apply list_elem_of_further.
    apply elem_of_app. left.
    apply (list_elem_of_fmap_2
             (fun include => use_rule "\.(js|jsx)$"
                (Some (Dir (Path.join [cwd opts; include]))) [] babel)).
    exact Hin.
Qed.

(** C9, the code at a project in [/app] built from [/srv] with
    [opts.cwd = "/app"].  The manifest and the lint configuration are
    sought in [/srv], so the project's eslint and its [.eslintrc] are not
    used, while the same call from [/app] uses both; and an explicit
    relative output directory reaches [output.path] as it was given. *)
Lemma project_files_sought_in_process_cwd :
  Opts.cwd Sample.opts = Some "/app"
  ∧ resolve Sample.host_started_elsewhere ["package.json"]
    = "/srv/package.json"
  ∧ resolve Sample.host_started_elsewhere [".eslintrc"] = "/srv/.eslintrc"
  ∧ (∃ eo, eslintOptions Sample.opts Sample.host_started_elsewhere = Ok eo
           ∧ EslintOptions.eslintPath eo = "/af/node_modules/eslint"
           ∧ EslintOptions.useEslintrc eo = false)
  ∧ (∃ eo, eslintOptions Sample.opts Sample.host_started_in_project = Ok eo
           ∧ EslintOptions.eslintPath eo = "/app/node_modules/eslint"
           ∧ EslintOptions.useEslintrc eo = true)
  ∧ (∃ c, config Sample.opts_outputPath Sample.production
            Sample.host_started_elsewhere = Ok c
          ∧ Output.path (Config.output c) = "build").
Proof.
  split; [reflexivity|]. split; [reflexivity|]. split; [reflexivity|].
  split; [|split]; eexists; repeat split; reflexivity.
Qed.

(** * Further properties *)

(** ** When synthesis returns and what it throws *)

Lemma first_missing_None host l :
  first_missing host l = None
  ↔ Forall (fun request => is_Some (Host.require_resolve host request)) l.
Proof.
  induction l as [|m l IH]; cbn.
  - split; [constructor | reflexivity].
  - destruct (Host.require_resolve host m) as [p|] eqn:Hm.
    + rewrite IH. split.
      * intros H. constructor; [rewrite Hm; eauto | assumption].
      * intros H. apply Forall_cons in H as [_ H]. exact H.
    + split; [discriminate|].
      intros H. apply Forall_cons in H as [[p Hp] _]. congruence.
Qed.

Lemma first_missing_Some host l m :
  first_missing host l = Some m →
  m ∈ l ∧ Host.require_resolve host m = None.
Proof.
  induction l as [|x l IH]; cbn; [discriminate|].
  destruct (Host.require_resolve host x) eqn:Hx.
  - intros H. destruct (IH H). split; [right|]; assumption.
  - intros [= <-]. split; [left | assumption].
Qed.

Lemma first_missing_app host a b :
  first_missing host (a ++ b)
  = match first_missing host a with
    | Some request => Some request
    | None => first_missing host b
    end.
Proof.
  induction a as [|x a IH]; [reflexivity|]. cbn.
  destruct (Host.require_resolve host x); [exact IH | reflexivity].
Qed.

Lemma first_rejected_None host l :
  first_rejected host l = None
  ↔ Forall (fun p => Host.constructs host p = true) l.
Proof.
  induction l as [|p l IH]; cbn.
  - split; [constructor | reflexivity].
  - destruct (Host.constructs host p) eqn:Hp.
    + rewrite IH. split.
      * intros H. constructor; assumption.
      * intros H. apply Forall_cons in H as [_ H]. exact H.
    + split; [discriminate|].
      intros H. apply Forall_cons in H as [H _]. congruence.
Qed.

Lemma first_rejected_Some host l p :
  first_rejected host l = Some p →
  p ∈ l ∧ Host.constructs host p = false.
Proof.
  induction l as [|x l IH]; cbn; [discriminate|].
  destruct (Host.constructs host x) eqn:Hx.
  - intros H. destruct (IH H). split; [right|]; assumption.
  - intros [= <-]. split; [left | assumption].
Qed.

Lemma first_rejected_app host a b :
  first_rejected host (a ++ b)
  = match first_rejected host a with
    | Some p => Some p
    | None => first_rejected host b
    end.
Proof.
  induction a as [|x a IH]; [reflexivity|]. cbn.
  destruct (Host.constructs host x); [exact IH | reflexivity].
Qed.

Lemma construct_all_outcome host calls :
  construct_all host calls
  = match first_rejected host calls with
    | Some p => Throw (Error (constructor_name p))
    | None => Ok calls
    end.
Proof.
  induction calls as [|p calls IH]; [reflexivity|].
  cbn [construct_all first_rejected]. unfold construct.
  destruct (Host.constructs host p); [|reflexivity].
  cbn [bind]. rewrite IH.
  destruct (first_rejected host calls); reflexivity.
Qed.

Lemma commonsPlugins_outcome opts host :
  commonsPlugins opts host
  = match first_rejected host (commons_calls opts) with
    | Some p => Throw (Error (constructor_name p))
    | None => Ok (commons_calls opts)
    end.
Proof. apply construct_all_outcome. Qed.

Lemma copyPlugins_outcome opts host :
  copyPlugins opts host
  = match first_rejected host (copy_calls opts host) with
    | Some p => Throw (Error (constructor_name p))
    | None => Ok (copy_calls opts host)
    end.
Proof.
  unfold copyPlugins, copy_calls. rewrite first_rejected_app.
  destruct (truthy (Opts.copy opts)).
  - rewrite construct_all_outcome.
    destruct (first_rejected host [CopyWebpackPlugin (Opts.copy opts)]);
      [reflexivity|].
    cbn [bind]. destruct (Host.existsSync host _).
    + unfold construct. cbn [first_rejected].
      destruct (Host.constructs host _); reflexivity.
    + rewrite app_nil_r. reflexivity.
  - cbn [bind first_rejected]. destruct (Host.existsSync host _).
    + unfold construct. cbn [first_rejected].
      destruct (Host.constructs host _); reflexivity.
    + reflexivity.
Qed.

Lemma cssRules_outcome opts env host :
  match first_missing host style_modules with
  | Some request => cssRules opts env host = Throw (CannotFindModule request)
  | None => returns (cssRules opts env host)
  end.
Proof.
  unfold cssRules, cssRules_literal, getCSSLoader, require_resolve,
    style_modules.
  cbn [first_missing].
  destruct (Host.require_resolve host "sass-loader");
    (destruct (Host.require_resolve host "style-loader"); [|reflexivity]);
    (destruct (Host.require_resolve host "css-loader"); [|reflexivity]);
    (destruct (Host.require_resolve host "postcss-loader"); [|reflexivity]);
    (destruct (Host.require_resolve host "less-loader"); [|reflexivity]);
    eexists; reflexivity.
Qed.

(** The outcome of [config] in full, call by call: the assertion, the
    theme, the modules of the style chains, the constructors of
    [commonsPlugins] and [copyPlugins], the other modules, the
    constructors of the [plugins] literal; else a configuration. *)
Lemma config_outcome opts env host :
  if truthy_str (Opts.cwd opts) then
    match Host.normalizeTheme host (Opts.theme opts) with
    | None => config opts env host = Throw (Error "normalizeTheme")
    | Some _ =>
        match first_missing host style_modules with
        | Some request =>
            config opts env host = Throw (CannotFindModule request)
        | None =>
            match first_rejected host
                    (commons_calls opts ++ copy_calls opts host) with
            | Some p => config opts env host = Throw (Error (constructor_name p))
            | None =>
                match first_missing host (later_modules env) with
                | Some request =>
                    config opts env host = Throw (CannotFindModule request)
                | None =>
                    match first_rejected host
                            (plugin_calls opts env host (cssHash opts env))
                    with
                    | Some p =>
                        config opts env host
                        = Throw (Error (constructor_name p))
                    | None => returns (config opts env host)
                    end
                end
            end
        end
    end
  else config opts env host
       = Throw (AssertionError "opts.cwd must be specified").
Proof.
  unfold config.
  destruct (truthy_str (Opts.cwd opts)); [|reflexivity]. cbn [negb].
  unfold normalizeTheme.
  destruct (Host.normalizeTheme host (Opts.theme opts)); [|reflexivity].
  cbn [bind].
  pose proof (cssRules_outcome opts env host) as Hcss.
  destruct (first_missing host style_modules) as [m|].
  { rewrite Hcss. reflexivity. }
  destruct Hcss as [css ->]. cbn [bind].
  rewrite commonsPlugins_outcome, copyPlugins_outcome, first_rejected_app.
  destruct (first_rejected host (commons_calls opts)); [reflexivity|].
  cbn [bind].
  destruct (first_rejected host (copy_calls opts host)); [reflexivity|].
  cbn [bind].
  generalize (commons_calls opts) (copy_calls opts host). intros commons copy.
  unfold config_literal, plugins. rewrite construct_all_outcome.
  generalize (plugin_calls opts env host (cssHash opts env)). intros calls.
  unfold babelUse, eslintOptions, eslintOptions_literal,
    tslintRule, eslintRule, mainRules, require_resolve, later_modules.
  destruct (truthy_str (Env.DISABLE_TSLINT env));
    destruct (truthy_str (Env.DISABLE_ESLINT env));
    cbn [app first_missing negb];
    (destruct (Host.require_resolve host "babel-loader"); [|reflexivity]);
    (destruct (Host.require_resolve host "eslint-config-umi"); [|reflexivity]);
    (destruct (Host.require_resolve host "eslint"); [|reflexivity]);
    (destruct (Host.require_resolve host "@babel/runtime/package");
       [|reflexivity]);
    try (destruct (Host.require_resolve host "tslint-loader"); [|reflexivity]);
    try (destruct (Host.require_resolve host "eslint-loader"); [|reflexivity]);
    (destruct (Host.require_resolve host "url-loader"); [|reflexivity]);
    (destruct (Host.require_resolve host "awesome-typescript-loader");
       [|reflexivity]);
    (destruct (Host.require_resolve host "file-loader"); [|reflexivity]);
    (destruct (first_rejected host calls); [reflexivity|]);
    eexists; reflexivity.
Qed.

(** X1. An exception of [config] is one of four.  It is the assertion on
    [opts.cwd], exactly when [opts.cwd] is absent or empty.  Else it is
    the exception of [normalizeTheme], when the theme does not normalize;
    or the failure to resolve a module of [required], the first one in
    resolution order that the host lacks; or the exception of a plugin
    constructor, the first one in construction order that rejects its
    arguments.  Nothing else escapes: a manifest or an [.eslintrc] that
    cannot be read, a project eslint that cannot be resolved and a missing
    sass-loader never make [config] throw. *)
Theorem config_exceptions_classified opts env host e :
  config opts env host = Throw e →
  (truthy_str (Opts.cwd opts) = false
   ∧ e = AssertionError "opts.cwd must be specified")
  ∨ (truthy_str (Opts.cwd opts) = true
     ∧ ((Host.normalizeTheme host (Opts.theme opts) = None
         ∧ e = Error "normalizeTheme")
        ∨ (∃ request,
             e = CannotFindModule request
             ∧ first_missing host (required env) = Some request
             ∧ request ∈ required env
             ∧ Host.require_resolve host request = None)
        ∨ (∃ p,
             e = Error (constructor_name p)
             ∧ first_rejected host (construction_order opts env host) = Some p
             ∧ p ∈ plugins_built opts env host (cssHash opts env)
             ∧ Host.constructs host p = false))).
Proof.
  intros H. pose proof (config_outcome opts env host) as Hout.
  destruct (truthy_str (Opts.cwd opts));
    [right; split; [reflexivity|]
    |left; rewrite Hout in H; injection H as <-; auto].
  destruct (Host.normalizeTheme host (Opts.theme opts)) as [theme|];
    [|left; rewrite Hout in H; injection H as <-; auto].
  right.
  assert (Hmodule : ∀ request,
            first_missing host (required env) = Some request →
            config opts env host = Throw (CannotFindModule request) →
            ∃ request,
              e = CannotFindModule request
              ∧ first_missing host (required env) = Some request
              ∧ request ∈ required env
              ∧ Host.require_resolve host request = None).
  { intros m Hm Hthrow. rewrite Hthrow in H. injection H as <-.
    exists m. destruct (first_missing_Some _ _ _ Hm). auto. }
  assert (Hplugin : ∀ p,
            first_rejected host (construction_order opts env host) = Some p →
            config opts env host = Throw (Error (constructor_name p)) →
            ∃ p,
              e = Error (constructor_name p)
              ∧ first_rejected host (construction_order opts env host)
                = Some p
              ∧ p ∈ plugins_built opts env host (cssHash opts env)
              ∧ Host.constructs host p = false).
  { intros p Hp Hthrow. rewrite Hthrow in H. injection H as <-.
    exists p. destruct (first_rejected_Some _ _ _ Hp) as [Hin Hrej].
    split; [reflexivity|]. split; [assumption|]. split; [|assumption].
    unfold construction_order in Hin. unfold plugins_built.
    rewrite !elem_of_app in Hin. rewrite !elem_of_app. tauto. }
  pose proof (first_missing_app host style_modules (later_modules env))
    as Hmissing.
  pose proof (first_rejected_app host
                (commons_calls opts ++ copy_calls opts host)
                (plugin_calls opts env host (cssHash opts env))) as Hrejected.
  rewrite <- app_assoc in Hrejected.
  fold (required env) in Hmissing.
  fold (construction_order opts env host) in Hrejected.
  destruct (first_missing host style_modules) as [m|];
    [left; exact (Hmodule m Hmissing Hout)|].
  destruct (first_rejected host (commons_calls opts ++ copy_calls opts host))
    as [p|]; [right; exact (Hplugin p Hrejected Hout)|].
  destruct (first_missing host (later_modules env)) as [m|];
    [left; exact (Hmodule m Hmissing Hout)|].
  destruct (first_rejected host
              (plugin_calls opts env host (cssHash opts env))) as [p|];
    [right; exact (Hplugin p Hrejected Hout)|].
  destruct Hout as [c Hc]. congruence.
Qed.

Lemma config_exceptions_classified_witness :
  (truthy_str (Opts.cwd Sample.opts) = false
   ∧ CannotFindModule "babel-loader"
     = AssertionError "opts.cwd must be specified")
  ∨ (truthy_str (Opts.cwd Sample.opts) = true
     ∧ ((Host.normalizeTheme
           (Sample.host ["sass-loader"; "babel-loader"; "file-loader"]
              "/app" (Some JNull) (Some None))
           (Opts.theme Sample.opts) = None
         ∧ CannotFindModule "babel-loader" = Error "normalizeTheme")
        ∨ (∃ request,
             CannotFindModule "babel-loader" = CannotFindModule request
             ∧ first_missing
                 (Sample.host ["sass-loader"; "babel-loader"; "file-loader"]
                    "/app" (Some JNull) (Some None))
                 (required Sample.production)
               = Some request
             ∧ request ∈ required Sample.production
             ∧ Host.require_resolve
                 (Sample.host ["sass-loader"; "babel-loader"; "file-loader"]
                    "/app" (Some JNull) (Some None))
                 request
               = None)
        ∨ (∃ p,
             CannotFindModule "babel-loader" = Error (constructor_name p)
             ∧ first_rejected
                 (Sample.host ["sass-loader"; "babel-loader"; "file-loader"]
                    "/app" (Some JNull) (Some None))
                 (construction_order Sample.opts Sample.production
                    (Sample.host
                       ["sass-loader"; "babel-loader"; "file-loader"]
                       "/app" (Some JNull) (Some None)))
               = Some p
             ∧ p ∈ plugins_built Sample.opts Sample.production
                     (Sample.host
                        ["sass-loader"; "babel-loader"; "file-loader"]
                        "/app" (Some JNull) (Some None))
                     (cssHash Sample.opts Sample.production)
             ∧ Host.constructs
                 (Sample.host ["sass-loader"; "babel-loader"; "file-loader"]
                    "/app" (Some JNull) (Some None))
                 p
               = false))).
Proof.
  apply (config_exceptions_classified Sample.opts Sample.production
           (Sample.host ["sass-loader"; "babel-loader"; "file-loader"]
              "/app" (Some JNull) (Some None))).
  reflexivity.
Defined.

(** The calls at work on a host that lacks babel-loader: a theme given as
    a file that is not there, a code-splitting entry that is not an object
    and a copy option that is not an array each stop [config] before
    babel-loader is looked for; without them the missing module is what
    [config] throws. *)
Lemma config_stops_at_the_first_failing_call :
  config (Sample.opts_with (JStr "./theme.js") (Some [JNum 1]) (JBool true))
    Sample.production (Sample.host ["babel-loader"] "/app" None None)
  = Throw (Error "normalizeTheme")
  ∧ config (Sample.opts_with JUndefined (Some [JNum 1]) (JBool true))
      Sample.production (Sample.host ["babel-loader"] "/app" None None)
    = Throw (Error "CommonsChunkPlugin")
  ∧ config (Sample.opts_with JUndefined None (JBool true))
      Sample.production (Sample.host ["babel-loader"] "/app" None None)
    = Throw (Error "CopyWebpackPlugin")
  ∧ config (Sample.opts_with JUndefined None JUndefined)
      Sample.production (Sample.host ["babel-loader"] "/app" None None)
    = Throw (CannotFindModule "babel-loader").
Proof. repeat split; reflexivity. Qed.

(** X2. [config] returns a configuration exactly when [opts.cwd] is a
    non-empty string, the theme normalizes, every module of [required]
    resolves and every plugin constructor accepts its arguments; the
    modules of a disabled pre-pass rule and sass-loader are not needed. *)
Theorem config_returns_iff opts env host :
  returns (config opts env host)
  ↔ truthy_str (Opts.cwd opts) = true
    ∧ cooperative opts env host
    ∧ Forall (fun request => is_Some (Host.require_resolve host request))
        (required env).
Proof.
  pose proof (config_outcome opts env host) as Hout.
  unfold cooperative.
  rewrite <- first_missing_None, <- first_rejected_None.
  unfold required, plugins_built.
  rewrite first_missing_app, first_rejected_app, first_rejected_app.
  rewrite first_rejected_app in Hout.
  destruct (truthy_str (Opts.cwd opts));
    [|split; [intros [c Hc]; congruence | intros [? _]; discriminate]].
  destruct (Host.normalizeTheme host (Opts.theme opts)) as [theme|];
    [|split; [intros [c Hc]; congruence
             |intros (_ & [[? ?] _] & _); discriminate]].
  destruct (first_missing host style_modules) as [m|];
    [split; [intros [c Hc]; congruence | intros (_ & _ & ?); discriminate]|].
  destruct (first_rejected host (commons_calls opts)) as [p|].
  { split; [intros [c Hc]; congruence|].
    intros (_ & [_ Hp] & _). revert Hp.
    destruct (first_rejected host _); discriminate. }
  destruct (first_rejected host (copy_calls opts host)) as [p|].
  { split; [intros [c Hc]; congruence|].
    intros (_ & [_ Hp] & _). revert Hp.
    destruct (first_rejected host _); discriminate. }
  destruct (first_missing host (later_modules env)) as [m|];
    [split; [intros [c Hc]; congruence | intros (_ & _ & ?); discriminate]|].
  destruct (first_rejected host
              (plugin_calls opts env host (cssHash opts env))) as [p|];
    [split; [intros [c Hc]; congruence
            |intros (_ & [_ ?] & _); discriminate]|].
  split; [|intros _; exact Hout].
  intros _. split; [reflexivity|]. split; [|reflexivity].
  split; [eauto | reflexivity].
Qed.

(** ** Order of the rules *)

Lemma fmap_const_replicate {A B : Type} (f : A → B) (b : B) (l : list A) :
  (∀ a, f a = b) → f <$> l = replicate (length l) b.
Proof.
  intros Hf. induction l as [|a l IH]; [reflexivity|].
  cbn. rewrite Hf. f_equal. exact IH.
Qed.

Lemma fmap_Forall_replicate {A B : Type} (f : A → B) (b : B) (l : list A) :
  Forall (fun a => f a = b) l → f <$> l = replicate (length l) b.
Proof.
  induction 1 as [|a l Ha _ IH]; [reflexivity|].
  cbn. rewrite Ha. f_equal. exact IH.
Qed.

Lemma cssRules_tests opts env host css :
  cssRules opts env host = Ok css →
  Rule.test <$> css
  = [Some (Regex "\.css$"); Some (Regex "\.css$");
     Some (Regex "\.less$"); Some (Regex "\.less$");
     Some (Regex "\.(sass|scss)$"); Some (Regex "\.(sass|scss)$")]
  ∧ Forall (fun r => Rule.enforce r = None) css.
Proof.
  intros H. split.
  - apply cssRules_Ok_inv in H as (literal & Hlit & ->).
    apply cssRules_literal_Ok_inv in Hlit as (s & c & p & _ & _ & _ & _ & ->).
    destruct (isDev env); reflexivity.
  - eapply Forall_impl; [eapply cssRules_plain; eassumption|].
    intros r [Hr _]. exact Hr.
Qed.

(** X3. The rule list of a returned configuration is laid out as: the
    type-lint pre-pass rule unless [DISABLE_TSLINT] is set, the script-lint
    pre-pass rule unless [DISABLE_ESLINT] is set, the static-asset fallback
    (no [test]), the script rule, the typed-script rule, one script rule
    per entry of [opts.extraBabelIncludes], the markup rule, and the six
    style rules.  Only the pre-pass rules carry [enforce: 'pre']. *)
Theorem rules_are_laid_out_by_tier opts env host c :
  config opts env host = Ok c →
  let pre :=
    (if truthy_str (Env.DISABLE_TSLINT env) then []
     else [Some (Regex "\.tsx?$")])
    ++ (if truthy_str (Env.DISABLE_ESLINT env) then []
        else [Some (Regex "\.(js|jsx)$")]) in
  let extra := length (default [] (Opts.extraBabelIncludes opts)) in
  Rule.test <$> Config.rules c
  = pre
    ++ [None; Some (Regex "\.(js|jsx)$"); Some (Regex "\.(ts|tsx)$")]
    ++ replicate extra (Some (Regex "\.(js|jsx)$"))
    ++ [Some (Regex "\.html$");
        Some (Regex "\.css$"); Some (Regex "\.css$");
        Some (Regex "\.less$"); Some (Regex "\.less$");
        Some (Regex "\.(sass|scss)$"); Some (Regex "\.(sass|scss)$")]
  ∧ Rule.enforce <$> Config.rules c
    = replicate (length pre) (Some "pre")
      ++ replicate (length (Config.rules c) - length pre) None
  ∧ length (Config.rules c) = length pre + extra + 10.
Proof.
  intros H pre extra.
  destruct (config_rules _ _ _ _ H)
    as (eo & ts & es & url & ats & file & babel & css
        & _ & Hts & Hes & _ & Hcss & _ & Hrules).
  destruct (cssRules_tests _ _ _ _ Hcss) as [Htests Hplain].
  assert (Hlen : length css = 6).
  { rewrite <- (length_fmap Rule.test), Htests. reflexivity. }
  assert (Hextra :
    ∀ (B : Type) (f : Rule.t → B) b,
      (∀ include, f (use_rule "\.(js|jsx)$"
                       (Some (Dir (Path.join [cwd opts; include]))) [] babel)
                  = b) →
      f <$> transform_rules opts url ats file babel
      = [f (static_asset_rule url);
         f (use_rule "\.(js|jsx)$" None [node_modules] babel);
         f (use_rule "\.(ts|tsx)$" None [node_modules]
              (babel ++ [LoaderWith ats
                 (Options (JObj {[ "transpileOnly" := JBool true ]}))]))]
        ++ replicate extra b ++ [f (html_rule file)]).
  { intros B f b Hf. unfold transform_rules. cbn [fmap list_fmap app].
    do 3 f_equal. rewrite fmap_app, <- list_fmap_compose.
    rewrite (fmap_const_replicate _ b) by exact Hf. reflexivity. }
  assert (Hpre : Rule.test <$> (ts ++ es) = pre
                 ∧ Rule.enforce <$> (ts ++ es)
                   = replicate (length pre) (Some "pre")).
  { subst pre.
    apply tslintRule_Ok_inv in Hts as [[-> ->]|(-> & p & _ & ->)];
      apply eslintRule_Ok_inv in Hes as [[-> ->]|(-> & q & _ & ->)];
      split; reflexivity. }
  destruct Hpre as [Hpre_t Hpre_e].
  assert (Hlength : length (Config.rules c) = length pre + extra + 10).
  { assert (Hl1 : length (ts ++ es) = length pre)
      by (rewrite <- Hpre_t; symmetry; apply length_fmap).
    assert (Hl2 : length (transform_rules opts url ats file babel)
                  = 4 + extra).
    { rewrite <- (length_fmap Rule.test).
      rewrite (Hextra _ Rule.test (Some (Regex "\.(js|jsx)$")))
        by reflexivity.
      rewrite !length_app, length_replicate. cbn [length]. lia. }
    rewrite Hrules, app_assoc.
    rewrite (length_app (ts ++ es)), (length_app (transform_rules _ _ _ _ _)).
    rewrite Hl1, Hl2, Hlen. lia. }
  split; [|split; [|exact Hlength]].
  - rewrite Hrules, app_assoc.
    rewrite (fmap_app _ (ts ++ es)), Hpre_t, fmap_app, Htests.
    rewrite (Hextra _ Rule.test (Some (Regex "\.(js|jsx)$")))
      by reflexivity.
    rewrite <- !app_assoc. reflexivity.
  - rewrite Hlength, Hrules, app_assoc.
    rewrite (fmap_app _ (ts ++ es)), Hpre_e, fmap_app.
    f_equal.
    rewrite (Hextra _ Rule.enforce None) by reflexivity.
    rewrite (fmap_Forall_replicate Rule.enforce None css) by exact Hplain.
    rewrite Hlen.
    replace (length pre + extra + 10 - length pre) with (3 + (extra + 7))
      by lia.
    cbn [replicate Nat.add app]. do 3 f_equal.
    rewrite replicate_add, <- app_assoc. reflexivity.
Qed.

Lemma rules_are_laid_out_by_tier_witness :
  ∃ c, config Sample.opts Sample.production Sample.plain_host = Ok c
       ∧ Rule.test <$> Config.rules c
         = [Some (Regex "\.tsx?$"); Some (Regex "\.(js|jsx)$"); None;
            Some (Regex "\.(js|jsx)$"); Some (Regex "\.(ts|tsx)$");
            Some (Regex "\.(js|jsx)$"); Some (Regex "\.html$");
            Some (Regex "\.css$"); Some (Regex "\.css$");
            Some (Regex "\.less$"); Some (Regex "\.less$");
            Some (Regex "\.(sass|scss)$"); Some (Regex "\.(sass|scss)$")].
Proof.
  eexists. split; [reflexivity|].
  exact (proj1 (rules_are_laid_out_by_tier Sample.opts Sample.production
                  Sample.plain_host _ eq_refl)).
Defined.

(** ** The parts of a returned configuration *)

Lemma config_parts opts env host c :
  config opts env host = Ok c →
  ∃ eo pre_ts pre_es url ats file babel css,
    eslintOptions opts host = Ok eo
    ∧ tslintRule opts env host = Ok pre_ts
    ∧ eslintRule opts env host eo = Ok pre_es
    ∧ babelUse opts env host = Ok babel
    ∧ cssRules opts env host = Ok css
    ∧ Host.require_resolve host "url-loader" = Some url
    ∧ Host.require_resolve host "awesome-typescript-loader" = Some ats
    ∧ Host.require_resolve host "file-loader" = Some file
    ∧ Config.rules c
      = pre_ts ++ pre_es ++ transform_rules opts url ats file babel ++ css
    ∧ Config.plugins c = plugins_built opts env host (cssHash opts env).
Proof.
  intros H.
  apply config_synthesis in H as (css & babel & eo & ts & es & main & S).
  destruct (mainRules_Ok_inv _ _ _ _ _ (syn_main _ _ _ _ _ _ _ _ _ _ S))
    as (url & ats & file & Hurl & Hats & Hfile & Hmain).
  exists eo, ts, es, url, ats, file, babel, css.
  destruct S. subst main. auto 12.
Qed.

(** Where a rule of a returned configuration comes from. *)
Lemma rule_origin opts env host pre_ts pre_es eo (l : list Rule.t) r :
  tslintRule opts env host = Ok pre_ts →
  eslintRule opts env host eo = Ok pre_es →
  r ∈ pre_ts ++ pre_es ++ l →
  (Rule.enforce r = Some "pre"
   ∧ (Rule.test r = Some (Regex "\.tsx?$")
      ∨ Rule.test r = Some (Regex "\.(js|jsx)$")))
  ∨ r ∈ l.
Proof.
  intros Hts Hes Hr. rewrite !elem_of_app in Hr.
  destruct Hr as [Hr|[Hr|Hr]]; auto; left.
  - apply tslintRule_Ok_inv in Hts as [[_ ->]|(_ & p & _ & ->)].
    + inversion Hr.
    + apply list_elem_of_singleton in Hr as ->. auto.
  - apply eslintRule_Ok_inv in Hes as [[_ ->]|(_ & p & _ & ->)].
    + inversion Hr.
    + apply list_elem_of_singleton in Hr as ->. auto.
Qed.

(** ** The script transform chain *)

Lemma babelUse_Ok_inv opts env host chain :
  babelUse opts env host = Ok chain →
  ∃ babel,
    Host.require_resolve host "babel-loader" = Some babel
    ∧ chain
      = [LoaderWith (Path.join [Host.dirname__ host; "debugLoader.js"])
           NoOptions;
         LoaderWith babel
           (Options (JObj
              (JS.set "babelrc"
                 (JBool (negb (truthy_str (Env.DISABLE_BABELRC env))))
                 (JS.set "cacheDirectory" (JBool false)
                    (babel_base opts host)))))].
Proof.
  unfold babelUse, require_resolve, babel_base. intros H.
  destruct (Host.require_resolve host "babel-loader") as [babel|];
    [|discriminate].
  injection H as <-. exists babel. split; [reflexivity|].
  destruct (truthy_str (Env.DISABLE_BABELRC env)); reflexivity.
Qed.

(** X4. The babel-loader step of the script chain is preceded by the debug
    loader of the package and by nothing else.  Its options are those of
    [opts.babel], or of the default babel configuration when [opts.babel]
    is falsy, except for two keys the caller cannot set: [cacheDirectory]
    is always [false], and [babelrc] is [false] exactly when
    [DISABLE_BABELRC] is set. *)
Theorem babel_options_are_forced opts env host chain :
  babelUse opts env host = Ok chain →
  ∃ babel o,
    Host.require_resolve host "babel-loader" = Some babel
    ∧ chain
      = [LoaderWith (Path.join [Host.dirname__ host; "debugLoader.js"])
           NoOptions;
         LoaderWith babel (Options (JObj o))]
    ∧ o !! "cacheDirectory" = Some (JBool false)
    ∧ o !! "babelrc"
      = Some (JBool (negb (truthy_str (Env.DISABLE_BABELRC env))))
    ∧ ∀ k, k ≠ "cacheDirectory" → k ≠ "babelrc" →
           o !! k
           = own_props (if truthy (Opts.babel opts) then Opts.babel opts
                        else Host.babelConfig host) !! k.
Proof.
  intros H. apply babelUse_Ok_inv in H as (babel & Hb & ->).
  eexists babel, _. split; [assumption|]. split; [reflexivity|].
  unfold JS.set. split; [|split].
  - rewrite lookup_insert_ne by discriminate. apply lookup_insert_eq.
  - apply lookup_insert_eq.
  - intros k Hc Hr. rewrite !lookup_insert_ne by congruence. reflexivity.
Qed.

Lemma babel_options_are_forced_witness :
  ∃ babel o,
    Host.require_resolve Sample.plain_host "babel-loader" = Some babel
    ∧ (∃ chain, babelUse Sample.opts Sample.production Sample.plain_host
                = Ok chain
                ∧ chain = [LoaderWith "/af/lib/debugLoader.js" NoOptions;
                           LoaderWith babel (Options (JObj o))])
    ∧ o !! "cacheDirectory" = Some (JBool false)
    ∧ o !! "babelrc" = Some (JBool true).
Proof.
  destruct (babel_options_are_forced Sample.opts Sample.production
              Sample.plain_host _ eq_refl)
    as (babel & o & Hb & Hchain & Hc & Hr & _).
  exists babel, o. split; [exact Hb|].
  split; [eexists; split; [reflexivity | exact Hchain]|].
  split; [exact Hc | exact Hr].
Defined.

(** X5. In a returned configuration the script rule and every rule of an
    extra transform directory use the script chain of [babelUse]; the
    typed-script rule uses the same chain followed by
    awesome-typescript-loader with [transpileOnly: true].  There is one
    script rule without [include], and one typed-script rule. *)
Theorem script_rules_share_the_babel_chain opts env host c :
  config opts env host = Ok c →
  ∃ chain ats,
    babelUse opts env host = Ok chain
    ∧ Host.require_resolve host "awesome-typescript-loader" = Some ats
    ∧ (∃ r, r ∈ Config.rules c
            ∧ Rule.test r = Some (Regex "\.(js|jsx)$")
            ∧ Rule.enforce r = None ∧ Rule.include r = None)
    ∧ (∃ r, r ∈ Config.rules c ∧ Rule.test r = Some (Regex "\.(ts|tsx)$"))
    ∧ (∀ r, r ∈ Config.rules c →
            Rule.test r = Some (Regex "\.(js|jsx)$") →
            Rule.enforce r = None →
            Rule.use r = Some (UseChain chain))
    ∧ (∀ r, r ∈ Config.rules c →
            Rule.test r = Some (Regex "\.(ts|tsx)$") →
            Rule.use r
            = Some (UseChain
                (chain ++ [LoaderWith ats
                   (Options (JObj {[ "transpileOnly" := JBool true ]}))]))).
Proof.
  intros H.
  destruct (config_parts _ _ _ _ H)
    as (eo & ts & es & url & ats & file & babel & css
        & _ & Hts & Hes & Hb & Hcss & _ & Hats & _ & Hrules & _).
  destruct (cssRules_tests _ _ _ _ Hcss) as [Htests _].
  assert (Hstyle : ∀ r, r ∈ css →
            Rule.test r ≠ Some (Regex "\.(js|jsx)$")
            ∧ Rule.test r ≠ Some (Regex "\.(ts|tsx)$")).
  { intros r Hr. apply (list_elem_of_fmap_2 Rule.test) in Hr.
    rewrite Htests in Hr. rewrite !elem_of_cons in Hr.
    destruct Hr as [->|[->|[->|[->|[->|[->|Hr]]]]]];
      try (split; discriminate). inversion Hr. }
  assert (Hin : ∀ r, r ∈ Config.rules c →
            (Rule.enforce r = Some "pre"
             ∧ Rule.test r ≠ Some (Regex "\.(ts|tsx)$"))
            ∨ r ∈ transform_rules opts url ats file babel
            ∨ r ∈ css).
  { intros r Hr. rewrite Hrules in Hr.
    destruct (rule_origin _ _ _ _ _ _ _ _ Hts Hes Hr) as [[? [E|E]]|Hr'].
    - left. split; [assumption|]. rewrite E. discriminate.
    - left. split; [assumption|]. rewrite E. discriminate.
    - apply elem_of_app in Hr'. auto. }
  assert (Hmem : ∀ r, r ∈ transform_rules opts url ats file babel →
                      r ∈ Config.rules c).
  { intros r Hr. rewrite Hrules, !elem_of_app. auto. }
  exists babel, ats. split; [assumption|]. split; [assumption|].
  split; [|split; [|split]].
  - exists (use_rule "\.(js|jsx)$" None [node_modules] babel).
    split; [apply Hmem|repeat split].
    unfold transform_rules. apply list_elem_of_further, list_elem_of_here.
  - exists (use_rule "\.(ts|tsx)$" None [node_modules]
              (babel ++ [LoaderWith ats
                 (Options (JObj {[ "transpileOnly" := JBool true ]}))])).
    split; [apply Hmem|reflexivity].
    unfold transform_rules.
    apply list_elem_of_further, list_elem_of_further, list_elem_of_here.
  - intros r Hr Htest Henf.
    destruct (Hin r Hr) as [[Hpre _]|[Ht|Hc]]; [congruence| |].
    + unfold transform_rules in Ht.
      rewrite !elem_of_cons, elem_of_app, list_elem_of_fmap in Ht.
      destruct Ht as [->|[->|[->|[(i & -> & _)|Ht]]]];
        cbn [Rule.test use_rule static_asset_rule] in Htest;
        try reflexivity; try discriminate Htest.
      apply list_elem_of_singleton in Ht as ->. discriminate Htest.
    + destruct (Hstyle r Hc). congruence.
  - intros r Hr Htest.
    destruct (Hin r Hr) as [[_ Hpre]|[Ht|Hc]]; [congruence| |].
    + unfold transform_rules in Ht.
      rewrite !elem_of_cons, elem_of_app, list_elem_of_fmap in Ht.
      destruct Ht as [->|[->|[->|[(i & -> & _)|Ht]]]];
        cbn [Rule.test use_rule static_asset_rule] in Htest;
        try reflexivity; try discriminate Htest.
      apply list_elem_of_singleton in Ht as ->. discriminate Htest.
    + destruct (Hstyle r Hc). congruence.
Qed.

Lemma script_rules_share_the_babel_chain_witness :
  ∃ c chain,
    config Sample.opts Sample.development Sample.plain_host = Ok c
    ∧ babelUse Sample.opts Sample.development Sample.plain_host = Ok chain
    ∧ ∀ r, r ∈ Config.rules c →
           Rule.test r = Some (Regex "\.(js|jsx)$") →
           Rule.enforce r = None →
           Rule.use r = Some (UseChain chain).
Proof.
  eexists.
  destruct (script_rules_share_the_babel_chain Sample.opts Sample.development
              Sample.plain_host _ eq_refl)
    as (chain & ats & Hb & _ & _ & _ & Hjs & _).
  exists chain. split; [reflexivity|]. split; [exact Hb | exact Hjs].
Defined.

(** ** The plugin list *)

Lemma filter_if {A : Type} (f : A → bool) (b : bool) (l1 l2 : list A) :
  List.filter f (if b then l1 else l2)
  = if b then List.filter f l1 else List.filter f l2.
Proof. destruct b; reflexivity. Qed.

Lemma if_same {A : Type} (b : bool) (x : A) : (if b then x else x) = x.
Proof. destruct b; reflexivity. Qed.

Lemma filter_fmap_none {A B : Type} (f : B → bool) (g : A → B) (l : list A) :
  (∀ a, f (g a) = false) → List.filter f (g <$> l) = [].
Proof.
  intros H. induction l as [|a l IH]; [reflexivity|].
  cbn. rewrite H. exact IH.
Qed.

Lemma filter_fmap_all {A B : Type} (f : B → bool) (g : A → B) (l : list A) :
  (∀ a, f (g a) = true) → List.filter f (g <$> l) = g <$> l.
Proof.
  intros H. induction l as [|a l IH]; [reflexivity|].
  cbn. rewrite H. f_equal. exact IH.
Qed.

(** Pushes a filter through the pieces of the plugin list. *)
Ltac filter_plugins :=
  unfold plugins_built, plugin_calls, commons_calls, copy_calls;
  repeat (rewrite List.filter_app || rewrite filter_if);
  rewrite ?filter_fmap_none by reflexivity;
  rewrite ?filter_fmap_all by reflexivity;
  cbn [List.filter app is_uglify is_define is_source_map is_commons is_copy];
  rewrite ?if_same; cbn [app]; rewrite ?if_same; rewrite ?app_nil_r.

(** Splits a [Forall] over the pieces of the plugin list. *)
Ltac forall_plugins :=
  repeat first
    [ solve [constructor]
    | apply Forall_cons; split; [reflexivity|]
    | apply Forall_app; split
    | apply Forall_fmap, Forall_true; intro; reflexivity
    | match goal with
      | |- Forall _ (if ?b then _ else _) => destruct b
      end ].

(** X6. The two mode-dependent plugin sets exclude each other.  In
    development mode a returned configuration has hot-module replacement,
    the missing-module watcher and the system bell, and none of the
    plugins of the production branch (occurrence order, module
    concatenation, stylesheet extraction, manifest, compression).  Outside
    development mode it has occurrence order, module concatenation and the
    stylesheet extraction plugin named after [cssHash], and none of the
    plugins of the development branch. *)
Theorem plugin_sets_follow_mode opts env host c :
  config opts env host = Ok c →
  (isDev env = true →
   HotModuleReplacementPlugin ∈ Config.plugins c
   ∧ WatchMissingNodeModulesPlugin (Path.join [cwd opts; "node_modules"])
     ∈ Config.plugins c
   ∧ SystemBellWebpackPlugin ∈ Config.plugins c
   ∧ Forall (fun p => production_only p = false) (Config.plugins c))
  ∧ (isDev env = false →
     OccurrenceOrderPlugin ∈ Config.plugins c
     ∧ ModuleConcatenationPlugin ∈ Config.plugins c
     ∧ ExtractTextPlugin ("[name]" +:+ cssHash opts env +:+ ".css") true
       ∈ Config.plugins c
     ∧ Forall (fun p => development_only p = false) (Config.plugins c)).
Proof.
  intros H.
  destruct (config_parts _ _ _ _ H)
    as (eo & ts & es & url & ats & file & babel & css
        & _ & _ & _ & _ & _ & _ & _ & _ & _ & ->).
  unfold plugins_built, plugin_calls, commons_calls, copy_calls.
  split; intros Hdev; rewrite Hdev; cbn [orb].
  - split; [|split; [|split]].
    + rewrite !elem_of_app. do 3 left. apply list_elem_of_here.
    + rewrite !elem_of_app. do 3 left.
      apply list_elem_of_further, list_elem_of_here.
    + rewrite !elem_of_app. do 3 left.
      apply list_elem_of_further, list_elem_of_further, list_elem_of_here.
    + forall_plugins.
  - split; [|split; [|split]].
    + rewrite !elem_of_app. do 3 left. apply list_elem_of_here.
    + rewrite !elem_of_app. do 3 left.
      apply list_elem_of_further, list_elem_of_here.
    + rewrite !elem_of_app. do 3 left.
      apply list_elem_of_further, list_elem_of_further, list_elem_of_here.
    + forall_plugins.
Qed.

Lemma plugin_sets_follow_mode_witness :
  (∃ c, config Sample.opts Sample.development Sample.plain_host = Ok c
        ∧ HotModuleReplacementPlugin ∈ Config.plugins c
        ∧ Forall (fun p => production_only p = false) (Config.plugins c))
  ∧ (∃ c, config Sample.opts Sample.production Sample.plain_host = Ok c
          ∧ OccurrenceOrderPlugin ∈ Config.plugins c
          ∧ Forall (fun p => development_only p = false) (Config.plugins c)).
Proof.
  split.
  - eexists. split; [reflexivity|].
    destruct (plugin_sets_follow_mode Sample.opts Sample.development
                Sample.plain_host _ eq_refl) as [Hd _].
    destruct (Hd eq_refl) as (Hh & _ & _ & Hf). split; assumption.
  - eexists. split; [reflexivity|].
    destruct (plugin_sets_follow_mode Sample.opts Sample.production
                Sample.plain_host _ eq_refl) as [_ Hp].
    destruct (Hp eq_refl) as (Ho & _ & _ & Hf). split; assumption.
Defined.

(** X7. A returned configuration has a compression plugin exactly when the
    mode is not development and [NO_COMPRESS] is not set, and then exactly
    one.  Its options are the default compression options, with
    [sourceMap: true] added, or overridden, when [opts.devtool] is
    truthy. *)
Theorem compression_plugin_follows_mode_and_flag opts env host c :
  config opts env host = Ok c →
  (isDev env || truthy_str (Env.NO_COMPRESS env) = true →
   List.filter is_uglify (Config.plugins c) = [])
  ∧ (isDev env || truthy_str (Env.NO_COMPRESS env) = false →
     ∃ o, List.filter is_uglify (Config.plugins c) = [UglifyJsPlugin o]
          ∧ (∀ k, k ≠ "sourceMap" →
                  o !! k = own_props (Host.uglifyJSConfig host) !! k)
          ∧ o !! "sourceMap"
            = if truthy (Opts.devtool opts) then Some (JBool true)
              else own_props (Host.uglifyJSConfig host) !! "sourceMap").
Proof.
  intros H.
  destruct (config_parts _ _ _ _ H)
    as (eo & ts & es & url & ats & file & babel & css
        & _ & _ & _ & _ & _ & _ & _ & _ & _ & ->).
  filter_plugins.
  split; intros ->; [reflexivity|].
  eexists. split; [reflexivity|]. split.
  - intros k Hk. rewrite spread_lookup.
    destruct (truthy (Opts.devtool opts)).
    + rewrite lookup_singleton_ne by congruence. reflexivity.
    + rewrite lookup_empty. reflexivity.
  - rewrite spread_lookup. destruct (truthy (Opts.devtool opts)).
    + rewrite lookup_singleton_eq. reflexivity.
    + rewrite lookup_empty. reflexivity.
Qed.

Lemma compression_plugin_follows_mode_and_flag_witness :
  (∃ c, config Sample.opts Sample.development Sample.plain_host = Ok c
        ∧ List.filter is_uglify (Config.plugins c) = [])
  ∧ (∃ c o, config Sample.opts Sample.production Sample.plain_host = Ok c
            ∧ List.filter is_uglify (Config.plugins c) = [UglifyJsPlugin o]).
Proof.
  split.
  - eexists. split; [reflexivity|].
    apply (compression_plugin_follows_mode_and_flag Sample.opts
             Sample.development Sample.plain_host); reflexivity.
  - eexists.
    destruct (compression_plugin_follows_mode_and_flag Sample.opts
                Sample.production Sample.plain_host _ eq_refl) as [_ Hp].
    destruct (Hp eq_refl) as (o & Ho & _).
    exists o. split; [reflexivity | exact Ho].
Defined.

(** X8. A returned configuration has exactly one constant-injection plugin.
    A definition the user declares wins over the built-in ones, also over
    [process.env.NODE_ENV].  Where the user declares none,
    [process.env.NODE_ENV] is the stringified mode, and
    [process.env.SOCKET_SERVER] is the stringified [SOCKET_SERVER] when that
    variable is set and is absent otherwise.  Every other key is the
    user's. *)
Theorem definitions_precedence opts env host c :
  config opts env host = Ok c →
  ∃ defs,
    List.filter is_define (Config.plugins c) = [DefinePlugin defs]
    ∧ (∀ k v, user_definitions opts host !! k = Some v → defs !! k = Some v)
    ∧ (user_definitions opts host !! "process.env.NODE_ENV" = None →
       defs !! "process.env.NODE_ENV"
       = Some (JStr (Host.JSON_stringify host
                       (JStr (if isDev env then "development"
                              else "production")))))
    ∧ (user_definitions opts host !! "process.env.SOCKET_SERVER" = None →
       defs !! "process.env.SOCKET_SERVER"
       = if truthy_str (Env.SOCKET_SERVER env) then
           Some (JStr (Host.JSON_stringify host
                         (of_string (Env.SOCKET_SERVER env))))
         else None)
    ∧ (∀ k, k ≠ "process.env.NODE_ENV" → k ≠ "process.env.SOCKET_SERVER" →
            defs !! k = user_definitions opts host !! k).
Proof.
  intros H.
  destruct (config_parts _ _ _ _ H)
    as (eo & ts & es & url & ats & file & babel & css
        & _ & _ & _ & _ & _ & _ & _ & _ & _ & ->).
  filter_plugins. fold (user_definitions opts host).
  eexists. split; [reflexivity|].
  split; [|split; [|split]].
  - intros k v Hk. rewrite spread_lookup, Hk. reflexivity.
  - intros Hk. rewrite spread_lookup, Hk, spread_lookup.
    destruct (truthy_str (Env.SOCKET_SERVER env)).
    + rewrite lookup_singleton_ne by discriminate.
      apply lookup_singleton_eq.
    + rewrite lookup_empty. apply lookup_singleton_eq.
  - intros Hk. rewrite spread_lookup, Hk, spread_lookup.
    destruct (truthy_str (Env.SOCKET_SERVER env)).
    + rewrite lookup_singleton_eq. reflexivity.
    + rewrite lookup_empty. apply lookup_singleton_ne. discriminate.
  - intros k Hn Hs. rewrite spread_lookup.
    destruct (user_definitions opts host !! k); [reflexivity|].
    rewrite spread_lookup.
    destruct (truthy_str (Env.SOCKET_SERVER env)).
    + rewrite !lookup_singleton_ne by congruence. reflexivity.
    + rewrite lookup_empty. apply lookup_singleton_ne. congruence.
Qed.

Lemma definitions_precedence_witness :
  ∃ c defs,
    config Sample.opts Sample.production Sample.plain_host = Ok c
    ∧ List.filter is_define (Config.plugins c) = [DefinePlugin defs]
    ∧ defs !! "process.env.NODE_ENV"
      = Some (JStr (Sample.double_quote +:+ "production"
                    +:+ Sample.double_quote)).
Proof.
  eexists.
  destruct (definitions_precedence Sample.opts Sample.production
              Sample.plain_host _ eq_refl) as (defs & Hf & _ & Hn & _).
  exists defs. split; [reflexivity|]. split; [exact Hf|].
  apply Hn. reflexivity.
Defined.

(** ** The development source maps *)

Lemma backslashes_to_slashes_no_backslash s :
  includes "\" (backslashes_to_slashes s) = false.
Proof.
  induction s as [|c s IH]; [reflexivity|].
  cbn [backslashes_to_slashes includes String.prefix].
  destruct (Ascii.eqb_spec c "\"%char) as [->|Hc].
  - destruct (ascii_dec "\" "/") as [E|_]; [discriminate E | exact IH].
  - destruct (ascii_dec "\" c) as [E|_]; [congruence | exact IH].
Qed.

Lemma backslashes_to_slashes_chars s :
  String.list_ascii_of_string (backslashes_to_slashes s)
  = (fun c => if Ascii.eqb c "\"%char then "/"%char else c)
    <$> String.list_ascii_of_string s.
Proof.
  induction s as [|c s IH]; [reflexivity|].
  cbn [backslashes_to_slashes String.list_ascii_of_string fmap list_fmap].
  f_equal. exact IH.
Qed.

Lemma backslashes_to_slashes_id s :
  includes "\" s = false → backslashes_to_slashes s = s.
Proof.
  induction s as [|c s IH]; [reflexivity|].
  cbn [backslashes_to_slashes includes String.prefix].
  destruct (ascii_dec "\" c) as [E|Hc].
  - destruct s; discriminate.
  - intros H. apply IH in H. rewrite H.
    destruct (Ascii.eqb_spec c "\"%char) as [->|_]; [congruence|reflexivity].
Qed.

Lemma backslashes_to_slashes_isAbsolute s :
  Path.isAbsolute s = true →
  Path.isAbsolute (backslashes_to_slashes s) = true.
Proof.
  destruct s as [|c s]; [discriminate|].
  cbn [Path.isAbsolute backslashes_to_slashes]. unfold Path.slash.
  destruct (Ascii.eqb_spec c "/"%char) as [->|]; [reflexivity|discriminate].
Qed.

Lemma resolve_scan_absolute process_cwd rpaths acc :
  Path.isAbsolute process_cwd = true →
  snd (Path.resolve_scan process_cwd rpaths acc) = true.
Proof.
  intros Habs. revert acc.
  induction rpaths as [|p rest IH]; intros acc; cbn [Path.resolve_scan].
  - destruct process_cwd as [|c s]; [discriminate|]. exact Habs.
  - destruct (String.eqb p ""); [apply IH|].
    destruct (Path.isAbsolute p); [reflexivity | apply IH].
Qed.

Lemma resolve_isAbsolute process_cwd paths :
  Path.isAbsolute process_cwd = true →
  Path.isAbsolute (Path.resolve process_cwd paths) = true.
Proof.
  intros Habs. unfold Path.resolve.
  pose proof (resolve_scan_absolute process_cwd (rev paths) "" Habs) as H.
  destruct (Path.resolve_scan process_cwd (rev paths) "") as [p abs].
  cbn [snd] in H. subst abs. reflexivity.
Qed.

(** X9. The generated source-map plugin is in a returned configuration
    exactly in development mode without an explicit [opts.devtool], once,
    with [columns: false].  Its path template maps a path under one of the
    internal markers to [internal:///] followed by the path unchanged.  Any
    other path is resolved against the process directory, and the result
    is that resolved path, character by character, but for a slash in the
    place of each backslash: it is the resolved path itself when that holds
    no backslash, it never holds a backslash, and it is absolute when the
    process directory is. *)
Theorem source_map_plugin_and_template opts env host c :
  config opts env host = Ok c →
  List.filter is_source_map (Config.plugins c)
  = (if isDev env && negb (truthy (Opts.devtool opts))
     then [SourceMapDevToolPlugin false (moduleFilenameTemplate host)]
     else [])
  ∧ ∀ p,
      (is_internal_path p = true →
       moduleFilenameTemplate host p = "internal:///" +:+ p)
      ∧ (is_internal_path p = false →
         let resolved := Path.resolve (Host.process_cwd host) [p] in
         String.list_ascii_of_string (moduleFilenameTemplate host p)
         = (fun c => if Ascii.eqb c "\"%char then "/"%char else c)
           <$> String.list_ascii_of_string resolved
         ∧ (includes "\" resolved = false →
            moduleFilenameTemplate host p = resolved)
         ∧ includes "\" (moduleFilenameTemplate host p) = false
         ∧ (Path.isAbsolute (Host.process_cwd host) = true →
            Path.isAbsolute (moduleFilenameTemplate host p) = true)).
Proof.
  intros H.
  destruct (config_parts _ _ _ _ H)
    as (eo & ts & es & url & ats & file & babel & css
        & _ & _ & _ & _ & _ & _ & _ & _ & _ & ->).
  split.
  - filter_plugins.
    destruct (isDev env), (truthy (Opts.devtool opts)); reflexivity.
  - intros p. unfold moduleFilenameTemplate, is_internal_path.
    split; intros ->; [reflexivity|]. cbv zeta. unfold resolve.
    split; [|split; [|split]].
    + apply backslashes_to_slashes_chars.
    + apply backslashes_to_slashes_id.
    + apply backslashes_to_slashes_no_backslash.
    + intros Habs. apply backslashes_to_slashes_isAbsolute.
      apply resolve_isAbsolute. exact Habs.
Qed.

Lemma source_map_plugin_and_template_witness :
  ∃ c, config
         (Sample.make_opts (Some "/app") None JUndefined JUndefined)
         Sample.development Sample.plain_host = Ok c
       ∧ List.filter is_source_map (Config.plugins c)
         = [SourceMapDevToolPlugin false
              (moduleFilenameTemplate Sample.plain_host)]
       ∧ moduleFilenameTemplate Sample.plain_host
           "/app/node_modules/react/index.js"
         = "internal:////app/node_modules/react/index.js"
       ∧ moduleFilenameTemplate Sample.plain_host "src/pages/../index.js"
         = "/app/src/index.js"
       ∧ String.list_ascii_of_string
           (moduleFilenameTemplate Sample.plain_host "src\pages\index.js")
         = String.list_ascii_of_string "/app/src/pages/index.js".
Proof.
  eexists. split; [reflexivity|].
  destruct (source_map_plugin_and_template
              (Sample.make_opts (Some "/app") None JUndefined JUndefined)
              Sample.development Sample.plain_host _ eq_refl) as [Hf Ht].
  split; [exact Hf|]. split; [|split].
  - apply (Ht "/app/node_modules/react/index.js"). reflexivity.
  - apply (Ht "src/pages/../index.js"); reflexivity.
  - apply (Ht "src\pages\index.js"). reflexivity.
Defined.

(** ** The user's plugins *)

(** X10. The plugin list of a returned configuration ends with the
    code-splitting plugins, one per entry of [opts.commons] in the order
    given, followed by the copy plugins; no plugin before them is of
    either kind.  The copy plugins are the user's [opts.copy], if truthy,
    and then, if the [public] directory under [opts.cwd] exists, one copy
    from it to the output directory resolved against [opts.cwd]: there is
    no copy plugin at all without [opts.copy] and without that
    directory. *)
Theorem user_plugins_come_last opts env host c :
  config opts env host = Ok c →
  ∃ front,
    Config.plugins c
    = front
      ++ (CommonsChunkPlugin <$> default [] (Opts.commons opts))
      ++ (if truthy (Opts.copy opts) then [CopyWebpackPlugin (Opts.copy opts)]
          else [])
      ++ (if Host.existsSync host (resolve host [cwd opts; "public"]) then
            [CopyWebpackPlugin
               (JArr [JObj {[ "from" :=
                                JStr (resolve host [cwd opts; "public"]);
                              "to" :=
                                JStr (resolve host
                                        [cwd opts; outputPath opts host]) ]}])]
          else [])
    ∧ Forall (fun p => built_in p = true) front
    ∧ (truthy (Opts.copy opts) = false →
       Host.existsSync host (resolve host [cwd opts; "public"]) = false →
       List.filter is_copy (Config.plugins c) = []).
Proof.
  intros H.
  destruct (config_parts _ _ _ _ H)
    as (eo & ts & es & url & ats & file & babel & css
        & _ & _ & _ & _ & _ & _ & _ & _ & _ & ->).
  eexists. split; [|split].
  - unfold plugins_built, plugin_calls, commons_calls, copy_calls.
    rewrite !app_assoc. reflexivity.
  - forall_plugins.
  - intros Hcopy Hpublic. filter_plugins. rewrite Hcopy, Hpublic.
    reflexivity.
Qed.

Lemma user_plugins_come_last_witness :
  ∃ c, config Sample.opts Sample.production Sample.plain_host = Ok c
       ∧ List.filter is_copy (Config.plugins c) = [].
Proof.
  eexists. split; [reflexivity|].
  destruct (user_plugins_come_last Sample.opts Sample.production
              Sample.plain_host _ eq_refl) as (front & _ & _ & Hnone).
  apply Hnone; reflexivity.
Defined.

(** ** The lint engine and the lint overrides *)

Lemma eslintOptions_Ok_inv opts host eo :
  eslintOptions opts host = Ok eo →
  ∃ umi bundled,
    Host.require_resolve host "eslint-config-umi" = Some umi
    ∧ Host.require_resolve host "eslint" = Some bundled
    ∧ eo = use_user_eslintrc host
             (use_user_eslint opts host
                {| EslintOptions.formatter := eslintFormatter;
                   EslintOptions.baseConfig :=
                     JObj {[ "extends" := JArr [JStr umi] ]};
                   EslintOptions.ignore := false;
                   EslintOptions.eslintPath := bundled;
                   EslintOptions.useEslintrc := false |}).
Proof.
  unfold eslintOptions, eslintOptions_literal, require_resolve. intros H.
  destruct (Host.require_resolve host "eslint-config-umi") as [umi|];
    [|discriminate].
  destruct (Host.require_resolve host "eslint") as [bundled|];
    [|discriminate].
  injection H as <-. eauto.
Qed.

Lemma use_user_eslintrc_eslintPath host o :
  EslintOptions.eslintPath (use_user_eslintrc host o)
  = EslintOptions.eslintPath o
  ∧ EslintOptions.formatter (use_user_eslintrc host o)
    = EslintOptions.formatter o.
Proof.
  unfold use_user_eslintrc, readRc.
  destruct (Host.existsSync host _); [|auto].
  destruct (Host.readRc host _) as [rc|]; [|auto].
  cbn [bind]. destruct (get_prop rc "extends") as [e|]; [|auto].
  cbn [bind]. destruct (truthy e); auto.
Qed.

(** X11. The lint engine of the resolved lint options is the bundled one or
    the one resolved from [opts.cwd], nothing else.  For a manifest that
    is an object, read from where the source looks for it:
    - without a [dependencies] table the bundled engine is kept, whatever
      [devDependencies] lists;
    - with a [dependencies] object and either a truthy [eslint] entry in
      it or a truthy [devDependencies], the engine is the project's when
      it resolves from [opts.cwd], and the bundled one when it does not;
    - with a [dependencies] object without a truthy [eslint] entry and a
      falsy or absent [devDependencies], the bundled engine is kept.
    A manifest that cannot be read keeps the bundled engine. *)
Theorem lint_engine_is_bundled_or_project opts host eo :
  eslintOptions opts host = Ok eo →
  ∃ bundled,
    Host.require_resolve host "eslint" = Some bundled
    ∧ (EslintOptions.eslintPath eo = bundled
       ∨ Host.resolveSync host "eslint" (cwd opts)
         = Some (EslintOptions.eslintPath eo))
    ∧ (Host.require host (resolve host ["package.json"]) = None →
       EslintOptions.eslintPath eo = bundled)
    ∧ ∀ pkg,
        Host.require host (resolve host ["package.json"]) = Some (JObj pkg) →
        (pkg !! "dependencies" = None →
         EslintOptions.eslintPath eo = bundled)
        ∧ (∀ deps,
             pkg !! "dependencies" = Some (JObj deps) →
             let wanted :=
               truthy (default JUndefined (deps !! "eslint"))
               || truthy (default JUndefined (pkg !! "devDependencies")) in
             (wanted = false → EslintOptions.eslintPath eo = bundled)
             ∧ (wanted = true →
                EslintOptions.eslintPath eo
                = default bundled
                    (Host.resolveSync host "eslint" (cwd opts)))).
Proof.
  intros H.
  apply eslintOptions_Ok_inv in H as (umi & bundled & _ & Hb & ->).
  exists bundled. split; [assumption|].
  rewrite (proj1 (use_user_eslintrc_eslintPath host _)).
  unfold use_user_eslint, require, resolveSync.
  split; [|split].
  - destruct (Host.require host _) as [pkg|]; cbn [bind try_catch]; auto.
    destruct (get_prop pkg "dependencies") as [deps|];
      cbn [bind try_catch]; auto.
    destruct (get_prop pkg "devDependencies") as [dev|];
      cbn [bind try_catch]; auto.
    destruct (get_prop deps "eslint") as [e|]; cbn [bind try_catch]; auto.
    destruct (truthy e || truthy dev); cbn [bind try_catch]; auto.
    destruct (Host.resolveSync host "eslint" (cwd opts)) as [p|] eqn:Hp;
      cbn [bind try_catch]; auto.
  - intros ->. reflexivity.
  - intros pkg ->. cbv [bind get_prop]. split.
    + intros ->. reflexivity.
    + intros deps ->. cbv [from_option id bind try_catch].
      destruct (truthy match deps !! "eslint" with
                       | Some x => x
                       | None => JUndefined
                       end
                || truthy match pkg !! "devDependencies" with
                          | Some x => x
                          | None => JUndefined
                          end);
        split; intros; try discriminate;
        destruct (Host.resolveSync host "eslint" (cwd opts)); reflexivity.
Qed.

Lemma lint_engine_is_bundled_or_project_witness :
  ∃ eo bundled,
    eslintOptions Sample.opts
      (Sample.host [] "/app" (Some Sample.manifest_with_eslint) None) = Ok eo
    ∧ Host.require_resolve
        (Sample.host [] "/app" (Some Sample.manifest_with_eslint) None)
        "eslint" = Some bundled
    ∧ (EslintOptions.eslintPath eo = bundled
       ∨ Host.resolveSync
           (Sample.host [] "/app" (Some Sample.manifest_with_eslint) None)
           "eslint" (cwd Sample.opts)
         = Some (EslintOptions.eslintPath eo)).
Proof.
  eexists.
  destruct (lint_engine_is_bundled_or_project Sample.opts
              (Sample.host [] "/app" (Some Sample.manifest_with_eslint) None)
              _ eq_refl) as (bundled & Hb & Hor & _).
  exists bundled. split; [reflexivity|]. split; [exact Hb | exact Hor].
Defined.

(** X12. The two lint overrides act on different fields and do not depend
    on one another: the manifest step changes at most [eslintPath], the
    [.eslintrc] step never changes [eslintPath] or the formatter, and
    applying them in either order gives the same options. *)
Theorem lint_overrides_commute opts host o :
  use_user_eslintrc host (use_user_eslint opts host o)
  = use_user_eslint opts host (use_user_eslintrc host o)
  ∧ EslintOptions.baseConfig (use_user_eslint opts host o)
    = EslintOptions.baseConfig o
  ∧ EslintOptions.ignore (use_user_eslint opts host o)
    = EslintOptions.ignore o
  ∧ EslintOptions.useEslintrc (use_user_eslint opts host o)
    = EslintOptions.useEslintrc o
  ∧ EslintOptions.formatter (use_user_eslint opts host o)
    = EslintOptions.formatter o
  ∧ EslintOptions.eslintPath (use_user_eslintrc host o)
    = EslintOptions.eslintPath o
  ∧ EslintOptions.formatter (use_user_eslintrc host o)
    = EslintOptions.formatter o.
Proof.
  split; [|split; [|split; [|split; [|split]]]];
    try apply use_user_eslint_baseConfig;
    try apply use_user_eslintrc_eslintPath.
  - unfold use_user_eslintrc, use_user_eslint, readRc, require, resolveSync.
    destruct (Host.existsSync host _); [|reflexivity].
    destruct (Host.readRc host _) as [rc|];
      cbn [bind try_catch]; [|reflexivity].
    destruct (get_prop rc "extends") as [e|];
      cbn [bind try_catch]; [|reflexivity].
    destruct (Host.require host _) as [pkg|];
      cbn [bind try_catch]; [|reflexivity].
    destruct (get_prop pkg "dependencies") as [deps|];
      cbn [bind try_catch]; [|reflexivity].
    destruct (get_prop pkg "devDependencies") as [dev|];
      cbn [bind try_catch]; [|reflexivity].
    destruct (get_prop deps "eslint") as [x|];
      cbn [bind try_catch]; [|reflexivity].
    destruct (truthy x || truthy dev);
      cbn [bind try_catch]; [|reflexivity].
    destruct (Host.resolveSync host _ _);
      cbn [bind try_catch]; destruct (truthy e); reflexivity.
  - unfold use_user_eslint, require, resolveSync.
    destruct (Host.require host _) as [pkg|]; cbn [bind try_catch]; auto.
    destruct (get_prop pkg "dependencies") as [deps|];
      cbn [bind try_catch]; auto.
    destruct (get_prop pkg "devDependencies") as [dev|];
      cbn [bind try_catch]; auto.
    destruct (get_prop deps "eslint") as [x|]; cbn [bind try_catch]; auto.
    destruct (truthy x || truthy dev); cbn [bind try_catch]; auto.
    destruct (Host.resolveSync host _ _); reflexivity.
Qed.

(** X13. Without an [.eslintrc] where the source looks for it, and likewise
    when the file holds [null], the resolved lint options have the default
    rule-set [{extends: [eslint-config-umi]}] with [ignore] and
    [useEslintrc] both [false]; the reader is not consulted when the file
    does not exist. *)
Theorem default_lint_configuration opts host eo :
  eslintOptions opts host = Ok eo →
  Host.existsSync host (resolve host [".eslintrc"]) = false
  ∨ Host.readRc host (resolve host [".eslintrc"]) = Some JNull →
  ∃ umi,
    Host.require_resolve host "eslint-config-umi" = Some umi
    ∧ EslintOptions.baseConfig eo = JObj {[ "extends" := JArr [JStr umi] ]}
    ∧ EslintOptions.ignore eo = false
    ∧ EslintOptions.useEslintrc eo = false.
Proof.
  intros H Hrc.
  apply eslintOptions_Ok_inv in H as (umi & bundled & Hu & _ & ->).
  exists umi. split; [assumption|].
  set (literal := {| EslintOptions.formatter := eslintFormatter;
                     EslintOptions.baseConfig := _;
                     EslintOptions.ignore := false;
                     EslintOptions.eslintPath := bundled;
                     EslintOptions.useEslintrc := false |}).
  destruct (use_user_eslint_baseConfig opts host literal) as (Hb & Hi & Hs).
  assert (Hid : use_user_eslintrc host (use_user_eslint opts host literal)
                = use_user_eslint opts host literal).
  { unfold use_user_eslintrc, readRc. destruct Hrc as [->| ->].
    - reflexivity.
    - destruct (Host.existsSync host _); reflexivity. }
  rewrite Hid, Hb, Hi, Hs. auto.
Qed.

Lemma default_lint_configuration_witness :
  ∃ eo, eslintOptions Sample.opts
          (Sample.host [] "/app" None (Some (Some JNull))) = Ok eo
        ∧ EslintOptions.baseConfig eo
          = JObj {[ "extends" :=
                      JArr [JStr "/af/node_modules/eslint-config-umi"] ]}
        ∧ EslintOptions.ignore eo = false
        ∧ EslintOptions.useEslintrc eo = false.
Proof.
  eexists. split; [reflexivity|].
  destruct (default_lint_configuration Sample.opts
              (Sample.host [] "/app" None (Some (Some JNull))) _ eq_refl
              (or_intror eq_refl)) as (umi & Hu & Hb & Hi & Hs).
  injection Hu as <-. split; [exact Hb|]. split; [exact Hi | exact Hs].
Defined.

(** X14. When present in a returned configuration, the script-lint rule is
    scoped to [opts.cwd], excludes [node_modules], and runs the resolved
    eslint-loader alone with the resolved lint options; the type-lint rule
    has the same scope and runs the resolved tslint-loader alone with
    [emitErrors: true]. *)
Theorem prepass_rules_content opts env host c :
  config opts env host = Ok c →
  (truthy_str (Env.DISABLE_ESLINT env) = false →
   ∃ loader eo,
     Host.require_resolve host "eslint-loader" = Some loader
     ∧ eslintOptions opts host = Ok eo
     ∧ List.filter is_script_lint (Config.rules c)
       = [eslint_prepass (cwd opts) loader eo])
  ∧ (truthy_str (Env.DISABLE_TSLINT env) = false →
     ∃ loader,
       Host.require_resolve host "tslint-loader" = Some loader
       ∧ List.filter is_type_lint (Config.rules c)
         = [tslint_prepass (cwd opts) loader]).
Proof.
  intros H.
  destruct (config_tiers _ _ _ _ H)
    as (eo & ts & es & rest & Heo & Hts & Hes & _ & -> & -> & _).
  split; intros Hflag.
  - apply eslintRule_Ok_inv in Hes as [[Hyes _]|(_ & p & Hp & ->)];
      [congruence|]. eauto.
  - apply tslintRule_Ok_inv in Hts as [[Hyes _]|(_ & p & Hp & ->)];
      [congruence|]. eauto.
Qed.

Lemma prepass_rules_content_witness :
  ∃ c loader eo,
    config Sample.opts Sample.production Sample.plain_host = Ok c
    ∧ eslintOptions Sample.opts Sample.plain_host = Ok eo
    ∧ List.filter is_script_lint (Config.rules c)
      = [eslint_prepass "/app" loader eo].
Proof.
  eexists.
  destruct (prepass_rules_content Sample.opts Sample.production
              Sample.plain_host _ eq_refl) as [He _].
  destruct (He eq_refl) as (loader & eo & _ & Heo & Hf).
  exists loader, eo. split; [reflexivity|]. split; [exact Heo | exact Hf].
Defined.

(** ** What the development build does not read *)

(** X15. In development mode the outcome of [config] does not depend on
    [opts.hash], [opts.manifest], [opts.disableCSSSourceMap] or
    [NO_COMPRESS]: two calls that differ in these alone return the same
    configuration, or throw the same exception. *)
Theorem development_ignores_production_options opts opts' env env' host :
  isDev env = true →
  same_but_production_options opts opts' →
  same_but_NO_COMPRESS env env' →
  config opts' env' host = config opts env host.
Proof.
  intros Hdev Ho He.
  assert (Hdev' : isDev env' = true)
    by (rewrite (isDev_same _ _ (snc_NODE_ENV _ _ He)); exact Hdev).
  destruct Ho, He.
  unfold config, cssRules, cssRules_literal, getCSSLoader, cssOptions,
    postcssOptions, cssModulesConfig, lessOptions, theme, babelUse,
    eslintOptions, use_user_eslint, config_literal, tslintRule, eslintRule,
    mainRules, plugins, plugin_calls, commonsPlugins, copyPlugins,
    outputPath, jsHash, cssHash, cwd.
  rewrite Hdev, Hdev'.
  repeat match goal with
         | E : _ opts' = _ opts |- _ => rewrite E; clear E
         | E : _ env' = _ env |- _ => rewrite E; clear E
         end.
  reflexivity.
Qed.

Lemma development_ignores_production_options_witness :
  config (Sample.make_opts (Some "/app") None JUndefined JUndefined)
    Sample.development Sample.plain_host
  = config Sample.opts Sample.development Sample.plain_host.
Proof.
  apply development_ignores_production_options.
  - reflexivity.
  - constructor; reflexivity.
  - constructor; reflexivity.
Defined.

(** ** What the public-path override does not touch *)

Lemma set_publicPath_twice v w c :
  Config.set_publicPath v (Config.set_publicPath w c)
  = Config.set_publicPath v c.
Proof. reflexivity. Qed.

(** X16. [PUBLIC_PATH] bears on [output.publicPath] and on nothing else:
    two calls that differ in that variable alone both throw the same
    exception or both return, and the two configurations are equal once
    their public paths are set to the same value. *)
Theorem PUBLIC_PATH_touches_publicPath_only opts env env' host :
  same_but_PUBLIC_PATH env env' →
  (∀ e, config opts env host = Throw e → config opts env' host = Throw e)
  ∧ (∀ c, config opts env host = Ok c →
       ∃ c', config opts env' host = Ok c'
             ∧ ∀ v, Config.set_publicPath v c' = Config.set_publicPath v c).
Proof.
  intros He.
  assert (Hcss : cssRules opts env' host = cssRules opts env host).
  { destruct He. unfold cssRules, cssRules_literal, getCSSLoader, cssOptions.
    rewrite (isDev_same env env') by assumption.
    rewrite spp_NO_COMPRESS0. reflexivity. }
  assert (Hbabel : babelUse opts env' host = babelUse opts env host).
  { destruct He. unfold babelUse. rewrite spp_DISABLE_BABELRC0.
    reflexivity. }
  assert (Hlit : ∀ css commons copy babel eo,
            config_literal opts env' host css commons copy babel eo
            = config_literal opts env host css commons copy babel eo).
  { intros css commons copy babel eo. destruct He.
    unfold config_literal, tslintRule, eslintRule, plugins, plugin_calls,
      jsHash, cssHash.
    rewrite (isDev_same env env') by assumption.
    repeat match goal with
           | E : _ env' = _ env |- _ => rewrite E; clear E
           end.
    reflexivity. }
  unfold config. rewrite Hcss, Hbabel.
  destruct (truthy_str (Opts.cwd opts)); cbn [negb];
    [|split; [auto | discriminate]].
  destruct (normalizeTheme host (Opts.theme opts)) as [theme|e0];
    cbn [bind]; [|split; [auto | discriminate]].
  destruct (cssRules opts env host) as [css|e0]; cbn [bind];
    [|split; [auto | discriminate]].
  destruct (commonsPlugins opts host) as [commons|e0]; cbn [bind];
    [|split; [auto | discriminate]].
  destruct (copyPlugins opts host) as [copy|e0]; cbn [bind];
    [|split; [auto | discriminate]].
  destruct (babelUse opts env host) as [babel|e0]; cbn [bind];
    [|split; [auto | discriminate]].
  destruct (eslintOptions opts host) as [eo|e0]; cbn [bind];
    [|split; [auto | discriminate]].
  rewrite Hlit.
  destruct (config_literal opts env host css commons copy babel eo)
    as [lit|e0];
    cbn [bind]; [|split; [auto | discriminate]].
  split; [discriminate|].
  intros c [= <-]. eexists. split; [reflexivity|].
  intros v.
  destruct (truthy_str (Env.PUBLIC_PATH env'));
    destruct (truthy_str (Env.PUBLIC_PATH env));
    rewrite ?set_publicPath_twice; reflexivity.
Qed.

Lemma PUBLIC_PATH_touches_publicPath_only_witness :
  ∃ c c',
    config Sample.opts_publicPath Sample.production Sample.plain_host = Ok c
    ∧ config Sample.opts_publicPath Sample.production_PUBLIC_PATH
        Sample.plain_host = Ok c'
    ∧ ∀ v, Config.set_publicPath v c' = Config.set_publicPath v c.
Proof.
  eexists.
  destruct (PUBLIC_PATH_touches_publicPath_only Sample.opts_publicPath
              Sample.production Sample.production_PUBLIC_PATH
              Sample.plain_host) as [_ Hok].
  - constructor; reflexivity.
  - destruct (Hok _ eq_refl) as (c' & Hc' & Hset).
    exists c'. split; [reflexivity|]. split; [exact Hc' | exact Hset].
Defined.

(** ** The options of the css-loader step *)


(** ** The last step of the style chains *)

Lemma style_rule_is_in_cssRules opts env host c r :
  config opts env host = Ok c →
  r ∈ Config.rules c →
  Rule.test r = Some (Regex "\.css$")
  ∨ Rule.test r = Some (Regex "\.less$")
  ∨ Rule.test r = Some (Regex "\.(sass|scss)$") →
  ∃ style css postcss less,
    Host.require_resolve host "postcss-loader" = Some postcss
    ∧ Host.require_resolve host "less-loader" = Some less
    ∧ r ∈ (if isDev env
           then six_rules opts (style_chain opts env host style css postcss)
           else extract_rule
                <$> six_rules opts
                      (style_chain opts env host style css postcss)).
Proof.
  intros H Hr Htest.
  destruct (config_parts _ _ _ _ H)
    as (eo & ts & es & url & ats & file & babel & rules
        & _ & Hts & Hes & _ & Hcss & _ & _ & _ & Hrules & _).
  apply cssRules_Ok_inv in Hcss as (literal & Hlit & ->).
  apply cssRules_literal_Ok_inv in Hlit
    as (style & css & postcss & _ & _ & Hp & [less Hl] & ->).
  exists style, css, postcss, less. split; [assumption|].
  split; [assumption|].
  rewrite Hrules in Hr.
  destruct (rule_origin _ _ _ _ _ _ _ _ Hts Hes Hr) as [[_ [E|E]]|Hr'].
  - rewrite E in Htest. destruct Htest as [?|[?|?]]; discriminate.
  - rewrite E in Htest. destruct Htest as [?|[?|?]]; discriminate.
  - apply elem_of_app in Hr' as [Ht|Hc]; [|exact Hc].
    unfold transform_rules in Ht.
    rewrite !elem_of_cons, elem_of_app, list_elem_of_fmap in Ht.
    destruct Ht as [->|[->|[->|[(i & -> & _)|Ht]]]];
      try (destruct Htest as [?|[?|?]]; discriminate).
    apply list_elem_of_singleton in Ht as ->.
    destruct Htest as [?|[?|?]]; discriminate.
Qed.

(** X18. Every style rule of a returned configuration ends with the step
    of its language: a [.css] rule with postcss-loader, a [.less] rule
    with less-loader carrying the normalized theme as [modifyVars], and a
    [.sass]/[.scss] rule with sass-loader carrying [opts.sass], or with
    postcss-loader when sass-loader does not resolve.  The chains have
    three steps in development mode, plus the preprocessor step when there
    is one, and one step fewer otherwise. *)
Theorem style_chains_end_with_their_language_step opts env host c :
  config opts env host = Ok c →
  ∃ postcss less vars,
    Host.require_resolve host "postcss-loader" = Some postcss
    ∧ Host.require_resolve host "less-loader" = Some less
    ∧ Host.normalizeTheme host (Opts.theme opts) = Some vars
    ∧ ∀ r, r ∈ Config.rules c →
        let base := if isDev env then 3 else 2 in
        (Rule.test r = Some (Regex "\.css$") →
         last (chain_of r)
         = Some (LoaderWith postcss (postcssOptions opts host))
         ∧ length (chain_of r) = base)
        ∧ (Rule.test r = Some (Regex "\.less$") →
           last (chain_of r)
           = Some (LoaderWith less
                     (Options (JObj {[ "modifyVars" := vars ]})))
           ∧ length (chain_of r) = S base)
        ∧ (Rule.test r = Some (Regex "\.(sass|scss)$") →
           match Host.require_resolve host "sass-loader" with
           | Some sass =>
               last (chain_of r)
               = Some (LoaderWith sass (Options (Opts.sass opts)))
               ∧ length (chain_of r) = S base
           | None =>
               last (chain_of r)
               = Some (LoaderWith postcss (postcssOptions opts host))
               ∧ length (chain_of r) = base
           end).
Proof.
  intros H.
  destruct (config_parts _ _ _ _ H)
    as (eo & ts & es & url & ats & file & babel & rules
        & _ & _ & _ & _ & Hcss & _).
  apply cssRules_Ok_inv in Hcss as (literal & Hlit & _).
  apply cssRules_literal_Ok_inv in Hlit
    as (style0 & css0 & postcss & _ & _ & Hp & [less Hl] & _).
  destruct (config_synthesis _ _ _ _ H) as (? & ? & ? & ? & ? & ? & S).
  destruct (syn_cooperative _ _ _ _ _ _ _ _ _ _ S) as [[vars Htheme] _].
  clear S.
  exists postcss, less, vars.
  split; [assumption|]. split; [assumption|]. split; [assumption|].
  intros r Hr base.
  assert (Hcase : ∀ (P : Prop),
    Rule.test r = Some (Regex "\.css$")
    ∨ Rule.test r = Some (Regex "\.less$")
    ∨ Rule.test r = Some (Regex "\.(sass|scss)$") →
    (∀ style css,
       r ∈ (if isDev env
            then six_rules opts (style_chain opts env host style css postcss)
            else extract_rule
                 <$> six_rules opts
                       (style_chain opts env host style css postcss)) →
       P) → P).
  { intros P Htest HP.
    destruct (style_rule_is_in_cssRules _ _ _ _ _ H Hr Htest)
      as (style & css & postcss' & less' & Hp' & _ & Hin).
    rewrite Hp in Hp'. injection Hp' as <-. eauto. }
  subst base.
  split; [|split]; intros Htest; eapply Hcase; eauto; intros style css Hin;
    destruct (isDev env);
    unfold six_rules in Hin; cbn [fmap list_fmap] in Hin;
    rewrite !elem_of_cons in Hin;
    destruct Hin as [->|[->|[->|[->|[->|[->|Hin]]]]]];
    try discriminate Htest; try (inversion Hin; fail);
    unfold chain_of, extract_rule, use_rule, style_chain, preprocessor_steps,
      loader_opts, lessOptions, theme;
    cbn [Rule.use CSSLoaderOpts.less CSSLoaderOpts.sass
         CSSLoaderOpts.sassOptions drop app];
    rewrite ?Hl, ?Htheme;
    try destruct (Host.require_resolve host "sass-loader");
    split; reflexivity.
Qed.

Lemma style_chains_end_with_their_language_step_witness :
  ∃ c, config Sample.opts Sample.production
         (Sample.host ["sass-loader"] "/app" None None) = Ok c
       ∧ ∀ r, r ∈ Config.rules c →
              Rule.test r = Some (Regex "\.less$") →
              last (chain_of r)
              = Some (LoaderWith "/af/node_modules/less-loader"
                        (Options (JObj {[ "modifyVars" := JObj ∅ ]})))
              ∧ length (chain_of r) = 3.
Proof.
  eexists. split; [reflexivity|].
  destruct (style_chains_end_with_their_language_step Sample.opts
              Sample.production
              (Sample.host ["sass-loader"] "/app" None None) _ eq_refl)
    as (postcss & less & theme & _ & Hl & Htheme & Hall).
  injection Hl as <-. injection Htheme as <-.
  intros r Hr. exact (proj1 (proj2 (Hall r Hr))).
Defined.

(** ** Module resolution *)

Lemma config_resolve opts env host c :
  config opts env host = Ok c →
  ∃ runtime,
    Host.require_resolve host "@babel/runtime/package" = Some runtime
    ∧ Config.resolve c
      = {| Resolve.modules :=
             [resolve host [Host.dirname__ host; "../node_modules"];
              "node_modules"]
             ++ default [] (Opts.extraResolveModules opts);
           Resolve.extensions :=
             default [] (Opts.extraResolveExtensions opts)
             ++ [".web.js"; ".web.jsx"; ".web.ts"; ".web.tsx"; ".js";
                 ".json"; ".jsx"; ".ts"; ".tsx"];
           Resolve.alias :=
             spread {[ "@babel/runtime" := JStr (Path.dirname runtime) ]}
                    (own_props (Opts.alias opts)) |}.
Proof.
  unfold config. intros H.
  destruct (truthy_str (Opts.cwd opts)); [|discriminate].
  cbn [negb] in H.
  inv_bind H. inv_bind H. inv_bind H. inv_bind H. inv_bind H. inv_bind H.
  inv_bind H. rename E5 into Hlit.
  unfold config_literal, require_resolve in Hlit.
  destruct (Host.require_resolve host "@babel/runtime/package") as [rt|];
    [|discriminate].
  cbn [bind] in Hlit.
  inv_bind Hlit. inv_bind Hlit. inv_bind Hlit. inv_bind Hlit.
  injection Hlit as <-. injection H as <-.
  exists rt. split; [reflexivity|].
  destruct (truthy_str (Env.PUBLIC_PATH env)); reflexivity.
Qed.

(** X19. In a returned configuration the user's extra extensions come
    before the nine built-in ones and the user's extra module directories
    after the two built-in ones.  An alias the user declares wins, also
    for [@babel/runtime]; where the user declares none, [@babel/runtime]
    is the directory of the resolved runtime package, and every other
    alias is the user's. *)
Theorem resolution_settings opts env host c :
  config opts env host = Ok c →
  ∃ runtime,
    Host.require_resolve host "@babel/runtime/package" = Some runtime
    ∧ Resolve.extensions (Config.resolve c)
      = default [] (Opts.extraResolveExtensions opts)
        ++ [".web.js"; ".web.jsx"; ".web.ts"; ".web.tsx"; ".js"; ".json";
            ".jsx"; ".ts"; ".tsx"]
    ∧ Resolve.modules (Config.resolve c)
      = [Path.resolve (Host.process_cwd host)
           [Host.dirname__ host; "../node_modules"];
         "node_modules"]
        ++ default [] (Opts.extraResolveModules opts)
    ∧ (∀ k v, own_props (Opts.alias opts) !! k = Some v →
              Resolve.alias (Config.resolve c) !! k = Some v)
    ∧ (own_props (Opts.alias opts) !! "@babel/runtime" = None →
       Resolve.alias (Config.resolve c) !! "@babel/runtime"
       = Some (JStr (Path.dirname runtime)))
    ∧ (∀ k, k ≠ "@babel/runtime" →
            Resolve.alias (Config.resolve c) !! k
            = own_props (Opts.alias opts) !! k).
Proof.
  intros H. apply config_resolve in H as (runtime & Hrt & ->).
  exists runtime. split; [assumption|].
  cbn [Resolve.extensions Resolve.modules Resolve.alias].
  split; [reflexivity|]. split; [reflexivity|]. split; [|split].
  - intros k v Hk. rewrite spread_lookup, Hk. reflexivity.
  - intros Hk. rewrite spread_lookup, Hk. apply lookup_singleton_eq.
  - intros k Hk. rewrite spread_lookup.
    destruct (own_props (Opts.alias opts) !! k); [reflexivity|].
    apply lookup_singleton_ne. congruence.
Qed.

Lemma resolution_settings_witness :
  ∃ c, config Sample.opts Sample.production Sample.plain_host = Ok c
       ∧ Resolve.alias (Config.resolve c) !! "@babel/runtime"
         = Some (JStr "/af/node_modules/@babel/runtime").
Proof.
  eexists. split; [reflexivity|].
  destruct (resolution_settings Sample.opts Sample.production
              Sample.plain_host _ eq_refl)
    as (runtime & Hrt & _ & _ & _ & Ha & _).
  injection Hrt as <-. apply Ha. reflexivity.
Defined.
